(** * WhatsApp chat analyzer: parser and feature extraction

    A shallow embedding of [src/preprocessor.py] ([parse_chat],
    [preprocess], [analyze_chat]) together with the parts of the Python
    standard library and of pandas that these functions call, and the
    properties of the pipeline stated in the specification.

    - A Python string is a list of Unicode code points.
    - The patterns of the parser and the directives of [strptime] run on
      a backtracking matcher with the order of choices of [re].
    - A DataFrame is a record of columns; the derived columns are absent
      until [preprocess] adds them.
    - A call that may raise returns a value of [Exc].
    - [pd.to_datetime] converts a column element by element; the locale
      of [strptime] is the C locale.
    - [str.lower], the URL extractor, the emoji table and the part of the
      date parser of pandas behind its ISO 8601 fast path are fields of
      the class [Libs], and so are two choices that pandas made
      differently before and from its version 3. *)

From Stdlib Require Import String Ascii List NArith ZArith Lia Bool Permutation Sorted.
Import ListNotations.

(* ===================================================================== *)
(** ** Python strings *)
(* ===================================================================== *)

Module PyStr.

(** A character is a Unicode code point, a [str] a list of them. *)
Definition char := N.
Definition str := list char.

(** ASCII literals. *)
Definition lit (s : string) : str := map N_of_ascii (list_ascii_of_string s).

Definition ch (a : ascii) : char := N_of_ascii a.

(** The line feed. *)
Definition nl : char := 10%N.

Definition in_range (lo hi c : N) : bool := (N.leb lo c && N.leb c hi)%bool.

Fixpoint str_eqb (a b : str) : bool :=
  match a, b with
  | [], [] => true
  | x :: a', y :: b' => (N.eqb x y && str_eqb a' b')%bool
  | _, _ => false
  end.

(** [a < b] on strings: the order of the code points. *)
Fixpoint str_ltb (a b : str) : bool :=
  match a, b with
  | _, [] => false
  | [], _ :: _ => true
  | x :: a', y :: b' =>
      if N.ltb x y then true
      else if N.ltb y x then false
      else str_ltb a' b'
  end.

(** [a.startswith(b)] read as "b is a prefix of a". *)
Fixpoint prefix_of (p s : str) : bool :=
  match p, s with
  | [], _ => true
  | x :: p', y :: s' => (N.eqb x y && prefix_of p' s')%bool
  | _ :: _, [] => false
  end.

(** [sub in s]. *)
Fixpoint contains (sub s : str) : bool :=
  match s with
  | [] => prefix_of sub []
  | _ :: s' => (prefix_of sub s || contains sub s')%bool
  end.

(** [s.count(c)] for a one-character needle. *)
Definition count_char (c : char) (s : str) : nat :=
  length (filter (N.eqb c) s).

(** [s.split(sep)] for a one-character separator: never empty, keeps
    empty pieces. *)
Fixpoint split_on (sep : char) (s : str) : list str :=
  match s with
  | [] => [[]]
  | c :: s' =>
      if N.eqb c sep then [] :: split_on sep s'
      else match split_on sep s' with
           | h :: t => (c :: h) :: t
           | [] => [[c]]
           end
  end.

(** [sep.join(pieces)]. *)
Fixpoint join (sep : str) (pieces : list str) : str :=
  match pieces with
  | [] => []
  | [p] => p
  | p :: rest => p ++ sep ++ join sep rest
  end.

(** White space as [str.isspace] and the regex class [\s] see it
    (Unicode 14, the table of CPython 3.11). *)
Definition is_space (c : char) : bool :=
  (in_range 9 13 c || in_range 28 32 c || N.eqb c 133 || N.eqb c 160
   || N.eqb c 5760 || in_range 8192 8202 c || in_range 8232 8233 c
   || N.eqb c 8239 || N.eqb c 8287 || N.eqb c 12288)%bool.

(** Start of each run of ten decimal digits of category Nd. *)
Definition decimal_blocks : list N :=
  [ 48; 1632; 1776; 1984; 2406; 2534; 2662; 2790; 2918; 3046; 3174; 3302;
    3430; 3558; 3664; 3792; 3872; 4160; 4240; 6112; 6160; 6470; 6608; 6784;
    6800; 6992; 7088; 7232; 7248; 42528; 43216; 43264; 43472; 43504; 43600;
    44016; 65296; 66720; 68912; 69734; 69872; 69942; 70096; 70384; 70736;
    70864; 71248; 71360; 71472; 71904; 72016; 72784; 73040; 73120; 92768;
    92864; 93008; 120782; 120792; 120802; 120812; 120822; 123200; 123632;
    125264; 130032 ]%N.

(** The decimal value of a character of category Nd, as
    [unicodedata.decimal]; [None] for every other character. *)
Definition decimal_value (c : char) : option N :=
  match find (fun b => in_range b (b + 9) c) decimal_blocks with
  | Some b => Some (c - b)%N
  | None => None
  end.

(** The regex class [\d] and [str.isdecimal]. *)
Definition is_decimal (c : char) : bool :=
  match decimal_value c with Some _ => true | None => false end.

Definition is_ascii_digit (c : char) : bool := in_range 48 57 c.

(** Every character of category Nd. *)
Definition all_decimals : list char :=
  flat_map (fun b => map (fun k => (b + k)%N) [0; 1; 2; 3; 4; 5; 6; 7; 8; 9]%N)
           decimal_blocks.

(** The number a run of decimal digits denotes. *)
Definition digits_value (w : str) : N :=
  fold_left (fun acc c =>
               (10 * acc + match decimal_value c with
                           | Some v => v
                           | None => 0
                           end)%N) w 0%N.

(** [s.split()]: pieces separated by runs of white space, none empty. *)
Fixpoint split_ws_aux (cur : str) (s : str) : list str :=
  match s with
  | [] => match cur with [] => [] | _ => [rev cur] end
  | c :: s' =>
      if is_space c
      then match cur with
           | [] => split_ws_aux [] s'
           | _ => rev cur :: split_ws_aux [] s'
           end
      else split_ws_aux (c :: cur) s'
  end.

Definition split_ws (s : str) : list str := split_ws_aux [] s.

(** The white space that [int] skips at both ends: ASCII white space
    below 127 and Unicode white space from 127 on. *)
Definition int_space (c : char) : bool :=
  if N.ltb c 127 then (in_range 9 13 c || N.eqb c 32)%bool else is_space c.

(** The decimal digit [int] reads in a character. *)
Definition int_digit (c : char) : option N :=
  if N.ltb c 127 then (if is_ascii_digit c then Some (c - 48)%N else None)
  else decimal_value c.

(** Digits with single underscores between them, most significant
    first; [acc] is the value read so far and [after_digit] tells whether
    the previous character was a digit. Stops at the first character
    that is neither. *)
Fixpoint int_digits (acc : N) (after_digit : bool) (s : str)
  : option (N * str) :=
  match s with
  | [] => if after_digit then Some (acc, []) else None
  | c :: s' =>
      match int_digit c with
      | Some d => int_digits (10 * acc + d)%N true s'
      | None =>
          if N.eqb c 95 then
            if after_digit then int_digits acc false s' else None
          else if after_digit then Some (acc, s) else None
      end
  end.

Fixpoint drop_while (p : char -> bool) (s : str) : str :=
  match s with
  | c :: s' => if p c then drop_while p s' else s
  | [] => []
  end.

(** [int(s)] in base ten; [None] stands for [ValueError]. *)
Definition py_int (s : str) : option Z :=
  let s1 := drop_while int_space s in
  let '(neg, s2) :=
    match s1 with
    | c :: r => if N.eqb c 45 then (true, r)
                else if N.eqb c 43 then (false, r) else (false, s1)
    | [] => (false, s1)
    end in
  match int_digits 0 false s2 with
  | Some (n, rest) =>
      match drop_while int_space rest with
      | [] => Some (if neg then (- Z.of_N n)%Z else Z.of_N n)
      | _ => None
      end
  | None => None
  end.

(** Two decimal digits of a number below 100, as [%02d]. *)
Definition two_digits (n : Z) : str :=
  [ (48 + Z.to_N (n / 10))%N; (48 + Z.to_N (n mod 10))%N ].

(** Four decimal digits of a number below 10000, as [%04d]. *)
Definition four_digits (n : Z) : str :=
  [ (48 + Z.to_N (n / 1000))%N; (48 + Z.to_N ((n / 100) mod 10))%N;
    (48 + Z.to_N ((n / 10) mod 10))%N; (48 + Z.to_N (n mod 10))%N ].

End PyStr.

Import PyStr.

(* ===================================================================== *)
(** ** Regular expressions: the backtracking matcher of [re] *)
(* ===================================================================== *)

Module Re.

(** The fragment of the syntax of [re] the program and [strptime] use.
    A repetition has a one-character body, greedy or lazy, with a lower
    bound and an optional upper bound. Groups are not nested and are
    numbered in the order they close. *)
Inductive regex : Type :=
| Eps
| Chr (c : char)
| Cls (p : char -> bool)
| Rep (greedy : bool) (lo : nat) (hi : option nat) (p : char -> bool)
| Cat (r1 r2 : regex)
| Alt (r1 r2 : regex)
| Grp (r : regex).

Definition seq (rs : list regex) : regex := fold_right Cat Eps rs.

(** [.] matches everything but a line feed. *)
Definition dot (c : char) : bool := negb (N.eqb c nl).

Definition digit : regex := Cls is_decimal.
Definition space : regex := Cls is_space.
Definition one_of (s : string) : regex :=
  Cls (fun c => existsb (N.eqb c) (lit s)).
Definition digits (lo hi : nat) : regex := Rep true lo (Some hi) is_decimal.

Definition hi_zero (hi : option nat) : bool :=
  match hi with Some 0 => true | _ => false end.

Definition hi_pred (hi : option nat) : option nat :=
  match hi with Some n => Some (pred n) | None => None end.

Section Matcher.
Variable R : Type.

(** A continuation receives the rest of the subject and the groups
    closed so far. *)
Definition cont := str -> list str -> option R.

(** Repetition of a character class. The greedy form takes one more
    character first and gives it back when the continuation fails; the
    lazy form tries the continuation first. *)
Fixpoint rep (greedy : bool) (p : char -> bool) (lo : nat) (hi : option nat)
         (s : str) (caps : list str) (k : cont) : option R :=
  let stop := match lo with 0 => k s caps | S _ => None end in
  match s with
  | [] => stop
  | c :: s' =>
      if (p c && negb (hi_zero hi))%bool then
        if greedy then
          match rep greedy p (pred lo) (hi_pred hi) s' caps k with
          | Some r => Some r
          | None => stop
          end
        else
          match stop with
          | Some r => Some r
          | None => rep greedy p (pred lo) (hi_pred hi) s' caps k
          end
      else stop
  end.

Fixpoint run (r : regex) (s : str) (caps : list str) (k : cont)
  : option R :=
  match r with
  | Eps => k s caps
  | Chr c =>
      match s with
      | x :: s' => if N.eqb x c then k s' caps else None
      | [] => None
      end
  | Cls p =>
      match s with
      | x :: s' => if p x then k s' caps else None
      | [] => None
      end
  | Rep g lo hi p => rep g p lo hi s caps k
  | Cat r1 r2 => run r1 s caps (fun s' caps' => run r2 s' caps' k)
  | Alt r1 r2 =>
      match run r1 s caps k with
      | Some x => Some x
      | None => run r2 s caps k
      end
  | Grp r1 =>
      run r1 s caps
          (fun s' caps' =>
             k s' (caps' ++ [firstn (length s - length s') s]))
  end.
End Matcher.

Arguments cont R : clear implicits.
Arguments rep {R} greedy p lo hi s caps k.
Arguments run {R} r s caps k.

(** [re.match]: anchored at the start, the first match in backtracking
    order; the result is the list of groups and the unmatched rest. *)
Definition py_match (r : regex) (s : str) : option (list str * str) :=
  run r s [] (fun rest caps => Some (caps, rest)).

(** [m.group(n)] for [n >= 1]. *)
Definition group (n : nat) (caps : list str) : str := nth (n - 1) caps [].

Definition bounded (hi : option nat) (n : nat) : Prop :=
  match hi with
  | Some h => n <= h
  | None => True
  end.

(** The words of a regular expression, with the groups a match closes,
    whatever the order in which the matcher finds them. *)
Fixpoint denotes (r : regex) (w : str) (g : list str) : Prop :=
  match r with
  | Eps => w = [] /\ g = []
  | Chr c => w = [c] /\ g = []
  | Cls p => exists c, w = [c] /\ p c = true /\ g = []
  | Rep _ lo hi p =>
      forallb p w = true /\ lo <= length w /\ bounded hi (length w) /\ g = []
  | Cat r1 r2 =>
      exists w1 w2 g1 g2,
        w = w1 ++ w2 /\ g = g1 ++ g2 /\ denotes r1 w1 g1 /\ denotes r2 w2 g2
  | Alt r1 r2 => denotes r1 w g \/ denotes r2 w g
  | Grp r1 => exists g1, g = g1 ++ [w] /\ denotes r1 w g1
  end.

End Re.

(* ===================================================================== *)
(** ** Exceptions *)
(* ===================================================================== *)

Inductive exn : Type :=
| ValueError
| AttributeError
| IndexError
| OutOfBoundsDatetime.

(** The outcome of a call that may raise. *)
Inductive Exc (A : Type) : Type :=
| Ok (a : A)
| Raise (e : exn).

Arguments Ok {A} a.
Arguments Raise {A} e.

Definition bind {A B : Type} (m : Exc A) (f : A -> Exc B) : Exc B :=
  match m with
  | Ok a => f a
  | Raise e => Raise e
  end.

Notation "x <- m ;; k" := (bind m (fun x => k))
  (at level 61, m at next level, right associativity).

(** [try: body except Exception: handler]. *)
Definition try_except {A : Type} (body : Exc A) (handler : A) : A :=
  match body with
  | Ok a => a
  | Raise _ => handler
  end.

(** Run [f] over a list, stopping at the first exception. *)
Fixpoint map_exc {A B : Type} (f : A -> Exc B) (l : list A) : Exc (list B) :=
  match l with
  | [] => Ok []
  | a :: l' => b <- f a ;; bs <- map_exc f l' ;; Ok (b :: bs)
  end.

(* ===================================================================== *)
(** ** Calendar and timestamps *)
(* ===================================================================== *)

Module Calendar.

Open Scope Z_scope.

(** A point in time to the second, as [pandas.Timestamp] holds it. *)
Record Timestamp : Type := mkTs {
  year : Z;
  month : Z;
  day : Z;
  hour : Z;
  minute : Z;
  second : Z
}.

Definition is_leap (y : Z) : bool :=
  ((y mod 4 =? 0) && (negb (y mod 100 =? 0) || (y mod 400 =? 0)))%bool.

Definition days_in_month (y m : Z) : Z :=
  if m =? 2 then (if is_leap y then 29 else 28)
  else if (m =? 4) || (m =? 6) || (m =? 9) || (m =? 11) then 30
  else 31.

(** The dates [datetime.date] accepts. *)
Definition valid_date (y m d : Z) : bool :=
  ((1 <=? y) && (y <=? 9999) && (1 <=? m) && (m <=? 12)
   && (1 <=? d) && (d <=? days_in_month y m))%bool.

(** Days from 1970-01-01 to the given date of the proleptic Gregorian
    calendar. *)
Definition days_from_civil (y m d : Z) : Z :=
  let y' := if m <=? 2 then y - 1 else y in
  let era := y' / 400 in
  let yoe := y' - era * 400 in
  let mp := if 2 <? m then m - 3 else m + 9 in
  let doy := (153 * mp + 2) / 5 + d - 1 in
  let doe := yoe * 365 + yoe / 4 - yoe / 100 + doy in
  era * 146097 + doe - 719468.

Definition epoch_seconds (t : Timestamp) : Z :=
  days_from_civil (year t) (month t) (day t) * 86400
  + hour t * 3600 + minute t * 60 + second t.

(** The range of a 64-bit count of nanoseconds since 1970: from
    1677-09-21 00:12:44 to 2262-04-11 23:47:16. *)
Definition in_bounds (t : Timestamp) : bool :=
  ((-9223372036 <=? epoch_seconds t) && (epoch_seconds t <=? 9223372036))%bool.

(** 0 is Monday. *)
Definition weekday (t : Timestamp) : Z :=
  (days_from_civil (year t) (month t) (day t) + 3) mod 7.

Definition day_names : list string :=
  [ "Monday"; "Tuesday"; "Wednesday"; "Thursday"; "Friday"; "Saturday";
    "Sunday" ]%string.

Definition month_names : list string :=
  [ "January"; "February"; "March"; "April"; "May"; "June"; "July";
    "August"; "September"; "October"; "November"; "December" ]%string.

(** [Timestamp.day_name()] and [Timestamp.month_name()]. *)
Definition day_name (t : Timestamp) : str :=
  lit (nth (Z.to_nat (weekday t)) day_names ""%string).

Definition month_name (t : Timestamp) : str :=
  lit (nth (Z.to_nat (month t - 1)) month_names ""%string).

Definition is_midnight (t : Timestamp) : bool :=
  ((hour t =? 0) && (minute t =? 0) && (second t =? 0))%bool.

(** [%Y-%m-%d] and [%Y-%m-%d %H:%M:%S]. *)
Definition format_date (t : Timestamp) : str :=
  four_digits (year t) ++ lit "-" ++ two_digits (month t) ++ lit "-"
  ++ two_digits (day t).

Definition format_datetime (t : Timestamp) : str :=
  format_date t ++ lit " " ++ two_digits (hour t) ++ lit ":"
  ++ two_digits (minute t) ++ lit ":" ++ two_digits (second t).

End Calendar.

(* ===================================================================== *)
(** ** [datetime.strptime] and [strftime] *)
(* ===================================================================== *)

Module Strptime.

Import Re.

Definition cls_range (lo hi : ascii) : regex := Cls (in_range (ch lo) (ch hi)).

(** The regular expressions [_strptime.TimeRE] has for the directives;
    each directive is a group. *)
Definition re_d : regex :=   (* 3[0-1]|[1-2]\d|0[1-9]|[1-9]| [1-9] *)
  Grp (Alt (Cat (Chr (ch "3")) (cls_range "0" "1"))
      (Alt (Cat (cls_range "1" "2") digit)
      (Alt (Cat (Chr (ch "0")) (cls_range "1" "9"))
      (Alt (cls_range "1" "9")
           (Cat (Chr (ch " ")) (cls_range "1" "9")))))).

Definition re_m : regex :=   (* 1[0-2]|0[1-9]|[1-9] *)
  Grp (Alt (Cat (Chr (ch "1")) (cls_range "0" "2"))
      (Alt (Cat (Chr (ch "0")) (cls_range "1" "9"))
           (cls_range "1" "9"))).

Definition re_I : regex := re_m.   (* 1[0-2]|0[1-9]|[1-9] *)

Definition re_Y : regex := Grp (seq [digit; digit; digit; digit]).

Definition re_y : regex := Grp (seq [digit; digit]).

Definition re_H : regex :=   (* 2[0-3]|[0-1]\d|\d *)
  Grp (Alt (Cat (Chr (ch "2")) (cls_range "0" "3"))
      (Alt (Cat (cls_range "0" "1") digit)
           digit)).

Definition re_M : regex :=   (* [0-5]\d|\d *)
  Grp (Alt (Cat (cls_range "0" "5") digit) digit).

Definition re_S : regex :=   (* 6[0-1]|[0-5]\d|\d *)
  Grp (Alt (Cat (Chr (ch "6")) (cls_range "0" "1"))
      (Alt (Cat (cls_range "0" "5") digit)
           digit)).

(** [am|pm] of the C locale under [re.IGNORECASE]. *)
Definition re_p : regex :=
  Grp (Alt (Cat (one_of "aA") (one_of "mM"))
           (Cat (one_of "pP") (one_of "mM"))).

(** White space in a format stands for [\s+]. *)
Definition re_ws : regex := Rep true 1 None is_space.

(** The groups of the match of a whole string; [None] when the format
    does not match or data remains unconverted. *)
Definition full_match (r : regex) (s : str) : option (list str) :=
  match py_match r s with
  | Some (caps, []) => Some caps
  | _ => None
  end.

(** The number a directive's digits denote. *)
Definition num (s : str) : Z :=
  match py_int s with Some n => n | None => 0%Z end.

Open Scope Z_scope.

(** [strftime('%H:%M')]. *)
Definition strftime_HM (h m : Z) : str :=
  two_digits h ++ lit ":" ++ two_digits m.

(** [datetime.strptime(s, '%I:%M %p')]: hour and minute on the 24-hour
    clock. *)
Definition strptime_I_M_p (s : str) : option (Z * Z) :=
  match full_match (seq [re_I; Chr (ch ":"); re_M; re_ws; re_p]) s with
  | Some caps =>
      let h := num (group 1 caps) in
      let mi := num (group 2 caps) in
      let pm := existsb (N.eqb (nth 0 (group 3 caps) 0%N)) (lit "pP") in
      let h24 := if pm then (if h =? 12 then 12 else h + 12)
                 else (if h =? 12 then 0 else h) in
      Some (h24, mi)
  | None => None
  end.

(** [datetime.strptime(s, '%H:%M:%S')]: hour and minute; a second of
    60 or 61 matches the format and is then refused by [datetime]. *)
Definition strptime_H_M_S (s : str) : option (Z * Z) :=
  match full_match (seq [re_H; Chr (ch ":"); re_M; Chr (ch ":"); re_S]) s with
  | Some caps =>
      if num (group 3 caps) <=? 59
      then Some (num (group 1 caps), num (group 2 caps))
      else None
  | None => None
  end.

End Strptime.

(* ===================================================================== *)
(** ** The libraries outside the repository *)
(* ===================================================================== *)

(** What the program takes from third-party code and from the Unicode
    database of the interpreter, left open. *)
Class Libs : Type := {
  (** [str.lower]. *)
  str_lower : str -> str;
  (** [URLExtract().find_urls]. *)
  find_urls : str -> list str;
  (** Whether a string is a key of [emoji.EMOJI_DATA]. *)
  EMOJI_DATA : str -> bool;
  (** What the general string parser of pandas makes of a string that is
      neither a null marker nor of the ISO form [YYYY-MM-DD HH:MM] with a
      representable value, under the given [dayfirst]; [None] when it
      raises. *)
  parse_datetime_string : bool -> str -> option Calendar.Timestamp;
  (** How [astype(str)] writes a missing value of a [datetime64] column:
      as the text [NaT], which pandas does before version 3, or as a
      missing value, which it does from version 3 on. *)
  nat_as_text : bool;
  (** Whether [groupby] on a column of the category type leaves out the
      categories that no row has, which is the default from pandas 3
      on; before, such a category has a group without rows. *)
  groupby_observed : bool
}.

(* ===================================================================== *)
(** ** pandas: [to_datetime] and [astype(str)] *)
(* ===================================================================== *)

Module Pandas.

Import Re Strptime.

(** A cell of a [datetime64] column; [None] is [NaT]. *)
Definition cell := option Calendar.Timestamp.

Definition nat_strings : list str :=
  map lit [ "NaT"; "nat"; "NAT"; "nan"; "NaN"; "NAN" ]%string.

(** The strings every parsing mode turns into [NaT]. *)
Definition is_null_string (s : str) : bool :=
  match s with
  | [] => true
  | _ => existsb (str_eqb s) nat_strings
  end.

(** The format strings [preprocess] chooses from. *)
Inductive date_format : Type :=
| Fmt_d_m_Y_dot     (* '%d.%m.%Y' *)
| Fmt_d_m_Y         (* '%d/%m/%Y' *)
| Fmt_d_m_y         (* '%d/%m/%y' *)
| Fmt_m_d_Y         (* '%m/%d/%Y' *)
| Fmt_m_d_y.        (* '%m/%d/%y' *)

Definition format_regex (f : date_format) : regex :=
  match f with
  | Fmt_d_m_Y_dot => seq [re_d; Chr (ch "."); re_m; Chr (ch "."); re_Y]
  | Fmt_d_m_Y => seq [re_d; Chr (ch "/"); re_m; Chr (ch "/"); re_Y]
  | Fmt_d_m_y => seq [re_d; Chr (ch "/"); re_m; Chr (ch "/"); re_y]
  | Fmt_m_d_Y => seq [re_m; Chr (ch "/"); re_d; Chr (ch "/"); re_Y]
  | Fmt_m_d_y => seq [re_m; Chr (ch "/"); re_d; Chr (ch "/"); re_y]
  end.

Definition day_first (f : date_format) : bool :=
  match f with
  | Fmt_m_d_Y | Fmt_m_d_y => false
  | _ => true
  end.

Definition short_year (f : date_format) : bool :=
  match f with
  | Fmt_d_m_y | Fmt_m_d_y => true
  | _ => false
  end.

Open Scope Z_scope.

(** One string under an explicit format: the whole string has to match,
    the date has to exist and to be representable. *)
Definition strptime_date (f : date_format) (s : str)
  : Exc Calendar.Timestamp :=
  match full_match (format_regex f) s with
  | None => Raise ValueError
  | Some caps =>
      let d := num (group (if day_first f then 1 else 2) caps) in
      let m := num (group (if day_first f then 2 else 1) caps) in
      let y0 := num (group 3 caps) in
      let y := if short_year f
               then (if y0 <=? 68 then 2000 + y0 else 1900 + y0)
               else y0 in
      if Calendar.valid_date y m d then
        let t := Calendar.mkTs y m d 0 0 0 in
        if Calendar.in_bounds t then Ok t else Raise OutOfBoundsDatetime
      else Raise ValueError
  end.

(** [pd.to_datetime(col, format=f)]. *)
Definition to_datetime_format (f : date_format) (col : list str)
  : Exc (list cell) :=
  map_exc (fun s => if is_null_string s then Ok None
                    else t <- strptime_date f s ;; Ok (Some t)) col.

Definition digit_val (c : char) : Z := Z.of_N c - 48.

(** The ISO 8601 form [YYYY-MM-DD HH:MM], ASCII digits only. *)
Definition parse_iso_minutes (s : str) : option Calendar.Timestamp :=
  match s with
  | [y1; y2; y3; y4; s1; m1; m2; s2; d1; d2; sp; h1; h2; co; n1; n2] =>
      if (forallb is_ascii_digit [y1; y2; y3; y4; m1; m2; d1; d2; h1; h2; n1; n2]
          && N.eqb s1 (ch "-") && N.eqb s2 (ch "-") && N.eqb sp (ch " ")
          && N.eqb co (ch ":"))%bool
      then
        let t := Calendar.mkTs
                   (1000 * digit_val y1 + 100 * digit_val y2
                    + 10 * digit_val y3 + digit_val y4)
                   (10 * digit_val m1 + digit_val m2)
                   (10 * digit_val d1 + digit_val d2)
                   (10 * digit_val h1 + digit_val h2)
                   (10 * digit_val n1 + digit_val n2) 0 in
        if (Calendar.valid_date (Calendar.year t) (Calendar.month t)
                                (Calendar.day t)
            && (Calendar.hour t <? 24) && (Calendar.minute t <? 60)
            && Calendar.in_bounds t)%bool
        then Some t else None
      else None
  | _ => None
  end.

(** [astype('category')] on a column of strings: the categories are the
    values of the column, each once and in ascending order; a missing
    value is no category. *)
Fixpoint add_category (x : str) (cats : list str) : list str :=
  match cats with
  | [] => [x]
  | y :: cats' =>
      if str_ltb x y then x :: y :: cats'
      else if str_ltb y x then y :: add_category x cats'
      else y :: cats'
  end.

Definition categories (col : list (option str)) : list str :=
  fold_left (fun cats c => match c with
                           | Some x => add_category x cats
                           | None => cats
                           end) col [].

Section WithLibs.
Context {L : Libs}.

(** One string without a format. *)
Definition parse_string (dayfirst : bool) (s : str) : Exc cell :=
  if is_null_string s then Ok None
  else match parse_iso_minutes s with
       | Some t => Ok (Some t)
       | None =>
           match parse_datetime_string dayfirst s with
           | Some t => Ok (Some t)
           | None => Raise ValueError
           end
       end.

(** [pd.to_datetime(col, dayfirst=...)] on strings, element by
    element; the first failure raises. *)
Definition to_datetime (dayfirst : bool) (col : list str)
  : Exc (list cell) :=
  map_exc (parse_string dayfirst) col.

(** The same with [errors='coerce']: a failure becomes [NaT]. *)
Definition to_datetime_coerce (dayfirst : bool) (col : list str)
  : list cell :=
  map (fun s => match parse_string dayfirst s with
                | Ok c => c
                | Raise _ => None
                end) col.

(** [pd.to_datetime(col)] on strings some of which are missing: a
    missing string gives [NaT]. *)
Definition to_datetime_na (dayfirst : bool) (col : list (option str))
  : Exc (list cell) :=
  map_exc (fun s => match s with
                    | Some s => parse_string dayfirst s
                    | None => Ok None
                    end) col.

(** The text of one cell of a [datetime64] column; [NaT] is the text
    [NaT] or stays missing, as the library has it. *)
Definition cell_text (dates_only : bool) (c : cell) : option str :=
  match c with
  | Some t => Some (if dates_only then Calendar.format_date t
                    else Calendar.format_datetime t)
  | None => if nat_as_text then Some (lit "NaT") else None
  end.

(** [col.astype(str)] on a [datetime64] column: dates alone when every
    value is at midnight, otherwise date and time. *)
Definition astype_str (col : list cell) : list (option str) :=
  let dates_only :=
    forallb (fun c => match c with
                      | Some t => Calendar.is_midnight t
                      | None => true
                      end) col in
  map (cell_text dates_only) col.
End WithLibs.

End Pandas.

(* ===================================================================== *)
(** ** The table *)
(* ===================================================================== *)

(** The [date] column holds strings when it leaves the parser and
    [datetime64] values once [preprocess] has converted it. *)
Inductive DateCol : Type :=
| StrCol (l : list str)
| DtCol (l : list Pandas.cell).

(** The columns [preprocess] adds. The column [day_of_week] is of the
    category type (line 181): [day_categories] are its categories, which
    a selection of rows keeps. The columns [user] and [month_name] are of
    that type too; no function here depends on their categories. *)
Record Derived : Type := mkDerived {
  datetime : list Pandas.cell;
  hour : list (option Z);
  minute : list (option Z);
  day : list (option Z);
  day_of_week : list (option str);
  day_categories : list str;
  month : list (option Z);
  month_name : list (option str);
  year : list (option Z);
  message_length : list Z;
  word_count : list Z;
  has_media : list Z;
  has_url : list bool;
  url_count : list Z;
  emojis : list (list str);
  emoji_count : list Z
}.

(** A DataFrame with the four columns of the parser and, when present,
    the derived columns. *)
Record DataFrame : Type := mkDF {
  date : DateCol;
  time : list str;
  user : list str;
  message : list str;
  derived : option Derived
}.

(** [len(df)] and [df.empty]. *)
Definition len (df : DataFrame) : nat := length (message df).

Definition empty (df : DataFrame) : bool := Nat.eqb (len df) 0.

Definition date_len (c : DateCol) : nat :=
  match c with
  | StrCol l => length l
  | DtCol l => length l
  end.

(** The columns of a DataFrame have one entry per row. *)
Definition well_formed (df : DataFrame) : Prop :=
  date_len (date df) = len df
  /\ length (time df) = len df
  /\ length (user df) = len df.

(** The same of the derived columns, when the table has them. *)
Definition derived_formed (n : nat) (d : Derived) : Prop :=
  length (datetime d) = n /\ length (hour d) = n /\ length (minute d) = n
  /\ length (day d) = n /\ length (day_of_week d) = n
  /\ length (month d) = n /\ length (month_name d) = n
  /\ length (year d) = n /\ length (message_length d) = n
  /\ length (word_count d) = n /\ length (has_media d) = n
  /\ length (has_url d) = n /\ length (url_count d) = n
  /\ length (emojis d) = n /\ length (emoji_count d) = n.

Definition every_column (df : DataFrame) : Prop :=
  well_formed df
  /\ match derived df with
     | Some d => derived_formed (len df) d
     | None => True
     end.

(** [range(start, stop, step)] for a positive step. *)
Definition py_range (start stop step : nat) : list nat :=
  map (fun k => start + k * step)
      (List.seq 0 ((stop - start + step - 1) / step)).

(** [l[i:j]]. *)
Definition slice {A : Type} (l : list A) (i j : nat) : list A :=
  firstn (j - i) (skipn i l).

Definition chunk_size : nat := 5000.

(* ===================================================================== *)
(** ** The parser: [parse_chat] *)
(* ===================================================================== *)

(** The date of a header: [\d{1,2}] [sep] [\d{1,2}] [sep] [\d{lo,hi}]. *)
Definition date_re (sep : ascii) (lo hi : nat) : Re.regex :=
  Re.seq [Re.digits 1 2; Re.Chr (ch sep); Re.digits 1 2; Re.Chr (ch sep);
          Re.digits lo hi].

(** [pattern_12hr], group by group:
    [( \d{1,2}/\d{1,2}/\d{2,4} ) ,\s ( \d{1,2}:\d{2}\s[APap][Mm] ) \s-\s ( .*? ) :\s ( .* )] *)
Definition pattern_12hr : Re.regex :=
  Re.seq
    [ Re.Grp (date_re "/" 2 4);
      Re.Chr (ch ","); Re.space;
      Re.Grp (Re.seq [Re.digits 1 2; Re.Chr (ch ":"); Re.digits 2 2;
                      Re.space; Re.one_of "APap"; Re.one_of "Mm"]);
      Re.space; Re.Chr (ch "-"); Re.space;
      Re.Grp (Re.Rep false 0 None Re.dot);
      Re.Chr (ch ":"); Re.space;
      Re.Grp (Re.Rep true 0 None Re.dot) ].

(** [pattern_24hr], group by group:
    [( \d{1,2}/\d{1,2}/\d{2,4} ) ,\s ( \d{1,2}:\d{2} ) \s-\s ( .*? ) :\s ( .* )] *)
Definition pattern_24hr : Re.regex :=
  Re.seq
    [ Re.Grp (date_re "/" 2 4);
      Re.Chr (ch ","); Re.space;
      Re.Grp (Re.seq [Re.digits 1 2; Re.Chr (ch ":"); Re.digits 2 2]);
      Re.space; Re.Chr (ch "-"); Re.space;
      Re.Grp (Re.Rep false 0 None Re.dot);
      Re.Chr (ch ":"); Re.space;
      Re.Grp (Re.Rep true 0 None Re.dot) ].

(** [pattern_bracket_format], group by group:
    [\[ ( \d{1,2}\.\d{1,2}\.\d{4} ) ,\s ( \d{1,2}:\d{2}:\d{2} ) \]\s ( .*? ) :\s ( .* )] *)
Definition pattern_bracket_format : Re.regex :=
  Re.seq
    [ Re.Chr (ch "[");
      Re.Grp (date_re "." 4 4);
      Re.Chr (ch ","); Re.space;
      Re.Grp (Re.seq [Re.digits 1 2; Re.Chr (ch ":"); Re.digits 2 2;
                      Re.Chr (ch ":"); Re.digits 2 2]);
      Re.Chr (ch "]"); Re.space;
      Re.Grp (Re.Rep false 0 None Re.dot);
      Re.Chr (ch ":"); Re.space;
      Re.Grp (Re.Rep true 0 None Re.dot) ].

(** The four lists the parser fills, one entry per message. *)
Record Lists : Type := mkLists {
  dates : list str;
  times : list str;
  users : list str;
  messages : list str
}.

(** The four lists grow together. *)
Definition same_lengths (st : Lists) : Prop :=
  length (dates st) = length (messages st)
  /\ length (times st) = length (messages st)
  /\ length (users st) = length (messages st).

Definition append_match (st : Lists) (caps : list str) : Lists :=
  {| dates := dates st ++ [Re.group 1 caps];
     times := times st ++ [Re.group 2 caps];
     users := users st ++ [Re.group 3 caps];
     messages := messages st ++ [Re.group 4 caps] |}.

(** [messages[-1] += '\n' + line]. *)
Definition extend_last (msgs : list str) (line : str) : list str :=
  removelast msgs ++ [last msgs [] ++ [nl] ++ line].

(** The body of the loop over the lines. *)
Definition process_line (st : Lists) (line : str) : Lists :=
  let match_12hr := Re.py_match pattern_12hr line in
  let match_24hr := Re.py_match pattern_24hr line in
  let match_bracket := Re.py_match pattern_bracket_format line in
  match match_12hr, match_24hr, match_bracket with
  | Some (caps, _), _, _ => append_match st caps
  | None, Some (caps, _), _ => append_match st caps
  | None, None, Some (caps, _) => append_match st caps
  | None, None, None =>
      if Nat.ltb 0 (length (messages st))
      then {| dates := dates st; times := times st; users := users st;
              messages := extend_last (messages st) line |}
      else st
  end.

Definition parse_lines (lines : list str) : Lists :=
  fold_left
    (fun st i => fold_left process_line (slice lines i (i + chunk_size)) st)
    (py_range 0 (length lines) chunk_size)
    (mkLists [] [] [] []).

(** [pd.DataFrame({'date': dates, 'time': times, 'user': users,
    'message': messages})]; the change of the [user] column to the
    category type keeps its values. *)
Definition frame_of_lists (st : Lists) : DataFrame :=
  {| date := StrCol (dates st);
     time := times st;
     user := users st;
     message := messages st;
     derived := None |}.

Definition parse_chat (data : str) : DataFrame :=
  frame_of_lists (parse_lines (split_on nl data)).

(** A header line is a line one of the three patterns matches; its
    groups are those of the first pattern that does, in the order the
    parser tries them. *)
Definition header_groups (line : str) : option (list str) :=
  match Re.py_match pattern_12hr line with
  | Some (caps, _) => Some caps
  | None =>
      match Re.py_match pattern_24hr line with
      | Some (caps, _) => Some caps
      | None =>
          match Re.py_match pattern_bracket_format line with
          | Some (caps, _) => Some caps
          | None => None
          end
      end
  end.

(* ===================================================================== *)
(** ** The feature extractor: [preprocess] *)
(* ===================================================================== *)

(** [a + b] on two columns of strings, row by row. *)
Fixpoint zip_with {A B C : Type} (f : A -> B -> C) (a : list A) (b : list B)
  : list C :=
  match a, b with
  | x :: a', y :: b' => f x y :: zip_with f a' b'
  | _, _ => []
  end.

(** [df.loc[i:j, col] = df.loc[i:j, col].apply(f)]: the rows labelled
    [i] to [j], both included. *)
Fixpoint loc_apply {A : Type} (f : A -> A) (i j : nat) (col : list A)
  {struct col} : list A :=
  match col with
  | [] => []
  | x :: col' =>
      match i with
      | 0 => f x :: match j with
                    | 0 => col'
                    | S j' => loc_apply f 0 j' col'
                    end
      | S i' => x :: match j with
                     | 0 => col'
                     | S j' => loc_apply f i' j' col'
                     end
      end
  end.

Definition sample_size (df : DataFrame) : nat := Nat.min 100 (len df).

(** The choice of [date_format] from the sampled dates. *)
Definition infer_date_format (sample_dates : list str)
  : Exc (option Pandas.date_format) :=
  if existsb (contains (lit ".")) sample_dates then
    Ok (Some Pandas.Fmt_d_m_Y_dot)
  else if existsb (contains (lit "/")) sample_dates then
    match filter (contains (lit "/")) sample_dates with
    | [] => Raise IndexError
    | sample_date :: _ =>
        let parts := split_on (ch "/") sample_date in
        if Nat.eqb (length parts) 3 then
          match py_int (nth 0 parts []) with
          | None => Raise ValueError
          | Some first =>
              if (12 <? first)%Z then
                Ok (Some (if Nat.eqb (length (nth 2 parts [])) 4
                          then Pandas.Fmt_d_m_Y else Pandas.Fmt_d_m_y))
              else
                Ok (Some (if Nat.eqb (length (nth 2 parts [])) 4
                          then Pandas.Fmt_m_d_Y else Pandas.Fmt_m_d_y))
          end
        else Ok None
    end
  else Ok None.

(** The marker test of [convert_time]. *)
Definition has_am_pm (time_str : str) : bool :=
  (contains (lit "AM") time_str || contains (lit "PM") time_str
   || contains (lit "am") time_str || contains (lit "pm") time_str)%bool.

Definition convert_time (time_str : str) : str :=
  if has_am_pm time_str then
    match Strptime.strptime_I_M_p time_str with
    | Some (h, m) => Strptime.strftime_HM h m
    | None => time_str
    end
  else if (contains (lit ":") time_str
           && Nat.eqb (count_char (ch ":") time_str) 2)%bool then
    match Strptime.strptime_H_M_S time_str with
    | Some (h, m) => Strptime.strftime_HM h m
    | None => time_str
    end
  else time_str.

Definition media_terms : list str := [ lit "omitted"; lit "<media omitted>" ].

Section Extractor.
Context {L : Libs}.

(** The conversion of the [date] column, with its fallback. *)
Definition convert_dates (df : DataFrame) : list Pandas.cell :=
  try_except
    (match date df with
     | DtCol _ => Raise AttributeError   (* no [.str] on [datetime64] *)
     | StrCol col =>
         date_format <- infer_date_format (firstn (sample_size df) col) ;;
         match date_format with
         | Some f => Pandas.to_datetime_format f col
         | None => Pandas.to_datetime true col
         end
     end)
    (match date df with
     | DtCol col => col
     | StrCol col => Pandas.to_datetime_coerce true col
     end).

(** The loop that normalises the [time] column chunk by chunk. *)
Definition convert_times (df : DataFrame) : list str :=
  fold_left
    (fun col i =>
       let chunk_end := Nat.min (i + chunk_size) (len df) in
       loc_apply convert_time i chunk_end col)
    (py_range 0 (len df) chunk_size)
    (time df).

Definition extract_emojis (text : str) : list str :=
  map (fun c => [c]) (filter (fun c => EMOJI_DATA [c]) text).

Definition contains_media (x : str) : Z :=
  if existsb (fun term => contains term x) media_terms then 1%Z else 0%Z.

Definition ts_field (f : Calendar.Timestamp -> Z) (col : list Pandas.cell)
  : list (option Z) :=
  map (option_map f) col.

Definition ts_name (f : Calendar.Timestamp -> str) (col : list Pandas.cell)
  : list (option str) :=
  map (option_map f) col.

Definition preprocess (df : DataFrame) : Exc DataFrame :=
  if empty df then Ok df
  else
    let date' := convert_dates df in
    let time' := convert_times df in
    datetime' <- Pandas.to_datetime_na false
                   (zip_with (fun d t => option_map (fun d => d ++ lit " " ++ t) d)
                             (Pandas.astype_str date') time') ;;
    let emojis' := map extract_emojis (message df) in
    Ok {| date := DtCol date';
          time := time';
          user := user df;
          message := message df;
          derived := Some
            {| datetime := datetime';
               hour := ts_field Calendar.hour datetime';
               minute := ts_field Calendar.minute datetime';
               day := ts_field Calendar.day datetime';
               day_of_week := ts_name Calendar.day_name datetime';
               day_categories :=
                 Pandas.categories (ts_name Calendar.day_name datetime');
               month := ts_field Calendar.month datetime';
               month_name := ts_name Calendar.month_name datetime';
               year := ts_field Calendar.year datetime';
               message_length :=
                 map (fun x => Z.of_nat (length x)) (message df);
               word_count :=
                 map (fun x => Z.of_nat (length (split_ws x))) (message df);
               has_media :=
                 map (fun x => contains_media (str_lower x)) (message df);
               has_url :=
                 map (fun x => negb (Nat.eqb (length (find_urls x)) 0))
                     (message df);
               url_count :=
                 map (fun x => Z.of_nat (length (find_urls x))) (message df);
               emojis := emojis';
               emoji_count := map (fun e => Z.of_nat (length e)) emojis' |} |}.

Definition analyze_chat (data : str) : Exc DataFrame :=
  preprocess (parse_chat data).

End Extractor.

(** [t] occurs in [x]. *)
Definition substring (t x : str) : Prop :=
  exists pre post, x = pre ++ t ++ post.

(** A date made of three runs of decimal digits [a], [b] and [c] with
    the separator [sep] between them, the form the header patterns
    capture. *)
Definition parsed_date (sep : char) (d a b c : str) : Prop :=
  d = a ++ [sep] ++ b ++ [sep] ++ c
  /\ a <> []
  /\ forallb is_decimal a = true
  /\ forallb is_decimal b = true
  /\ forallb is_decimal c = true.

Definition date_shape (d : str) : Prop :=
  exists a b c, parsed_date (ch "/") d a b c \/ parsed_date (ch ".") d a b c.

(** The dates [preprocess] obtains when it settles on [fmt], [None]
    standing for the parser without format that puts the day first:
    the conversion under [fmt], and the lenient conversion when that
    raises. *)
Definition dates_under {L : Libs} (fmt : option Pandas.date_format)
           (col : list str) : list Pandas.cell :=
  try_except
    (match fmt with
     | Some f => Pandas.to_datetime_format f col
     | None => Pandas.to_datetime true col
     end)
    (Pandas.to_datetime_coerce true col).

(** A time of the 12-hour clock as an export writes it: the hour with
    or without a leading zero, a colon, the minute in two digits, a
    space and the marker. *)
Definition hour_text (padded : bool) (h : Z) : str :=
  if (padded || (10 <=? h)%Z)%bool then two_digits h
  else [Z.to_N (48 + h)].

Definition twelve_hour (padded : bool) (h m : Z) (marker : str) : str :=
  hour_text padded h ++ lit ":" ++ two_digits m ++ lit " " ++ marker.

(** The same time on the 24-hour clock: 12 AM is hour 0 and 12 PM is
    hour 12. *)
Definition is_pm (marker : str) : bool :=
  match marker with
  | c :: _ => (N.eqb c (ch "P") || N.eqb c (ch "p"))%bool
  | [] => false
  end.

Definition hour_24 (h : Z) (marker : str) : Z :=
  (h mod 12 + (if is_pm marker then 12 else 0))%Z.

Definition twenty_four_hour (h m : Z) : str :=
  two_digits h ++ lit ":" ++ two_digits m.

(** The markers in one case, and those in mixed case, which the header
    pattern [[APap][Mm]] and the directive [%p] accept as well. *)
Definition plain_markers : list str := map lit [ "AM"; "PM"; "am"; "pm" ]%string.

Definition mixed_markers : list str := map lit [ "Am"; "aM"; "Pm"; "pM" ]%string.

(** The hours and minutes of the 12-hour clock, with and without the
    leading zero of the hour. *)
Definition twelve_hour_clock : list (bool * (Z * Z)) :=
  list_prod [true; false]
            (list_prod (map Z.of_nat (List.seq 1 12))
                       (map Z.of_nat (List.seq 0 60))).

(** A time with seconds, as the bracket form of an export writes it. *)
Definition with_seconds (padded : bool) (h m s : Z) : str :=
  hour_text padded h ++ lit ":" ++ two_digits m ++ lit ":" ++ two_digits s.

(** The hours and minutes of the day, with and without the leading zero
    of the hour, and the seconds of a minute. *)
Definition day_clock : list (bool * (Z * Z)) :=
  list_prod [true; false]
            (list_prod (map Z.of_nat (List.seq 0 24))
                       (map Z.of_nat (List.seq 0 60))).

Definition seconds : list Z := map Z.of_nat (List.seq 0 60).

(** The rows the loop over the [time] column has gone through after
    [k] chunks of [c] rows in a table of [n] rows: the last label of a
    chunk is included. *)
Definition done_rows (c n k : nat) : nat :=
  match k with
  | 0 => 0
  | S _ => Nat.min (k * c) n + 1
  end.

(** The hours and minutes of the 24-hour clock. *)
Definition clock_values : list (Z * Z) :=
  list_prod (map Z.of_nat (List.seq 0 24)) (map Z.of_nat (List.seq 0 60)).

(* ===================================================================== *)
(** ** A small instance of the libraries *)
(* ===================================================================== *)

(** Stand-ins on which the definitions can be run: lower case for the
    ASCII letters, the white-space separated words that start with
    [http://] or [https://] as URLs, the emoticons block U+1F600 to
    U+1F64F as emoji, a date parser that knows no form beyond those of
    [Pandas.parse_string], and the two choices of pandas before its
    version 3. *)
Definition ascii_lower (s : str) : str :=
  map (fun c => if in_range 65 90 c then (c + 32)%N else c) s.

Definition http_words (s : str) : list str :=
  filter (fun w => (prefix_of (lit "http://") w
                    || prefix_of (lit "https://") w)%bool)
         (split_ws s).

Definition emoticon (s : str) : bool :=
  match s with
  | [c] => in_range 128512 128591 c
  | _ => false
  end.

Definition sample_libs : Libs :=
  {| str_lower := ascii_lower;
     find_urls := http_words;
     EMOJI_DATA := emoticon;
     parse_datetime_string := fun _ _ => None;
     nat_as_text := true;
     groupby_observed := false |}.

(** The same with the two choices of pandas 3. *)
Definition sample_libs_pandas3 : Libs :=
  {| str_lower := ascii_lower;
     find_urls := http_words;
     EMOJI_DATA := emoticon;
     parse_datetime_string := fun _ _ => None;
     nat_as_text := false;
     groupby_observed := true |}.

(** The lines of an input as the parser groups them: the lines before
    the first header line, then every header line, given by its groups,
    with the lines that follow it up to the next header line. *)
Fixpoint blocks (lines : list str) : list str * list (list str * list str) :=
  match lines with
  | [] => ([], [])
  | l :: rest =>
      let (lead, bs) := blocks rest in
      match header_groups l with
      | Some caps => ([], (caps, lead) :: bs)
      | None => (l :: lead, bs)
      end
  end.

(** The message of a block: the tail of the header line and the lines
    after it, joined by line feeds. *)
Definition block_message (b : list str * list str) : str :=
  join [nl] (Re.group 4 (fst b) :: snd b).

(** The lists with one record more for each block. *)
Definition append_blocks (st : Lists) (bs : list (list str * list str))
  : Lists :=
  {| dates := dates st ++ map (fun b => Re.group 1 (fst b)) bs;
     times := times st ++ map (fun b => Re.group 2 (fst b)) bs;
     users := users st ++ map (fun b => Re.group 3 (fst b)) bs;
     messages := messages st ++ map block_message bs |}.

(* ===================================================================== *)
(** ** The display helpers of the application: [clean_message_content] *)
(* ===================================================================== *)

(** [s.replace(c, r)] for a one-character [c]. *)
Definition replace_char (c : char) (r : str) (s : str) : str :=
  flat_map (fun x => if N.eqb x c then r else [x]) s.

(** The double quote and the single quote. *)
Definition dquote : char := 34%N.
Definition squote : char := 39%N.

(** [html.escape(s)], with its default [quote=True]: five replacements
    one after the other, the ampersand first. *)
Definition html_escape (s : str) : str :=
  let s1 := replace_char (ch "&") (lit "&amp;") s in
  let s2 := replace_char (ch "<") (lit "&lt;") s1 in
  let s3 := replace_char (ch ">") (lit "&gt;") s2 in
  let s4 := replace_char dquote (lit "&quot;") s3 in
  replace_char squote (lit "&#x27;") s4.

(** [pattern.search(s)] as a truth value: a match that starts at some
    position of [s], the end included. *)
Fixpoint search (r : Re.regex) (s : str) : bool :=
  match Re.py_match r s with
  | Some _ => true
  | None =>
      match s with
      | [] => false
      | _ :: s' => search r s'
      end
  end.

(** A literal word and a choice between alternatives, in their order. *)
Definition word (w : string) : Re.regex := Re.seq (map Re.Chr (lit w)).

Fixpoint alts (rs : list Re.regex) : Re.regex :=
  match rs with
  | [] => Re.Cls (fun _ => false)
  | [r] => r
  | r :: rs' => Re.Alt r (alts rs')
  end.

Definition is_quote (c : char) : bool := (N.eqb c dquote || N.eqb c squote)%bool.

Definition star (p : char -> bool) : Re.regex := Re.Rep true 0 None p.

(** [</?(?:div|span|p|a|b|i|u|strong|em|table|tr|td|th|ul|ol|li|br|hr|img|style)[^>]*>]
    or [style\s*=\s*[QUOTE][^QUOTE]*[QUOTE]], where [QUOTE] stands for the
    two quotes. *)
Definition html_tag_pattern : Re.regex :=
  Re.Alt
    (Re.seq
       [ Re.Chr (ch "<");
         Re.Rep true 0 (Some 1) (N.eqb (ch "/"));
         alts (map word [ "div"; "span"; "p"; "a"; "b"; "i"; "u"; "strong";
                          "em"; "table"; "tr"; "td"; "th"; "ul"; "ol"; "li";
                          "br"; "hr"; "img"; "style" ]%string);
         star (fun c => negb (N.eqb c (ch ">")));
         Re.Chr (ch ">") ])
    (Re.seq
       [ word "style"; star is_space; Re.Chr (ch "="); star is_space;
         Re.Cls is_quote; star (fun c => negb (is_quote c));
         Re.Cls is_quote ]).

(** [(?:font-size|color|margin|...|background-color)\s*:] *)
Definition css_property_pattern : Re.regex :=
  Re.seq
    [ alts (map word [ "font-size"; "color"; "margin"; "padding";
                       "overflow-wrap"; "white-space"; "word-wrap";
                       "text-align"; "line-height"; "border-radius";
                       "background-color" ]%string);
      star is_space; Re.Chr (ch ":") ].

(** [<[^>]+>] *)
Definition angle_bracket_pattern : Re.regex :=
  Re.seq [ Re.Chr (ch "<");
           Re.Rep true 1 None (fun c => negb (N.eqb c (ch ">")));
           Re.Chr (ch ">") ].

(** The character class of [emoji_pattern]. *)
Definition emoji_class (c : char) : bool :=
  (in_range 128512 128591 c      (* U+1F600 - U+1F64F *)
   || in_range 127744 128511 c   (* U+1F300 - U+1F5FF *)
   || in_range 128640 128767 c   (* U+1F680 - U+1F6FF *)
   || in_range 128768 128895 c   (* U+1F700 - U+1F77F *)
   || in_range 128896 129023 c   (* U+1F780 - U+1F7FF *)
   || in_range 129024 129279 c   (* U+1F800 - U+1F8FF *)
   || in_range 129280 129535 c   (* U+1F900 - U+1F9FF *)
   || in_range 129536 129647 c   (* U+1FA00 - U+1FA6F *)
   || in_range 129648 129791 c   (* U+1FA70 - U+1FAFF *)
   || in_range 9986 10160 c      (* U+2702 - U+27B0 *)
   || in_range 9410 127569 c)%bool.  (* U+24C2 - U+1F251 *)

(** [emoji_pattern.sub('', s)]: every run of characters of the class is
    taken out. *)
Definition remove_emoji (s : str) : str :=
  filter (fun c => negb (emoji_class c)) s.

(** [s.strip()]. *)
Definition strip (s : str) : str :=
  rev (drop_while is_space (rev (drop_while is_space s))).

Definition placeholder : str := lit "[Message with formatting]".

(** What [html.escape] puts for one character. *)
Definition entity (c : char) : str :=
  if N.eqb c (ch "&") then lit "&amp;"
  else if N.eqb c (ch "<") then lit "&lt;"
  else if N.eqb c (ch ">") then lit "&gt;"
  else if N.eqb c dquote then lit "&quot;"
  else if N.eqb c squote then lit "&#x27;"
  else [c].

(** A character that is neither an angle bracket nor a quote. *)
Definition markup_free (c : char) : bool :=
  negb (N.eqb c (ch "<") || N.eqb c (ch ">") || N.eqb c dquote
        || N.eqb c squote)%bool.

Section Display.
Context {L : Libs}.

(** The test of [clean_message_content] for HTML or CSS code. *)
Definition is_html_code (message : str) : bool :=
  if (search html_tag_pattern message
      || search css_property_pattern message)%bool then true
  else if search angle_bracket_pattern message then true
  else if (contains (lit "style=") (str_lower message)
           || contains (lit "font-size") (str_lower message)
           || contains (lit "color:") (str_lower message))%bool then true
  else if (Nat.ltb 1 (count_char (ch "<") message)
           && Nat.ltb 1 (count_char (ch ">") message))%bool then true
  else false.

Definition clean_message_content (message : str) : str :=
  match message with
  | [] => []
  | _ =>
      if is_html_code message then placeholder
      else if str_eqb (remove_emoji (strip message)) [] then message
      else html_escape message
  end.
End Display.

(* ===================================================================== *)
(** ** The analytics: [ChatAnalyzer] *)
(* ===================================================================== *)

Module Analytics.

(** What a method of the analyzer raises: a column that is absent, an
    operation or an accessor the type of a column does not have, a
    method that [NaT] does not support, and a division by zero. *)
Inductive error : Type :=
| KeyError
| TypeError
| AttributeError
| ValueError
| ZeroDivisionError.

Inductive Res (A : Type) : Type :=
| Done (a : A)
| Failed (e : error).

Arguments Done {A} a.
Arguments Failed {A} e.

(** [collections.Counter]: the keys in the order of their first
    occurrence, each with the number of its occurrences. *)
Fixpoint counter_add (x : str) (c : list (str * nat)) : list (str * nat) :=
  match c with
  | [] => [(x, 1)]
  | (y, n) :: c' =>
      if str_eqb x y then (y, S n) :: c' else (y, n) :: counter_add x c'
  end.

Definition Counter (l : list str) : list (str * nat) :=
  fold_left (fun c x => counter_add x c) l [].

(** [sorted(items, key=count, reverse=True)]: the larger counts first,
    equal counts in the order they had. *)
Fixpoint insert_by_count (x : str * nat) (l : list (str * nat))
  : list (str * nat) :=
  match l with
  | [] => [x]
  | y :: l' =>
      if Nat.leb (snd y) (snd x) then x :: y :: l'
      else y :: insert_by_count x l'
  end.

Definition sorted_by_count (items : list (str * nat)) : list (str * nat) :=
  fold_right insert_by_count [] items.

(** [Counter.most_common(n)]. *)
Definition most_common (n : nat) (c : list (str * nat)) : list (str * nat) :=
  firstn n (sorted_by_count c).

Definition col_sum (col : list Z) : Z := fold_left Z.add col 0%Z.

(** The list [all_emojis]: the lists of the rows that have emojis, one
    after the other. *)
Definition all_emojis (col : list (list str)) : list str :=
  concat (filter (fun emoji_list => negb (Nat.eqb (length emoji_list) 0)) col).

(** [get_emoji_analysis]; [None] is the frame without columns, and
    [Some rows] the frame of emojis and frequencies. *)
Definition get_emoji_analysis (top_n : nat) (df : DataFrame)
  : Res (option (list (str * nat))) :=
  if empty df then Done None
  else
    match derived df with
    | None => Failed KeyError
    | Some d =>
        if Z.eqb (col_sum (emoji_count d)) 0 then Done None
        else
          match all_emojis (emojis d) with
          | [] => Done None
          | emoji :: others =>
              Done (Some (most_common top_n (Counter (emoji :: others))))
          end
    end.

(** The number of occurrences of [x] in [l]. *)
Definition occurrences (x : str) (l : list str) : nat :=
  length (filter (str_eqb x) l).

(** The counts of a list of rows do not increase. *)
Fixpoint descending (rows : list (str * nat)) : Prop :=
  match rows with
  | [] => True
  | x :: rest =>
      match rest with
      | [] => True
      | y :: _ => snd y <= snd x
      end /\ descending rest
  end.

(** [Series.max()] and [Series.min()] of a [datetime64] column: [NaT]
    is skipped, and is the result when there is nothing else. *)
Definition later (a b : Calendar.Timestamp) : Calendar.Timestamp :=
  if Z.ltb (Calendar.epoch_seconds a) (Calendar.epoch_seconds b) then b else a.

Definition earlier (a b : Calendar.Timestamp) : Calendar.Timestamp :=
  if Z.ltb (Calendar.epoch_seconds b) (Calendar.epoch_seconds a) then b else a.

Definition reduce (f : Calendar.Timestamp -> Calendar.Timestamp
                       -> Calendar.Timestamp)
           (col : list Pandas.cell) : Pandas.cell :=
  fold_left (fun acc c =>
               match acc, c with
               | Some a, Some t => Some (f a t)
               | None, _ => c
               | _, None => acc
               end) col None.

Definition col_max : list Pandas.cell -> Pandas.cell := reduce later.
Definition col_min : list Pandas.cell -> Pandas.cell := reduce earlier.

(** The entries of the dictionary of [get_basic_stats] that a table
    with rows adds; [avg_messages_per_day] is given by the two operands
    of its division. *)
Record Period : Type := mkPeriod {
  chat_duration_days : Z;
  first_message_date : str;
  last_message_date : str;
  avg_messages_per_day : Z * Z
}.

Record Stats : Type := mkStats {
  total_messages : Z;
  total_words : Z;
  media_shared : Z;
  links_shared : Z;
  total_emojis : Z;
  period : option Period
}.

(** [get_basic_stats]. Strings cannot be subtracted, and [NaT], the
    minimum of a column without a date, has no [strftime]. *)
Definition get_basic_stats (df : DataFrame) : Res Stats :=
  if empty df then Done (mkStats 0 0 0 0 0 None)
  else
    match derived df with
    | None => Failed KeyError
    | Some d =>
        match date df with
        | StrCol _ => Failed TypeError
        | DtCol col =>
            match col_max col, col_min col with
            | Some hi, Some lo =>
                let days :=
                  ((Calendar.epoch_seconds hi - Calendar.epoch_seconds lo)
                   / 86400 + 1)%Z in
                if Z.eqb days 0 then Failed ZeroDivisionError
                else
                  Done (mkStats (Z.of_nat (len df))
                                (col_sum (word_count d))
                                (col_sum (has_media d))
                                (col_sum (url_count d))
                                (col_sum (emoji_count d))
                                (Some (mkPeriod days
                                         (Calendar.format_date lo)
                                         (Calendar.format_date hi)
                                         (Z.of_nat (len df), days))))
            | _, _ => Failed ValueError
            end
        end
    end.

(** [df[mask]]: the rows where the mask holds, in their order. *)
Definition select {A : Type} (mask : list bool) (col : list A) : list A :=
  map snd (filter fst (combine mask col)).

Definition select_derived (mask : list bool) (d : Derived) : Derived :=
  {| datetime := select mask (datetime d);
     hour := select mask (hour d);
     minute := select mask (minute d);
     day := select mask (day d);
     day_of_week := select mask (day_of_week d);
     day_categories := day_categories d;
     month := select mask (month d);
     month_name := select mask (month_name d);
     year := select mask (year d);
     message_length := select mask (message_length d);
     word_count := select mask (word_count d);
     has_media := select mask (has_media d);
     has_url := select mask (has_url d);
     url_count := select mask (url_count d);
     emojis := select mask (emojis d);
     emoji_count := select mask (emoji_count d) |}.

Definition select_rows (mask : list bool) (df : DataFrame) : DataFrame :=
  {| date := match date df with
             | StrCol col => StrCol (select mask col)
             | DtCol col => DtCol (select mask col)
             end;
     time := select mask (time df);
     user := select mask (user df);
     message := select mask (message df);
     derived := option_map (select_derived mask) (derived df) |}.

(** [cell.date() == on]; [NaT] equals no date. *)
Definition same_date (on : Z * Z * Z) (c : Pandas.cell) : bool :=
  match c, on with
  | Some t, (y, m, d) =>
      (Z.eqb (Calendar.year t) y && Z.eqb (Calendar.month t) m
       && Z.eqb (Calendar.day t) d)%bool
  | None, _ => false
  end.

(** [get_conversation_by_date]; [on] is the date after line 504, given
    by its year, month and day, and [None] the frame without columns. *)
Definition get_conversation_by_date (on : Z * Z * Z) (df : DataFrame)
  : Res (option DataFrame) :=
  if empty df then Done None
  else
    match date df with
    | StrCol _ => Failed AttributeError
    | DtCol col => Done (Some (select_rows (map (same_date on) col) df))
    end.

(** The sum of the counts of a list of rows. *)
Definition total_count (rows : list (str * nat)) : nat :=
  fold_right (fun r acc => snd r + acc) 0 rows.

(** What holds of a counter that has counted [l]: its keys are
    distinct, each comes with the number of its occurrences, no element
    of [l] is missing, and the counts add up to the length of [l]. *)
Definition counts (c : list (str * nat)) (l : list str) : Prop :=
  NoDup (map fst c)
  /\ (forall y n, In (y, n) c -> n = occurrences y l /\ 1 <= n)
  /\ (forall y, In y l -> In y (map fst c))
  /\ total_count c = length l.

End Analytics.

(* ===================================================================== *)
(** ** The analytics: activity by time *)
(* ===================================================================== *)

Module Activity.

Import Analytics.

Section GroupBy.
Context {K : Type}.
Variable ltb : K -> K -> bool.

(** One more row in the group of [k]; the groups are kept in ascending
    order of their keys. *)
Fixpoint group_add (k : K) (g : list (K * nat)) : list (K * nat) :=
  match g with
  | [] => [(k, 1)]
  | (k', n) :: g' =>
      if ltb k k' then (k, 1) :: (k', n) :: g'
      else if ltb k' k then (k', n) :: group_add k g'
      else (k', S n) :: g'
  end.

(** [groupby(keys).size()], and [groupby(keys)['message'].count()] as
    no message is missing: the groups in ascending order of their keys;
    a row whose key is missing is in no group. *)
Definition groupby_size (keys : list (option K)) : list (K * nat) :=
  fold_left (fun g k => match k with
                        | Some k => group_add k g
                        | None => g
                        end) keys [].
End GroupBy.

(** The order of [datetime.date] values. *)
Definition date_ltb (a b : Z * Z * Z) : bool :=
  match a, b with
  | (y1, m1, d1), (y2, m2, d2) =>
      (Z.ltb y1 y2
       || (Z.eqb y1 y2 && (Z.ltb m1 m2 || (Z.eqb m1 m2 && Z.ltb d1 d2))))%bool
  end.

(** [cell.date()] and [cell.strftime('%Y-%m')]; [NaT] stays missing. *)
Definition date_of : Pandas.cell -> option (Z * Z * Z) :=
  option_map (fun t => (Calendar.year t, Calendar.month t, Calendar.day t)).

Definition year_month : Pandas.cell -> option str :=
  option_map (fun t => four_digits (Calendar.year t) ++ lit "-"
                       ++ two_digits (Calendar.month t)).

Definition day_order : list str :=
  map lit [ "Monday"; "Tuesday"; "Wednesday"; "Thursday"; "Friday";
            "Saturday"; "Sunday" ]%string.

(** The code of a label in the categories [day_order]; a label that is
    no category has none. *)
Fixpoint index_of (x : str) (l : list str) : option nat :=
  match l with
  | [] => None
  | y :: l' => if str_eqb x y then Some 0 else option_map S (index_of x l')
  end.

Definition day_code (label : str) : nat :=
  match index_of label day_order with
  | Some i => i
  | None => length day_order
  end.

Definition is_day (label : str) : bool :=
  match index_of label day_order with
  | Some _ => true
  | None => false
  end.

Fixpoint insert_by_day (x : str * nat) (l : list (str * nat))
  : list (str * nat) :=
  match l with
  | [] => [x]
  | y :: l' =>
      if Nat.leb (day_code (fst x)) (day_code (fst y)) then x :: y :: l'
      else y :: insert_by_day x l'
  end.

(** The [day_of_week] column made a categorical of [day_order] and the
    rows sorted by it: the rows of the days in the order of the week,
    then the rows whose label is no day, the label missing. *)
Definition sort_by_day (rows : list (str * nat)) : list (option str * nat) :=
  map (fun r => (Some (fst r), snd r))
      (fold_right insert_by_day [] (filter (fun r => is_day (fst r)) rows))
  ++ map (fun r => (None, snd r))
         (filter (fun r => negb (is_day (fst r))) rows).

(** The four frames of [get_activity_by_time], each a list of rows of a
    key and a [message_count]. *)
Record Activity : Type := mkActivity {
  hourly_activity : list (Z * nat);
  daily_activity : list (Z * Z * Z * nat);
  monthly_activity : list (str * nat);
  day_of_week_activity : list (option str * nat)
}.

(** [df[df['user'] == selected_user]], the table the application hands
    to the analyzer when a user is selected. *)
Definition df_filtered (selected_user : str) (table : DataFrame) : DataFrame :=
  select_rows (map (fun u => str_eqb u selected_user) (user table)) table.

(** The analyzer: its table, and the column [year_month_str] once a
    method has added it; [ChatAnalyzer(df)] is [mkAnalyzer df None]: on
    a table of [preprocess] or a selection of its rows the three
    columns it changes to the category type are of that type already,
    and keep their categories. *)
Record ChatAnalyzer : Type := mkAnalyzer {
  df : DataFrame;
  year_month_str : option (list (option str))
}.

(** The rows of a column that have the label. *)
Definition count_label (label : str) (col : list (option str)) : nat :=
  length (filter (fun c => match c with
                           | Some x => str_eqb x label
                           | None => false
                           end) col).

Section Grouping.
Context {L : Libs}.

(** [groupby(col)['message'].count()] on a column of the category type:
    one row for each category, in the order of the categories, with the
    number of rows that have it; a row whose label is missing is in no
    group. Where the library leaves out the categories no row has,
    those rows are not there. *)
Definition groupby_category (cats : list str) (col : list (option str))
  : list (str * nat) :=
  let rows := map (fun c => (c, count_label c col)) cats in
  if groupby_observed then filter (fun r => negb (Nat.eqb (snd r) 0)) rows
  else rows.

(** [get_activity_by_time]: the result, [None] for the dictionary of
    frames without columns, and the analyzer it leaves. *)
Definition get_activity_by_time (self : ChatAnalyzer)
  : Res (option Activity) * ChatAnalyzer :=
  if empty (df self) then (Done None, self)
  else
    match derived (df self) with
    | None => (Failed KeyError, self)
    | Some d =>
        match date (df self) with
        | StrCol _ => (Failed AttributeError, self)
        | DtCol col =>
            let hourly := groupby_size Z.ltb (hour d) in
            let daily := groupby_size date_ltb (map date_of col) in
            let ym := map year_month (datetime d) in
            let monthly := groupby_size str_ltb ym in
            let day_of_week :=
              groupby_category (day_categories d) (day_of_week d) in
            (Done (Some {| hourly_activity := hourly;
                           daily_activity := daily;
                           monthly_activity := monthly;
                           day_of_week_activity := sort_by_day day_of_week |}),
             {| df := df self; year_month_str := Some ym |})
        end
    end.

End Grouping.

(** [cleanup_temp_data]. *)
Definition cleanup_temp_data (self : ChatAnalyzer) : ChatAnalyzer :=
  {| df := df self; year_month_str := None |}.

(** The messages a frame of groups accounts for, and the rows of a
    column that are not missing. *)
Definition message_counts {K : Type} (rows : list (K * nat)) : nat :=
  fold_right (fun r acc => snd r + acc) 0 rows.

Definition present {A : Type} (col : list (option A)) : nat :=
  length (filter (fun c => match c with Some _ => true | None => false end) col).

End Activity.

(* ===================================================================== *)
(** ** Lists, ranges and chunks *)
(* ===================================================================== *)

Section Chunks.
Context {A : Type}.

Lemma firstn_add_skipn (i c : nat) (l : list A) :
  firstn (i + c) l = firstn i l ++ firstn c (skipn i l).
Proof.
  revert l; induction i as [|i IH]; intros l; simpl.
  - reflexivity.
  - destruct l as [|x l]; simpl.
    + now rewrite firstn_nil.
    + now rewrite IH.
Qed.

Lemma slice_chunk (l : list A) (i c : nat) :
  slice l i (i + c) = firstn c (skipn i l).
Proof. unfold slice. f_equal. lia. Qed.

(** The chunks [l[0:c]], [l[c:2c]], ... taken together. *)
Lemma chunks_prefix (l : list A) (c k : nat) :
  flat_map (fun i => slice l i (i + c))
           (map (fun j => 0 + j * c) (List.seq 0 k))
  = firstn (k * c) l.
Proof.
  induction k as [|k IH].
  - reflexivity.
  - rewrite seq_S, map_app, flat_map_app, IH. simpl.
    rewrite app_nil_r, slice_chunk.
    replace (c + k * c) with (k * c + c) by lia.
    symmetry. apply firstn_add_skipn.
Qed.

Lemma range_count_covers (n c : nat) :
  0 < c -> n <= ((n - 0 + c - 1) / c) * c.
Proof.
  intros Hc.
  pose proof (Nat.div_mod_eq (n - 0 + c - 1) c) as E.
  pose proof (Nat.mod_upper_bound (n - 0 + c - 1) c) as B.
  nia.
Qed.

Lemma range_count_tight (n c : nat) :
  0 < c -> 0 < n -> (((n - 0 + c - 1) / c) - 1) * c < n.
Proof.
  intros Hc Hn.
  pose proof (Nat.div_mod_eq (n - 0 + c - 1) c) as E.
  pose proof (Nat.mod_upper_bound (n - 0 + c - 1) c) as B.
  nia.
Qed.

Lemma chunks_cover (l : list A) (c : nat) :
  0 < c ->
  flat_map (fun i => slice l i (i + c)) (py_range 0 (length l) c) = l.
Proof.
  intros Hc. unfold py_range. rewrite chunks_prefix.
  apply firstn_all2. now apply range_count_covers.
Qed.

Context {S : Type}.

Lemma fold_left_nested (f : S -> A -> S) (g : nat -> list A)
      (idx : list nat) (init : S) :
  fold_left (fun st i => fold_left f (g i) st) idx init
  = fold_left f (flat_map g idx) init.
Proof.
  revert init; induction idx as [|i idx IH]; intros init; simpl.
  - reflexivity.
  - now rewrite fold_left_app, IH.
Qed.
End Chunks.

Lemma chunk_size_pos : 0 < chunk_size.
Proof. unfold chunk_size. apply Nat.lt_0_succ. Qed.

(** The chunked loop of the parser visits every line once, in order. *)
Lemma parse_lines_fold (lines : list str) :
  parse_lines lines = fold_left process_line lines (mkLists [] [] [] []).
Proof.
  unfold parse_lines.
  rewrite (fold_left_nested process_line
             (fun i => slice lines i (i + chunk_size))).
  now rewrite chunks_cover by apply chunk_size_pos.
Qed.

(* ===================================================================== *)
(** ** The parser *)
(* ===================================================================== *)

Lemma process_line_header (st : Lists) (line : str) (caps : list str) :
  header_groups line = Some caps -> process_line st line = append_match st caps.
Proof.
  unfold header_groups, process_line.
  destruct (Re.py_match pattern_12hr line) as [[c1 r1]|].
  - now intros [= ->].
  - destruct (Re.py_match pattern_24hr line) as [[c2 r2]|].
    + now intros [= ->].
    + destruct (Re.py_match pattern_bracket_format line) as [[c3 r3]|].
      * now intros [= ->].
      * discriminate.
Qed.

Lemma process_line_other (st : Lists) (line : str) :
  header_groups line = None ->
  process_line st line =
    if Nat.ltb 0 (length (messages st))
    then mkLists (dates st) (times st) (users st)
                 (extend_last (messages st) line)
    else st.
Proof.
  unfold header_groups, process_line.
  destruct (Re.py_match pattern_12hr line) as [[c1 r1]|]; [discriminate|].
  destruct (Re.py_match pattern_24hr line) as [[c2 r2]|]; [discriminate|].
  destruct (Re.py_match pattern_bracket_format line) as [[c3 r3]|];
    [discriminate|reflexivity].
Qed.

(** Lines that match no pattern leave the empty lists empty. *)
Lemma leading_lines_dropped (junk rest : list str) :
  Forall (fun l => header_groups l = None) junk ->
  fold_left process_line (junk ++ rest) (mkLists [] [] [] [])
  = fold_left process_line rest (mkLists [] [] [] []).
Proof.
  intros H. rewrite fold_left_app. f_equal.
  induction H as [|l junk Hl _ IH]; simpl.
  - reflexivity.
  - now rewrite (process_line_other _ _ Hl).
Qed.

Lemma extend_last_snoc (ms : list str) (m line : str) :
  extend_last (ms ++ [m]) line = ms ++ [m ++ [nl] ++ line].
Proof.
  unfold extend_last. now rewrite removelast_last, last_last.
Qed.

(** Lines that match no pattern are added to the last message. *)
Lemma continuation_lines_merged (conts : list str) :
  Forall (fun l => header_groups l = None) conts ->
  forall ds ts us ms m,
    fold_left process_line conts (mkLists ds ts us (ms ++ [m]))
    = mkLists ds ts us (ms ++ [fold_left (fun acc l => acc ++ [nl] ++ l) conts m]).
Proof.
  induction 1 as [|l conts Hl _ IH]; intros ds ts us ms m; simpl.
  - reflexivity.
  - rewrite (process_line_other _ _ Hl). simpl.
    rewrite length_app, Nat.add_comm. simpl.
    rewrite extend_last_snoc. apply IH.
Qed.

Lemma join_fold (m : str) (conts : list str) :
  fold_left (fun acc l => acc ++ [nl] ++ l) conts m = join [nl] (m :: conts).
Proof.
  revert m; induction conts as [|l conts IH]; intros m.
  - reflexivity.
  - cbn [fold_left]. rewrite IH.
    change (join [nl] (m :: l :: conts)) with (m ++ [nl] ++ join [nl] (l :: conts)).
    destruct conts as [|l' conts]; cbn [join].
    + reflexivity.
    + now rewrite <- !app_assoc.
Qed.

(** C2. A header line followed by lines that match no header pattern
    gives one record, whose message is the tail of the header line and
    the following lines joined by line feeds, in order; and lines that
    match no header pattern before the first record are dropped: the
    table is the one the remaining lines give. *)
Theorem continuation_merging (data : str) :
  (forall header conts caps,
      split_on nl data = header :: conts ->
      header_groups header = Some caps ->
      Forall (fun l => header_groups l = None) conts ->
      parse_chat data =
        {| date := StrCol [Re.group 1 caps];
           time := [Re.group 2 caps];
           user := [Re.group 3 caps];
           message := [join [nl] (Re.group 4 caps :: conts)];
           derived := None |})
  /\
  (forall junk rest,
      split_on nl data = junk ++ rest ->
      Forall (fun l => header_groups l = None) junk ->
      parse_chat data = frame_of_lists (parse_lines rest)).
Proof.
  split.
  - intros header conts caps Hs Hh Hc.
    unfold parse_chat. rewrite Hs, parse_lines_fold. cbn [fold_left].
    rewrite (process_line_header _ _ _ Hh). unfold append_match. cbn [dates times users messages app].
    pose proof (continuation_lines_merged _ Hc [Re.group 1 caps]
                  [Re.group 2 caps] [Re.group 3 caps] [] (Re.group 4 caps)) as E.
    cbn [app] in E. rewrite E.
    unfold frame_of_lists. cbn [dates times users messages app].
    now rewrite join_fold.
  - intros junk rest Hs Hj.
    unfold parse_chat. rewrite Hs, !parse_lines_fold.
    now rewrite leading_lines_dropped.
Qed.

Lemma continuation_merging_witness :
  (split_on nl (lit "1/1/23, 10:00 - Alice: Line one" ++ [nl] ++ lit "Line two")
   = lit "1/1/23, 10:00 - Alice: Line one" :: [lit "Line two"]
   /\ header_groups (lit "1/1/23, 10:00 - Alice: Line one")
      = Some [lit "1/1/23"; lit "10:00"; lit "Alice"; lit "Line one"]
   /\ parse_chat (lit "1/1/23, 10:00 - Alice: Line one" ++ [nl] ++ lit "Line two")
      = {| date := StrCol [lit "1/1/23"];
           time := [lit "10:00"];
           user := [lit "Alice"];
           message := [lit "Line one" ++ [nl] ++ lit "Line two"];
           derived := None |})
  /\
  (split_on nl (lit "WhatsApp export" ++ [nl] ++ lit "1/1/23, 10:00 - Alice: Hi")
   = [lit "WhatsApp export"] ++ [lit "1/1/23, 10:00 - Alice: Hi"]
   /\ parse_chat (lit "WhatsApp export" ++ [nl] ++ lit "1/1/23, 10:00 - Alice: Hi")
      = frame_of_lists (parse_lines [lit "1/1/23, 10:00 - Alice: Hi"])).
Proof.
  split.
  - split; [reflexivity|]. split; [vm_compute; reflexivity|].
    apply (proj1 (continuation_merging _)
                 (lit "1/1/23, 10:00 - Alice: Line one") [lit "Line two"]
                 [lit "1/1/23"; lit "10:00"; lit "Alice"; lit "Line one"]).
    + reflexivity.
    + vm_compute; reflexivity.
    + constructor; [vm_compute; reflexivity | constructor].
  - split; [reflexivity|].
    apply (proj2 (continuation_merging _) [lit "WhatsApp export"]
                 [lit "1/1/23, 10:00 - Alice: Hi"]).
    + reflexivity.
    + constructor; [vm_compute; reflexivity | constructor].
Defined.

Lemma no_header_no_record (lines : list str) :
  Forall (fun l => header_groups l = None) lines ->
  parse_lines lines = mkLists [] [] [] [].
Proof.
  intros H. rewrite parse_lines_fold.
  rewrite <- (app_nil_r lines). now rewrite leading_lines_dropped.
Qed.

Lemma process_line_same_lengths (st : Lists) (line : str) :
  same_lengths st -> same_lengths (process_line st line).
Proof.
  intros (Hd & Ht & Hu).
  destruct (header_groups line) as [caps|] eqn:Hh.
  - rewrite (process_line_header _ _ _ Hh). unfold same_lengths, append_match.
    cbn [dates times users messages]. rewrite !length_app. cbn. lia.
  - rewrite (process_line_other _ _ Hh).
    destruct (Nat.ltb 0 (length (messages st))) eqn:Hm.
    + unfold same_lengths. cbn [dates times users messages].
      apply Nat.ltb_lt in Hm.
      destruct (exists_last (l := messages st)) as (ms & m & E).
      { intros E. rewrite E in Hm. cbn in Hm. lia. }
      rewrite E in *. rewrite extend_last_snoc.
      rewrite !length_app in *. cbn in *. lia.
    + now repeat split.
Qed.

Lemma parse_lines_same_lengths (lines : list str) :
  same_lengths (parse_lines lines).
Proof.
  rewrite parse_lines_fold.
  assert (H : same_lengths (mkLists [] [] [] [])) by now repeat split.
  revert H. generalize (mkLists [] [] [] []).
  induction lines as [|l lines IH]; intros st H; cbn [fold_left].
  - exact H.
  - apply IH. now apply process_line_same_lengths.
Qed.

Lemma parse_chat_well_formed (data : str) : well_formed (parse_chat data).
Proof.
  unfold well_formed, parse_chat, frame_of_lists, len.
  cbn [date time user message date_len].
  apply parse_lines_same_lengths.
Qed.

Lemma parse_chat_empty (data : str) :
  empty (parse_chat data) = true ->
  parse_chat data = frame_of_lists (mkLists [] [] [] []).
Proof.
  unfold empty, len, parse_chat. cbn [frame_of_lists message].
  intros He. apply Nat.eqb_eq in He.
  destruct (parse_lines_same_lengths (split_on nl data)) as (Hd & Ht & Hu).
  destruct (parse_lines (split_on nl data)) as [ds ts us ms].
  cbn [dates times users messages] in *.
  rewrite He in *.
  apply length_zero_iff_nil in He, Hd, Ht, Hu. now subst.
Qed.

(* ===================================================================== *)
(** ** The empty table *)
(* ===================================================================== *)

Section EmptyTable.
Context {L : Libs}.

(** C6. When no line of the input matches a header pattern the parser
    returns the table without rows, and the feature extractor returns
    that table without raising. *)
Theorem no_header_empty_result (data : str) :
  Forall (fun l => header_groups l = None) (split_on nl data) ->
  parse_chat data = frame_of_lists (mkLists [] [] [] [])
  /\ len (parse_chat data) = 0
  /\ analyze_chat data = Ok (parse_chat data).
Proof.
  intros H. unfold analyze_chat, parse_chat.
  rewrite (no_header_no_record _ H). repeat split.
Qed.


(** C10. An empty table comes back from the feature extractor as it
    went in, with no column added; when the table of the parser is
    empty the result of the pipeline is the table of four empty columns
    and no derived column. *)
Theorem preprocess_empty_unchanged (df : DataFrame) (data : str) :
  (empty df = true -> preprocess df = Ok df)
  /\ (empty (parse_chat data) = true ->
      analyze_chat data =
        Ok {| date := StrCol []; time := []; user := []; message := [];
              derived := None |}).
Proof.
  split.
  - intros He. unfold preprocess. now rewrite He.
  - intros He. unfold analyze_chat. now rewrite (parse_chat_empty _ He).
Qed.
End EmptyTable.

Lemma no_header_empty_result_witness :
  Forall (fun l => header_groups l = None)
         (split_on nl (lit "hello" ++ [nl] ++ lit "12/31/23 no header here"))
  /\ analyze_chat (L := sample_libs) (lit "hello" ++ [nl] ++ lit "12/31/23 no header here")
     = Ok (frame_of_lists (mkLists [] [] [] [])).
Proof.
  assert (H : Forall (fun l => header_groups l = None)
                (split_on nl (lit "hello" ++ [nl] ++ lit "12/31/23 no header here"))).
  { repeat (constructor; [vm_compute; reflexivity|]). constructor. }
  split; [exact H|].
  destruct (no_header_empty_result (L := sample_libs) _ H) as (E & _ & R).
  now rewrite R, E.
Defined.

Lemma preprocess_empty_unchanged_witness :
  let df := mkDF (StrCol []) [] [] [] None in
  let data := lit "no message in this file" in
  (empty df = true /\ preprocess (L := sample_libs) df = Ok df)
  /\ (empty (parse_chat data) = true
      /\ analyze_chat (L := sample_libs) data = Ok df).
Proof.
  intros df data.
  split; (split; [reflexivity|]).
  - apply (proj1 (preprocess_empty_unchanged df data)). reflexivity.
  - apply (proj2 (preprocess_empty_unchanged df data)). reflexivity.
Defined.

(* ===================================================================== *)
(** ** Substrings *)
(* ===================================================================== *)

Lemma prefix_of_spec (p s : str) :
  prefix_of p s = true <-> exists post, s = p ++ post.
Proof.
  revert s; induction p as [|x p IH]; intros s; cbn [prefix_of].
  - split; [intros _; now exists s | reflexivity].
  - destruct s as [|y s].
    + split; [discriminate | intros [post E]; discriminate].
    + rewrite andb_true_iff, N.eqb_eq, IH. split.
      * intros [-> [post ->]]. now exists post.
      * intros [post E]. injection E as -> ->. split; [reflexivity | now exists post].
Qed.

Lemma contains_spec (sub s : str) :
  contains sub s = true <-> substring sub s.
Proof.
  unfold substring. induction s as [|y s IH]; cbn [contains].
  - rewrite prefix_of_spec. split.
    + intros [post E]. exists [], post. exact E.
    + intros (pre & post & E). destruct pre; [|discriminate].
      now exists post.
  - rewrite orb_true_iff, prefix_of_spec, IH. split.
    + intros [[post E] | (pre & post & E)].
      * exists [], post. exact E.
      * exists (y :: pre), post. now rewrite E.
    + intros (pre & post & E). destruct pre as [|z pre].
      * left. now exists post.
      * right. injection E as -> ->. now exists pre, post.
Qed.

(* ===================================================================== *)
(** ** The columns of the message features *)
(* ===================================================================== *)

Section MessageFeatures.
Context {L : Libs}.

(** What [preprocess] returns on a table with rows. *)
Lemma preprocess_nonempty (df out : DataFrame) :
  empty df = false ->
  preprocess df = Ok out ->
  exists dt,
    Pandas.to_datetime_na false
      (zip_with (fun d t => option_map (fun d => d ++ lit " " ++ t) d)
                (Pandas.astype_str (convert_dates df)) (convert_times df))
    = Ok dt
    /\ date out = DtCol (convert_dates df)
    /\ time out = convert_times df
    /\ user out = user df
    /\ message out = message df
    /\ exists d,
        derived out = Some d
        /\ datetime d = dt
        /\ hour d = ts_field Calendar.hour dt
        /\ minute d = ts_field Calendar.minute dt
        /\ day d = ts_field Calendar.day dt
        /\ day_of_week d = ts_name Calendar.day_name dt
        /\ month d = ts_field Calendar.month dt
        /\ month_name d = ts_name Calendar.month_name dt
        /\ year d = ts_field Calendar.year dt
        /\ message_length d = map (fun x => Z.of_nat (length x)) (message df)
        /\ word_count d
           = map (fun x => Z.of_nat (length (split_ws x))) (message df)
        /\ has_media d
           = map (fun x => contains_media (str_lower x)) (message df)
        /\ has_url d
           = map (fun x => negb (Nat.eqb (length (find_urls x)) 0)) (message df)
        /\ url_count d
           = map (fun x => Z.of_nat (length (find_urls x))) (message df)
        /\ emojis d = map extract_emojis (message df)
        /\ emoji_count d
           = map (fun e => Z.of_nat (length e)) (map extract_emojis (message df)).
Proof.
  intros He. unfold preprocess. rewrite He.
  destruct (Pandas.to_datetime_na false _) as [dt|e] eqn:Hdt; cbn [bind].
  - intros [= <-]. exists dt. cbn.
    repeat (split; [reflexivity|]).
    eexists. repeat (split; [reflexivity|]). reflexivity.
  - discriminate.
Qed.

(** The categories of [day_of_week] are the day names of the table. *)
Lemma preprocess_categories (df out : DataFrame) (d : Derived) :
  empty df = false ->
  preprocess df = Ok out ->
  derived out = Some d ->
  day_categories d = Pandas.categories (day_of_week d).
Proof.
  intros He. unfold preprocess. rewrite He.
  destruct (Pandas.to_datetime_na false _) as [dt|e]; cbn [bind];
    [|discriminate].
  intros [= <-]. cbn [derived]. intros [= <-]. reflexivity.
Qed.

(** The message features of one row are read off its message. *)
Lemma preprocess_row (df out : DataFrame) (d : Derived) (i : nat) (m : str) :
  preprocess df = Ok out ->
  derived out = Some d ->
  nth_error (message out) i = Some m ->
  nth_error (message_length d) i = Some (Z.of_nat (length m))
  /\ nth_error (word_count d) i = Some (Z.of_nat (length (split_ws m)))
  /\ nth_error (has_media d) i = Some (contains_media (str_lower m))
  /\ nth_error (has_url d) i = Some (negb (Nat.eqb (length (find_urls m)) 0))
  /\ nth_error (url_count d) i = Some (Z.of_nat (length (find_urls m)))
  /\ nth_error (emojis d) i = Some (extract_emojis m)
  /\ nth_error (emoji_count d) i = Some (Z.of_nat (length (extract_emojis m))).
Proof.
  intros Hp Hd Hm.
  destruct (empty df) eqn:He.
  - unfold preprocess in Hp. rewrite He in Hp. injection Hp as <-.
    unfold empty, len in He. apply Nat.eqb_eq, length_zero_iff_nil in He.
    rewrite He in Hm. destruct i; discriminate.
  - destruct (preprocess_nonempty _ _ He Hp)
      as (dt & _ & _ & _ & _ & Em & d' & Ed & _ & _ & _ & _ & _ & _ & _ & _
          & E1 & E2 & E3 & E4 & E5 & E6 & E7).
    rewrite Hd in Ed. injection Ed as <-.
    rewrite Em in Hm.
    rewrite E1, E2, E3, E4, E5, E6, E7, !nth_error_map.
    unfold str in *. rewrite Hm. cbn.
    repeat split.
Qed.

(** C7. In every row of the enriched table [has_media] is 1 exactly
    when the message in lower case contains one of the media markers,
    and 0 otherwise. *)
Theorem has_media_iff_marker (df out : DataFrame) (d : Derived)
        (i : nat) (m : str) :
  preprocess df = Ok out ->
  derived out = Some d ->
  nth_error (message out) i = Some m ->
  exists h,
    nth_error (has_media d) i = Some h
    /\ (h = 1%Z <->
        exists term, In term media_terms /\ substring term (str_lower m))
    /\ (h <> 1%Z -> h = 0%Z).
Proof.
  intros Hp Hd Hm.
  destruct (preprocess_row _ _ _ _ _ Hp Hd Hm) as (_ & _ & Hh & _).
  exists (contains_media (str_lower m)). split; [exact Hh|].
  unfold contains_media.
  destruct (existsb _ media_terms) eqn:Hex.
  - split; [|congruence]. split; [intros _|reflexivity].
    apply existsb_exists in Hex. destruct Hex as (term & Hin & Hc).
    exists term. split; [exact Hin|]. now apply contains_spec.
  - split; [|reflexivity]. split; [discriminate|].
    intros (term & Hin & Hs). apply contains_spec in Hs.
    assert (Ht : existsb (fun t => contains t (str_lower m)) media_terms = true)
      by (apply existsb_exists; now exists term).
    rewrite Hex in Ht. discriminate.
Qed.

(** C8. In every row of the enriched table [emoji_count] is the length
    of [emojis], [word_count] is 0 for the empty message, the four counts
    are not negative, and any row of any enriched table with the same
    message has the same four counts. *)
Theorem counts_consistent (df out : DataFrame) (d : Derived)
        (i : nat) (m : str) :
  preprocess df = Ok out ->
  derived out = Some d ->
  nth_error (message out) i = Some m ->
  exists es ec wc ml uc,
    nth_error (emojis d) i = Some es
    /\ nth_error (emoji_count d) i = Some ec
    /\ nth_error (word_count d) i = Some wc
    /\ nth_error (message_length d) i = Some ml
    /\ nth_error (url_count d) i = Some uc
    /\ ec = Z.of_nat (length es)
    /\ (m = [] -> wc = 0%Z)
    /\ (0 <= wc)%Z /\ (0 <= ml)%Z /\ (0 <= ec)%Z /\ (0 <= uc)%Z
    /\ (forall df2 out2 d2 j,
           preprocess df2 = Ok out2 ->
           derived out2 = Some d2 ->
           nth_error (message out2) j = Some m ->
           nth_error (emoji_count d2) j = Some ec
           /\ nth_error (word_count d2) j = Some wc
           /\ nth_error (message_length d2) j = Some ml
           /\ nth_error (url_count d2) j = Some uc).
Proof.
  intros Hp Hd Hm.
  destruct (preprocess_row _ _ _ _ _ Hp Hd Hm) as (Hl & Hw & _ & _ & Hu & He & Hc).
  exists (extract_emojis m), (Z.of_nat (length (extract_emojis m))),
         (Z.of_nat (length (split_ws m))), (Z.of_nat (length m)),
         (Z.of_nat (length (find_urls m))).
  repeat (split; [assumption || reflexivity || apply Nat2Z.is_nonneg|]).
  split; [now intros ->|].
  repeat (split; [apply Nat2Z.is_nonneg|]).
  intros df2 out2 d2 j Hp2 Hd2 Hm2.
  destruct (preprocess_row _ _ _ _ _ Hp2 Hd2 Hm2) as (Hl2 & Hw2 & _ & _ & Hu2 & _ & Hc2).
  now repeat split.
Qed.
End MessageFeatures.

(* ===================================================================== *)
(** ** Decimal digits and [int] *)
(* ===================================================================== *)

Lemma in_range_spec (lo hi c : N) :
  in_range lo hi c = true <-> (lo <= c /\ c <= hi)%N.
Proof. unfold in_range. now rewrite andb_true_iff, !N.leb_le. Qed.

Lemma decimal_value_block (c v : N) :
  decimal_value c = Some v ->
  exists b, In b decimal_blocks /\ (b <= c /\ c <= b + 9)%N /\ v = (c - b)%N.
Proof.
  unfold decimal_value.
  destruct (find _ decimal_blocks) as [b|] eqn:F; [|discriminate].
  intros [= <-]. apply find_some in F. destruct F as [Hin Hr].
  apply in_range_spec in Hr. now exists b.
Qed.

Lemma decimal_value_le (c v : N) : decimal_value c = Some v -> (v <= 9)%N.
Proof.
  intros H. destruct (decimal_value_block _ _ H) as (b & _ & Hr & ->). lia.
Qed.

Lemma is_decimal_value (c : char) :
  is_decimal c = true -> exists v, decimal_value c = Some v.
Proof.
  unfold is_decimal. destruct (decimal_value c) as [v|]; [|discriminate].
  intros _. now exists v.
Qed.

Lemma decimal_enumerated (c : char) :
  is_decimal c = true -> In c all_decimals.
Proof.
  intros H. destruct (is_decimal_value _ H) as [v Hv].
  destruct (decimal_value_block _ _ Hv) as (b & Hin & Hr & ->).
  unfold all_decimals. apply in_flat_map. exists b. split; [exact Hin|].
  apply in_map_iff. exists (c - b)%N. split; [lia|].
  assert (K : (c - b = 0 \/ c - b = 1 \/ c - b = 2 \/ c - b = 3 \/ c - b = 4
               \/ c - b = 5 \/ c - b = 6 \/ c - b = 7 \/ c - b = 8
               \/ c - b = 9)%N) by lia.
  cbn. intuition.
Qed.

(** A property that holds of the enumerated digits holds of every
    decimal digit. *)
Lemma decimal_forall (P : char -> bool) (c : char) :
  forallb P all_decimals = true -> is_decimal c = true -> P c = true.
Proof.
  intros HP Hc. rewrite forallb_forall in HP.
  apply HP. now apply decimal_enumerated.
Qed.

(** Digits are neither white space, nor signs, nor underscores, and
    [int] reads in each the value the Unicode tables give it. *)
Lemma decimal_int_digit (c : char) :
  is_decimal c = true ->
  int_digit c = decimal_value c
  /\ int_space c = false /\ c <> 45%N /\ c <> 43%N /\ c <> 95%N.
Proof.
  intros H.
  pose proof (decimal_forall
                (fun c => (match int_digit c, decimal_value c with
                           | Some a, Some b => N.eqb a b
                           | _, _ => false
                           end
                           && negb (int_space c) && negb (N.eqb c 45)
                           && negb (N.eqb c 43) && negb (N.eqb c 95))%bool)
                c eq_refl H) as K.
  cbv beta in K. rewrite !andb_true_iff, !negb_true_iff, !N.eqb_neq in K.
  destruct K as ((((K1 & K2) & K3) & K4) & K5).
  repeat split; try assumption.
  destruct (int_digit c), (decimal_value c); try discriminate.
  apply N.eqb_eq in K1. now subst.
Qed.

Lemma int_digits_decimal (w : str) (acc : N) (b : bool) :
  forallb is_decimal w = true ->
  (w <> [] \/ b = true) ->
  int_digits acc b w
  = Some (fold_left (fun a c => (10 * a + match decimal_value c with
                                           | Some v => v
                                           | None => 0
                                           end)%N) w acc, []).
Proof.
  revert acc b; induction w as [|c w IH]; intros acc b Hw Hb.
  - destruct Hb as [Hb| ->]; [congruence | reflexivity].
  - cbn [forallb] in Hw. apply andb_true_iff in Hw. destruct Hw as [Hc Hw].
    destruct (decimal_int_digit _ Hc) as (Hd & _).
    destruct (is_decimal_value _ Hc) as [v Hv].
    cbn [int_digits fold_left]. rewrite Hd, Hv.
    apply IH; [exact Hw | now right].
Qed.

(** [int] of a run of decimal digits. *)
Lemma py_int_decimal (w : str) :
  w <> [] -> forallb is_decimal w = true ->
  py_int w = Some (Z.of_N (digits_value w)).
Proof.
  intros Hne Hw. destruct w as [|c w]; [congruence|].
  pose proof Hw as Hw'. cbn [forallb] in Hw'.
  apply andb_true_iff in Hw'. destruct Hw' as [Hc _].
  destruct (decimal_int_digit _ Hc) as (_ & Hs & H45 & H43 & _).
  unfold py_int. cbn [drop_while]. rewrite Hs.
  apply N.eqb_neq in H45, H43. rewrite H45, H43.
  rewrite (int_digits_decimal _ 0 false Hw) by (left; discriminate).
  reflexivity.
Qed.

(* ===================================================================== *)
(** ** What a match tells *)
(* ===================================================================== *)

Section MatcherSound.
Variable R : Type.

Lemma rep_sound (greedy : bool) (p : char -> bool) (s : str) :
  forall lo hi caps (k : Re.cont R) x,
    Re.rep greedy p lo hi s caps k = Some x ->
    exists w rest,
      s = w ++ rest /\ forallb p w = true /\ lo <= length w
      /\ Re.bounded hi (length w) /\ k rest caps = Some x.
Proof.
  induction s as [|c s IH]; intros lo hi caps k x H.
  - cbn in H. destruct lo; [|discriminate].
    exists [], []. repeat split; try assumption.
    + apply Nat.le_0_l.
    + destruct hi; cbn; [apply Nat.le_0_l | exact I].
  - assert (Stop : match lo with 0 => k (c :: s) caps | S _ => None end = Some x ->
                   exists w rest,
                     c :: s = w ++ rest /\ forallb p w = true /\ lo <= length w
                     /\ Re.bounded hi (length w) /\ k rest caps = Some x).
    { intros Hs. destruct lo; [|discriminate].
      exists [], (c :: s). repeat split; try assumption.
      - apply Nat.le_0_l.
      - destruct hi; cbn; [apply Nat.le_0_l | exact I]. }
    assert (More : Re.rep greedy p (pred lo) (Re.hi_pred hi) s caps k = Some x ->
                   (p c && negb (Re.hi_zero hi))%bool = true ->
                   exists w rest,
                     c :: s = w ++ rest /\ forallb p w = true /\ lo <= length w
                     /\ Re.bounded hi (length w) /\ k rest caps = Some x).
    { intros Hm Hc. apply andb_true_iff in Hc. destruct Hc as [Hp Hz].
      destruct (IH _ _ _ _ _ Hm) as (w & rest & -> & Hw & Hlo & Hhi & Hk).
      exists (c :: w), rest. cbn [forallb length app]. rewrite Hp, Hw.
      repeat split; try assumption.
      - lia.
      - destruct hi as [[|h]|]; cbn in *; try discriminate; try exact I. lia. }
    cbn [Re.rep] in H.
    destruct (p c && negb (Re.hi_zero hi))%bool eqn:Hc; [|now apply Stop].
    destruct greedy.
    + destruct (Re.rep true p (pred lo) (Re.hi_pred hi) s caps k) as [y|] eqn:Hm.
      * injection H as ->. now apply More.
      * now apply Stop.
    + destruct (match lo with 0 => k (c :: s) caps | S _ => None end) as [y|] eqn:Hs.
      * injection H as ->. now apply Stop.
      * now apply More.
Qed.

Lemma run_sound (r : Re.regex) :
  forall s caps (k : Re.cont R) x,
    Re.run r s caps k = Some x ->
    exists w rest g,
      s = w ++ rest /\ Re.denotes r w g /\ k rest (caps ++ g) = Some x.
Proof.
  induction r as [|c|p|g lo hi p|r1 IH1 r2 IH2|r1 IH1 r2 IH2|r1 IH1];
    intros s caps k x H; cbn [Re.run] in H.
  - exists [], s, []. rewrite app_nil_r. now repeat split.
  - destruct s as [|y s]; [discriminate|].
    destruct (N.eqb y c) eqn:E; [|discriminate]. apply N.eqb_eq in E. subst y.
    exists [c], s, []. rewrite app_nil_r. now repeat split.
  - destruct s as [|y s]; [discriminate|].
    destruct (p y) eqn:E; [|discriminate].
    exists [y], s, []. rewrite app_nil_r. repeat split; try assumption.
    now exists y.
  - destruct (rep_sound _ _ _ _ _ _ _ _ H) as (w & rest & -> & Hw & Hlo & Hhi & Hk).
    exists w, rest, []. rewrite app_nil_r. now repeat split.
  - destruct (IH1 _ _ _ _ H) as (w1 & rest1 & g1 & -> & D1 & H1).
    destruct (IH2 _ _ _ _ H1) as (w2 & rest & g2 & -> & D2 & H2).
    exists (w1 ++ w2), rest, (g1 ++ g2).
    rewrite <- !app_assoc in *. repeat split; try assumption.
    cbn. now exists w1, w2, g1, g2.
  - destruct (Re.run r1 s caps k) as [y|] eqn:E.
    + injection H as ->.
      destruct (IH1 _ _ _ _ E) as (w & rest & g & -> & D & Hk).
      exists w, rest, g. repeat split; try assumption. now left.
    + destruct (IH2 _ _ _ _ H) as (w & rest & g & -> & D & Hk).
      exists w, rest, g. repeat split; try assumption. now right.
  - destruct (IH1 _ _ _ _ H) as (w & rest & g & -> & D & Hk).
    exists w, rest, (g ++ [w]). repeat split.
    + cbn. now exists g.
    + rewrite length_app, Nat.add_sub, firstn_app, Nat.sub_diag, firstn_all in Hk.
      cbn [firstn] in Hk. rewrite app_nil_r, <- app_assoc in Hk. exact Hk.
Qed.
End MatcherSound.

Lemma py_match_sound (r : Re.regex) (s rest : str) (caps : list str) :
  Re.py_match r s = Some (caps, rest) ->
  exists w, s = w ++ rest /\ Re.denotes r w caps.
Proof.
  unfold Re.py_match. intros H.
  destruct (run_sound _ _ _ _ _ _ H) as (w & rest' & g & -> & D & [= <- <-]).
  now exists w.
Qed.

(* ===================================================================== *)
(** ** The directives of [strptime] *)
(* ===================================================================== *)

Ltac break_match_facts :=
  repeat match goal with
         | H : exists _, _ |- _ => destruct H
         | H : _ /\ _ |- _ => destruct H
         | H : _ \/ _ |- _ => destruct H
         end; subst.

Lemma ascii_digit_value (c : char) :
  is_ascii_digit c = true ->
  decimal_value c = Some (c - 48)%N /\ is_decimal c = true.
Proof.
  intros H. unfold is_decimal, decimal_value, decimal_blocks. cbn [find].
  unfold is_ascii_digit in H. change (48 + 9)%N with 57%N. now rewrite H.
Qed.

Lemma in_range_digit (lo hi c : N) :
  (48 <= lo)%N -> (hi <= 57)%N -> in_range lo hi c = true ->
  is_ascii_digit c = true /\ (lo <= c /\ c <= hi)%N.
Proof.
  intros Hlo Hhi H. apply in_range_spec in H. split; [|exact H].
  apply in_range_spec. lia.
Qed.

(** The value of one digit and of two digits. *)
Lemma num_one (c : char) (v : N) :
  is_decimal c = true -> decimal_value c = Some v ->
  Strptime.num [c] = Z.of_N v.
Proof.
  intros Hc Hv. unfold Strptime.num.
  rewrite (py_int_decimal [c]) by (try discriminate; cbn; now rewrite Hc).
  unfold digits_value. cbn [fold_left]. rewrite Hv. lia.
Qed.

Lemma num_two (c1 c2 : char) (v1 v2 : N) :
  is_decimal c1 = true -> decimal_value c1 = Some v1 ->
  is_decimal c2 = true -> decimal_value c2 = Some v2 ->
  Strptime.num [c1; c2] = (10 * Z.of_N v1 + Z.of_N v2)%Z.
Proof.
  intros Hc1 Hv1 Hc2 Hv2. unfold Strptime.num.
  rewrite (py_int_decimal [c1; c2])
    by (try discriminate; cbn; now rewrite Hc1, Hc2).
  unfold digits_value. cbn [fold_left]. rewrite Hv1, Hv2. lia.
Qed.

(** Rewrites the value of a one- or two-character group whose
    characters are known to be digits, and closes the bound. *)
Ltac digit_facts :=
  repeat match goal with
         | H : in_range ?lo ?hi ?c = true |- _ =>
             let D := fresh "D" in
             let B := fresh "B" in
             destruct (in_range_digit lo hi c ltac:(cbv; discriminate)
                         ltac:(cbv; discriminate) H) as [D B];
             clear H;
             let V := fresh "V" in
             let I := fresh "I" in
             destruct (ascii_digit_value c D) as [V I]
         | H : is_decimal ?c = true |- _ =>
             lazymatch goal with
             | _ : decimal_value c = Some _ |- _ => fail
             | _ =>
                 let v := fresh "v" in
                 let V := fresh "V" in
                 destruct (is_decimal_value c H) as [v V];
                 pose proof (decimal_value_le c v V)
             end
         end.

Ltac norm_ch :=
  repeat match goal with
         | |- context [ch ?a] =>
             let v := eval vm_compute in (ch a) in change (ch a) with v in *
         | H : context [ch ?a] |- _ =>
             let v := eval vm_compute in (ch a) in change (ch a) with v in *
         end.

Ltac num_value :=
  repeat match goal with
         | |- context [Strptime.num [?a; ?b]] =>
             erewrite (num_two a b) by (first [eassumption | reflexivity])
         | |- context [Strptime.num [?a]] =>
             erewrite (num_one a) by (first [eassumption | reflexivity])
         end.

Ltac directive :=
  unfold Strptime.re_m, Strptime.re_I, Strptime.re_d, Strptime.re_H,
    Strptime.re_M, Strptime.re_S, Strptime.re_Y, Strptime.re_y,
    Strptime.cls_range, Re.digit, Re.seq;
  cbn [Re.denotes fold_right]; intros;
  break_match_facts; cbn [app]; norm_ch; digit_facts;
  (split; [reflexivity|]); num_value; lia.

Lemma re_m_value (w : str) (g : list str) :
  Re.denotes Strptime.re_m w g -> g = [w] /\ (1 <= Strptime.num w <= 12)%Z.
Proof. directive. Qed.
Lemma re_M_value (w : str) (g : list str) :
  Re.denotes Strptime.re_M w g -> g = [w] /\ (0 <= Strptime.num w <= 59)%Z.
Proof. directive. Qed.
Lemma re_H_value (w : str) (g : list str) :
  Re.denotes Strptime.re_H w g -> g = [w] /\ (0 <= Strptime.num w <= 23)%Z.
Proof. directive. Qed.
Lemma re_S_value (w : str) (g : list str) :
  Re.denotes Strptime.re_S w g -> g = [w] /\ (0 <= Strptime.num w <= 61)%Z.
Proof. directive. Qed.

Lemma re_p_group (w : str) (g : list str) :
  Re.denotes Strptime.re_p w g -> g = [w].
Proof.
  unfold Strptime.re_p, Re.one_of. cbn [Re.denotes]. intros.
  break_match_facts; reflexivity.
Qed.

Lemma full_match_sound (r : Re.regex) (s : str) (caps : list str) :
  Strptime.full_match r s = Some caps -> Re.denotes r s caps.
Proof.
  unfold Strptime.full_match.
  destruct (Re.py_match r s) as [[c [|x rest]]|] eqn:E; try discriminate.
  intros [= <-]. destruct (py_match_sound _ _ _ _ E) as (w & -> & D).
  now rewrite app_nil_r.
Qed.

Lemma strptime_I_M_p_range (s : str) (h m : Z) :
  Strptime.strptime_I_M_p s = Some (h, m) ->
  (0 <= h < 24 /\ 0 <= m < 60)%Z.
Proof.
  unfold Strptime.strptime_I_M_p.
  destruct (Strptime.full_match _ s) as [caps|] eqn:E; [|discriminate].
  apply full_match_sound in E.
  cbn [Re.denotes Re.seq fold_right] in E. break_match_facts.
  repeat match goal with
         | H : Re.denotes Strptime.re_I _ _ |- _ =>
             apply re_m_value in H; destruct H as [-> ?]
         | H : Re.denotes Strptime.re_M _ _ |- _ =>
             apply re_M_value in H; destruct H as [-> ?]
         | H : Re.denotes Strptime.re_p _ _ |- _ =>
             apply re_p_group in H; subst
         end.
  cbn [app Re.group Nat.sub nth].
  intros [= <- <-].
  repeat match goal with
         | |- context [if ?b then _ else _] => destruct b eqn:?
         end; lia.
Qed.

Lemma strptime_H_M_S_range (s : str) (h m : Z) :
  Strptime.strptime_H_M_S s = Some (h, m) ->
  (0 <= h < 24 /\ 0 <= m < 60)%Z.
Proof.
  unfold Strptime.strptime_H_M_S.
  destruct (Strptime.full_match _ s) as [caps|] eqn:E; [|discriminate].
  apply full_match_sound in E.
  cbn [Re.denotes Re.seq fold_right] in E. break_match_facts.
  repeat match goal with
         | H : Re.denotes Strptime.re_H _ _ |- _ =>
             apply re_H_value in H; destruct H as [-> ?]
         | H : Re.denotes Strptime.re_M _ _ |- _ =>
             apply re_M_value in H; destruct H as [-> ?]
         | H : Re.denotes Strptime.re_S _ _ |- _ =>
             apply re_S_value in H; destruct H as [-> ?]
         end.
  cbn [app Re.group Nat.sub nth].
  destruct (Z.leb _ 59); [|discriminate].
  intros [= <- <-]. lia.
Qed.

Lemma clock_enumerated (h m : Z) :
  (0 <= h < 24)%Z -> (0 <= m < 60)%Z -> In (h, m) clock_values.
Proof.
  intros Hh Hm. unfold clock_values. apply in_prod.
  - apply in_map_iff. exists (Z.to_nat h). split; [lia|]. apply in_seq. lia.
  - apply in_map_iff. exists (Z.to_nat m). split; [lia|]. apply in_seq. lia.
Qed.

Lemma str_eqb_eq (a b : str) : str_eqb a b = true <-> a = b.
Proof.
  revert b; induction a as [|x a IH]; intros [|y b]; cbn [str_eqb];
    try (split; [discriminate|discriminate]); try tauto.
  rewrite andb_true_iff, N.eqb_eq, IH. split.
  - now intros [-> ->].
  - now intros [= -> ->].
Qed.

(* ===================================================================== *)
(** ** [convert_time] *)
(* ===================================================================== *)

(** A time already in the form [HH:MM] is left as it is. *)
Lemma strftime_fixed (h m : Z) :
  (0 <= h < 24)%Z -> (0 <= m < 60)%Z ->
  convert_time (Strptime.strftime_HM h m) = Strptime.strftime_HM h m.
Proof.
  intros Hh Hm.
  assert (K : forallb
                (fun hm => str_eqb
                             (convert_time (Strptime.strftime_HM (fst hm) (snd hm)))
                             (Strptime.strftime_HM (fst hm) (snd hm)))
                clock_values = true) by (vm_compute; reflexivity).
  rewrite forallb_forall in K.
  specialize (K (h, m) (clock_enumerated h m Hh Hm)). cbn [fst snd] in K.
  now apply str_eqb_eq.
Qed.

Lemma convert_time_idempotent (s : str) :
  convert_time (convert_time s) = convert_time s.
Proof.
  unfold convert_time at 2 3.
  destruct (has_am_pm s) eqn:Ha.
  - destruct (Strptime.strptime_I_M_p s) as [[h m]|] eqn:E.
    + destruct (strptime_I_M_p_range _ _ _ E). now apply strftime_fixed.
    + unfold convert_time. now rewrite Ha, E.
  - destruct (contains (lit ":") s && Nat.eqb (count_char (ch ":") s) 2)%bool eqn:Hc.
    + destruct (Strptime.strptime_H_M_S s) as [[h m]|] eqn:E.
      * destruct (strptime_H_M_S_range _ _ _ E). now apply strftime_fixed.
      * unfold convert_time. now rewrite Ha, Hc, E.
    + unfold convert_time. now rewrite Ha, Hc.
Qed.

Lemma twelve_hour_clock_enumerated (padded : bool) (h m : Z) :
  (1 <= h <= 12)%Z -> (0 <= m <= 59)%Z ->
  In (padded, (h, m)) twelve_hour_clock.
Proof.
  intros Hh Hm. unfold twelve_hour_clock. apply in_prod.
  - destruct padded; [now left | right; now left].
  - apply in_prod; apply in_map_iff.
    + exists (Z.to_nat h). split; [lia|]. apply in_seq. lia.
    + exists (Z.to_nat m). split; [lia|]. apply in_seq. lia.
Qed.

Lemma day_clock_enumerated (padded : bool) (h m : Z) :
  (0 <= h <= 23)%Z -> (0 <= m <= 59)%Z ->
  In (padded, (h, m)) day_clock.
Proof.
  intros Hh Hm. unfold day_clock. apply in_prod.
  - destruct padded; [now left | right; now left].
  - apply in_prod; apply in_map_iff.
    + exists (Z.to_nat h). split; [lia|]. apply in_seq. lia.
    + exists (Z.to_nat m). split; [lia|]. apply in_seq. lia.
Qed.

Lemma seconds_enumerated (s : Z) : (0 <= s <= 59)%Z -> In s seconds.
Proof.
  intros Hs. unfold seconds. apply in_map_iff.
  exists (Z.to_nat s). split; [lia|]. apply in_seq. lia.
Qed.

(** C4 fails on the code. A time of the 12-hour clock whose marker is
    AM, PM, am or pm becomes the same time on the 24-hour clock, written
    [HH:MM], as the claim says. With the marker in mixed case, which the
    header pattern accepts in a header line, [convert_time] returns the
    time as it was, not on the 24-hour clock: its test looks for the
    four spellings in one case only. The rest of the claim holds: a
    time with seconds loses them and is written [HH:MM], a time of the
    24-hour clock without seconds is returned as it is, and so is a
    time with a marker whose hour is none of the 12-hour clock. *)
Theorem marker_case_decides (padded : bool) (h m : Z) (marker : str) :
  (1 <= h <= 12)%Z -> (0 <= m <= 59)%Z ->
  (In marker plain_markers ->
   convert_time (twelve_hour padded h m marker)
   = twenty_four_hour (hour_24 h marker) m)
  /\ (In marker mixed_markers ->
      convert_time (twelve_hour padded h m marker)
      = twelve_hour padded h m marker
      /\ twelve_hour padded h m marker
         <> twenty_four_hour (hour_24 h marker) m
      /\ header_groups (lit "12/31/23, " ++ twelve_hour padded h m marker
                        ++ lit " - Alice: Hello")
         = Some [lit "12/31/23"; twelve_hour padded h m marker;
                 lit "Alice"; lit "Hello"])
  /\ (forall hh : Z,
        (0 <= hh <= 23)%Z ->
        (forall ss, (0 <= ss <= 59)%Z ->
           convert_time (with_seconds padded hh m ss) = twenty_four_hour hh m)
        /\ convert_time (hour_text padded hh ++ lit ":" ++ two_digits m)
           = hour_text padded hh ++ lit ":" ++ two_digits m
        /\ (In marker plain_markers -> (hh = 0 \/ 13 <= hh)%Z ->
            convert_time (twelve_hour padded hh m marker)
            = twelve_hour padded hh m marker)).
Proof.
  intros Hh Hm.
  pose (converted := fun (x : bool * (Z * Z)) (mk : str) =>
          str_eqb (convert_time (twelve_hour (fst x) (fst (snd x))
                                             (snd (snd x)) mk))
                  (twenty_four_hour (hour_24 (fst (snd x)) mk) (snd (snd x)))).
  pose (kept := fun (x : bool * (Z * Z)) (mk : str) =>
          let t := twelve_hour (fst x) (fst (snd x)) (snd (snd x)) mk in
          (str_eqb (convert_time t) t
           && negb (str_eqb t (twenty_four_hour (hour_24 (fst (snd x)) mk)
                                                (snd (snd x))))
           && match header_groups (lit "12/31/23, " ++ t
                                   ++ lit " - Alice: Hello") with
              | Some [a; b; c; d] =>
                  str_eqb a (lit "12/31/23") && str_eqb b t
                  && str_eqb c (lit "Alice") && str_eqb d (lit "Hello")
              | _ => false
              end)%bool).
  pose (truncated := fun (x : bool * (Z * Z)) (ss : Z) =>
          str_eqb (convert_time (with_seconds (fst x) (fst (snd x))
                                              (snd (snd x)) ss))
                  (twenty_four_hour (fst (snd x)) (snd (snd x)))).
  pose (same := fun (x : bool * (Z * Z)) =>
          let t := hour_text (fst x) (fst (snd x)) ++ lit ":"
                   ++ two_digits (snd (snd x)) in
          str_eqb (convert_time t) t).
  pose (refused := fun (x : bool * (Z * Z)) (mk : str) =>
          let t := twelve_hour (fst x) (fst (snd x)) (snd (snd x)) mk in
          implb (Z.eqb (fst (snd x)) 0 || Z.leb 13 (fst (snd x)))%bool
                (str_eqb (convert_time t) t)).
  assert (K : forallb (fun x => (forallb (converted x) plain_markers
                                 && forallb (kept x) mixed_markers)%bool)
                      twelve_hour_clock = true)
    by (vm_compute; reflexivity).
  assert (D : forallb (fun x => (forallb (truncated x) seconds && same x
                                 && forallb (refused x) plain_markers)%bool)
                      day_clock = true)
    by (vm_compute; reflexivity).
  rewrite forallb_forall in K.
  specialize (K _ (twelve_hour_clock_enumerated padded h m Hh Hm)).
  apply andb_true_iff in K. destruct K as [K1 K2].
  rewrite forallb_forall in K1, K2, D. split; [|split].
  - intros Hin. specialize (K1 marker Hin). unfold converted in K1.
    cbn [fst snd] in K1. now apply str_eqb_eq in K1.
  - intros Hin. specialize (K2 marker Hin). unfold kept in K2.
    cbn [fst snd] in K2. cbv zeta in K2.
    apply andb_true_iff in K2. destruct K2 as [K2 K3].
    apply andb_true_iff in K2. destruct K2 as [K2 K4].
    apply str_eqb_eq in K2. split; [exact K2|]. split.
    + intros E. apply str_eqb_eq in E. rewrite E in K4. discriminate.
    + destruct (header_groups _) as [[|a [|b [|c [|d [|]]]]]|];
        try discriminate.
      repeat (apply andb_true_iff in K3; destruct K3 as [K3 ?]).
      repeat match goal with
             | H : str_eqb _ _ = true |- _ => apply str_eqb_eq in H
             end.
      now subst.
  - intros hh Hhh.
    specialize (D _ (day_clock_enumerated padded hh m Hhh Hm)).
    apply andb_true_iff in D. destruct D as [D D3].
    apply andb_true_iff in D. destruct D as [D1 D2].
    rewrite forallb_forall in D1, D3. split; [|split].
    + intros ss Hss. specialize (D1 ss (seconds_enumerated ss Hss)).
      unfold truncated in D1. cbn [fst snd] in D1. now apply str_eqb_eq in D1.
    + unfold same in D2. cbn [fst snd] in D2. cbv zeta in D2.
      now apply str_eqb_eq in D2.
    + intros Hin Hout. specialize (D3 marker Hin). unfold refused in D3.
      cbn [fst snd] in D3. cbv zeta in D3.
      assert (E : (Z.eqb hh 0 || Z.leb 13 hh)%bool = true).
      { apply orb_true_iff. destruct Hout as [->|Hout]; [now left|].
        right. now apply Z.leb_le. }
      rewrite E in D3. cbn [implb] in D3. now apply str_eqb_eq in D3.
Qed.

Lemma marker_case_decides_witness :
  (1 <= 11 <= 12)%Z /\ (0 <= 59 <= 59)%Z
  /\ twelve_hour false 11 59 (lit "PM") = lit "11:59 PM"
  /\ convert_time (lit "11:59 PM") = lit "23:59"
  /\ twelve_hour false 11 59 (lit "Pm") = lit "11:59 Pm"
  /\ convert_time (lit "11:59 Pm") = lit "11:59 Pm"
  /\ header_groups (lit "12/31/23, 11:59 Pm - Alice: Hello")
     = Some [lit "12/31/23"; lit "11:59 Pm"; lit "Alice"; lit "Hello"]
  /\ convert_time (lit "9:59:07") = lit "09:59"
  /\ convert_time (lit "13:59 PM") = lit "13:59 PM".
Proof.
  assert (Hh : (1 <= 11 <= 12)%Z) by lia.
  assert (Hm : (0 <= 59 <= 59)%Z) by lia.
  split; [exact Hh|]. split; [exact Hm|].
  split; [reflexivity|]. split.
  { exact (proj1 (marker_case_decides false 11 59 (lit "PM") Hh Hm)
             ltac:(right; left; reflexivity)). }
  split; [reflexivity|].
  destruct (proj2 (marker_case_decides false 11 59 (lit "Pm") Hh Hm))
    as (K & _).
  destruct (K ltac:(right; right; left; reflexivity)) as (K1 & _ & K3).
  split; [exact K1|]. split; [exact K3|].
  destruct (proj2 (proj2 (marker_case_decides false 11 59 (lit "PM") Hh Hm))
              9%Z ltac:(lia)) as (T & _).
  destruct (proj2 (proj2 (marker_case_decides false 11 59 (lit "PM") Hh Hm))
              13%Z ltac:(lia)) as (_ & _ & R).
  split; [exact (T 7%Z ltac:(lia))|].
  exact (R ltac:(right; left; reflexivity) ltac:(right; lia)).
Defined.

(* ===================================================================== *)
(** ** The loop over the [time] column *)
(* ===================================================================== *)

Section LocApply.
Context {A : Type}.
Variable f : A -> A.

Lemma nth_error_loc_apply (col : list A) :
  forall i j k,
    nth_error (loc_apply f i j col) k
    = option_map (fun x => if (Nat.leb i k && Nat.leb k j)%bool then f x else x)
                 (nth_error col k).
Proof.
  induction col as [|x col IH]; intros i j k.
  - destruct k; reflexivity.
  - destruct i as [|i], j as [|j], k as [|k]; cbn [loc_apply nth_error option_map];
      try reflexivity.
    + cbn. now destruct (nth_error col k).
    + rewrite IH. reflexivity.
    + rewrite andb_false_r. now destruct (nth_error col k).
    + rewrite IH. reflexivity.
Qed.

Hypothesis f_idem : forall x, f (f x) = f x.
Variable n c : nat.
Hypothesis c_pos : 0 < c.

Lemma chunks_applied (col : list A) (k : nat) :
  (k - 1) * c < n \/ k = 0 ->
  forall r,
    nth_error
      (fold_left (fun acc i => loc_apply f i (Nat.min (i + c) n) acc)
                 (map (fun j => 0 + j * c) (List.seq 0 k)) col) r
    = option_map (fun x => if Nat.ltb r (done_rows c n k) then f x else x)
                 (nth_error col r).
Proof.
  induction k as [|k IH]; intros Hk r.
  - cbn. now destruct (nth_error col r).
  - rewrite seq_S, map_app, fold_left_app. cbn [map fold_left].
    rewrite nth_error_loc_apply, IH.
    2:{ destruct k; [now right|left]. cbn in Hk |- *. nia. }
    destruct (nth_error col r) as [x|]; [|reflexivity]. cbn [option_map].
    f_equal.
    assert (Hkc : k * c < n).
    { destruct Hk as [Hk|Hk]; [|discriminate]. cbn in Hk.
      now rewrite Nat.sub_0_r in Hk. }
    cbn [Nat.add].
    unfold done_rows.
    destruct (Nat.leb (k * c) r && Nat.leb r (Nat.min (k * c + c) n))%bool eqn:E1;
      destruct (Nat.ltb r (Nat.min (S k * c) n + 1)) eqn:E2;
      destruct k as [|k'];
      repeat match goal with
             | |- context [Nat.ltb ?a ?b] => destruct (Nat.ltb_spec a b)
             end;
      rewrite ?andb_true_iff, ?andb_false_iff, ?Nat.leb_le, ?Nat.leb_gt,
        ?Nat.ltb_lt, ?Nat.ltb_ge in *;
      try rewrite f_idem; try reflexivity; exfalso; nia.
Qed.
End LocApply.

Section Idempotence.
Context {L : Libs}.

Lemma convert_times_rows (df : DataFrame) (r : nat) :
  nth_error (convert_times df) r
  = option_map
      (fun x => if Nat.ltb r (done_rows chunk_size (len df)
                                ((len df - 0 + chunk_size - 1) / chunk_size))
                then convert_time x else x)
      (nth_error (time df) r).
Proof.
  unfold convert_times, py_range.
  apply (chunks_applied convert_time convert_time_idempotent (len df)
           chunk_size chunk_size_pos).
  destruct (len df) as [|n] eqn:E.
  - right. unfold chunk_size. reflexivity.
  - left. apply range_count_tight; [apply chunk_size_pos | lia].
Qed.

(** On a table whose columns have one entry per row the loop converts
    every time once. *)
Lemma convert_times_map (df : DataFrame) :
  length (time df) = len df ->
  convert_times df = map convert_time (time df).
Proof.
  intros Hl. apply nth_error_ext. intros r.
  rewrite convert_times_rows, nth_error_map.
  destruct (nth_error (time df) r) as [x|] eqn:E; [|reflexivity].
  cbn [option_map]. f_equal.
  assert (Hr : r < len df).
  { rewrite <- Hl. apply nth_error_Some. congruence. }
  pose proof (range_count_covers (len df) chunk_size chunk_size_pos) as Hc.
  unfold done_rows.
  destruct ((len df - 0 + chunk_size - 1) / chunk_size) as [|k] eqn:Ek.
  - cbn in Hc. lia.
  - destruct (Nat.ltb_spec r (Nat.min (S k * chunk_size) (len df) + 1));
      [reflexivity | lia].
Qed.

(** Running the loop on its own result changes nothing. *)
Lemma convert_times_idempotent (df df' : DataFrame) :
  len df' = len df ->
  time df' = convert_times df ->
  convert_times df' = convert_times df.
Proof.
  intros Hl Ht. apply nth_error_ext. intros r.
  rewrite (convert_times_rows df'), Ht, Hl, (convert_times_rows df).
  destruct (nth_error (time df) r) as [x|]; [|reflexivity].
  cbn [option_map].
  destruct (Nat.ltb r _); [|reflexivity].
  now rewrite convert_time_idempotent.
Qed.

(** C9. The feature extractor run on its own result returns that
    result: every column, and so every derived field, is the same after
    the second run as after the first. *)
Theorem preprocess_idempotent (df out : DataFrame) :
  preprocess df = Ok out -> preprocess out = Ok out.
Proof.
  intros Hp. destruct (empty df) eqn:He.
  - unfold preprocess in Hp. rewrite He in Hp. injection Hp as <-.
    unfold preprocess. now rewrite He.
  - destruct (preprocess_nonempty df out He Hp)
      as (dt & Hdt & Ed & Et & Eu & Em & d & Hd & D1 & D2 & D3 & D4 & D5
          & D6 & D7 & D8 & D9 & D10 & D11 & D12 & D13 & D14 & D15).
    assert (Hl : len out = len df) by (unfold len; now rewrite Em).
    assert (Hc : convert_dates out = convert_dates df).
    { unfold convert_dates at 1. now rewrite Ed. }
    assert (Ht : convert_times out = convert_times df)
      by now apply convert_times_idempotent.
    unfold preprocess, empty. rewrite Hl. fold (empty df). rewrite He.
    rewrite Hc, Ht, Hdt. cbn [bind]. f_equal.
    pose proof (preprocess_categories df out d He Hp Hd) as Dc.
    rewrite D5 in Dc.
    destruct out as [od ot ou om [oder|]]; cbn in *; [|discriminate].
    injection Hd as ->. destruct d. cbn in *. now subst.
Qed.
End Idempotence.

Lemma preprocess_idempotent_witness :
  exists out,
    analyze_chat (L := sample_libs)
      (lit "[01.02.2023, 14:05:30] Bob: Bonjour" ++ [nl]
       ++ lit "[01.02.2023, 9:07:00] Eve: see https://example.com now") = Ok out
    /\ preprocess (L := sample_libs) out = Ok out.
Proof.
  eexists. split.
  - vm_compute. reflexivity.
  - apply (preprocess_idempotent (L := sample_libs)
             (parse_chat
                (lit "[01.02.2023, 14:05:30] Bob: Bonjour" ++ [nl]
                 ++ lit "[01.02.2023, 9:07:00] Eve: see https://example.com now"))).
    vm_compute. reflexivity.
Defined.

(* ===================================================================== *)
(** ** The examples of the specification *)
(* ===================================================================== *)

Section Examples.
Context {L : Libs}.

(** C5. The line [12/31/23, 11:59 PM - Alice: Hello] gives one record
    with date [12/31/23], time [11:59 PM], user [Alice] and message
    [Hello]; after feature extraction its hour is 23. *)
Theorem alice_hello_example :
  parse_chat (lit "12/31/23, 11:59 PM - Alice: Hello")
  = {| date := StrCol [lit "12/31/23"];
       time := [lit "11:59 PM"];
       user := [lit "Alice"];
       message := [lit "Hello"];
       derived := None |}
  /\ exists out d,
      analyze_chat (lit "12/31/23, 11:59 PM - Alice: Hello") = Ok out
      /\ derived out = Some d
      /\ len out = 1
      /\ hour d = [Some 23%Z].
Proof.
  split; [vm_compute; reflexivity|].
  eexists. eexists. split; [vm_compute; reflexivity|].
  split; [reflexivity|]. split; reflexivity.
Qed.
End Examples.

Lemma has_media_iff_marker_witness :
  exists out d,
    analyze_chat (L := sample_libs)
      (lit "1/1/23, 10:00 - Bob: check <Media Omitted>") = Ok out
    /\ derived out = Some d
    /\ nth_error (message out) 0 = Some (lit "check <Media Omitted>")
    /\ exists h,
        nth_error (has_media d) 0 = Some h
        /\ (h = 1%Z <->
            exists term,
              In term media_terms
              /\ substring term
                   (str_lower (Libs := sample_libs) (lit "check <Media Omitted>")))
        /\ (h <> 1%Z -> h = 0%Z).
Proof.
  eexists. eexists. split; [vm_compute; reflexivity|].
  split; [reflexivity|]. split; [reflexivity|].
  eapply (has_media_iff_marker (L := sample_libs)
           (parse_chat (lit "1/1/23, 10:00 - Bob: check <Media Omitted>"))
           _ _ 0 _).
  - vm_compute. reflexivity.
  - reflexivity.
  - reflexivity.
Defined.

Lemma counts_consistent_witness :
  exists out d,
    analyze_chat (L := sample_libs)
      (lit "1/1/23, 10:00 - Eve: see https://example.com now") = Ok out
    /\ derived out = Some d
    /\ nth_error (message out) 0 = Some (lit "see https://example.com now")
    /\ exists es ec wc ml uc,
        nth_error (emojis d) 0 = Some es
        /\ nth_error (emoji_count d) 0 = Some ec
        /\ nth_error (word_count d) 0 = Some wc
        /\ nth_error (message_length d) 0 = Some ml
        /\ nth_error (url_count d) 0 = Some uc
        /\ ec = Z.of_nat (length es)
        /\ (lit "see https://example.com now" = [] -> wc = 0%Z)
        /\ (0 <= wc)%Z /\ (0 <= ml)%Z /\ (0 <= ec)%Z /\ (0 <= uc)%Z
        /\ (forall df2 out2 d2 j,
               preprocess (L := sample_libs) df2 = Ok out2 ->
               derived out2 = Some d2 ->
               nth_error (message out2) j
               = Some (lit "see https://example.com now") ->
               nth_error (emoji_count d2) j = Some ec
               /\ nth_error (word_count d2) j = Some wc
               /\ nth_error (message_length d2) j = Some ml
               /\ nth_error (url_count d2) j = Some uc).
Proof.
  eexists. eexists. split; [vm_compute; reflexivity|].
  split; [reflexivity|]. split; [reflexivity|].
  eapply (counts_consistent (L := sample_libs)
            (parse_chat (lit "1/1/23, 10:00 - Eve: see https://example.com now"))
            _ _ 0 _).
  - vm_compute. reflexivity.
  - reflexivity.
  - reflexivity.
Defined.

(* ===================================================================== *)
(** ** The dates of the parser and the choice of the format *)
(* ===================================================================== *)

Lemma nonempty_length (w : str) : 1 <= length w -> w <> [].
Proof. destruct w; cbn; [lia | discriminate]. Qed.

Lemma date_re_shape (sep : ascii) (lo hi : nat) (w : str) (g : list str) :
  Re.denotes (date_re sep lo hi) w g ->
  g = [] /\ exists a b c, parsed_date (ch sep) w a b c.
Proof.
  unfold date_re, Re.digits. cbn [Re.denotes Re.seq fold_right]. intros D.
  break_match_facts. split; [reflexivity|].
  match goal with
  | |- exists a b c, parsed_date _ (?x ++ _ ++ ?y ++ _ ++ ?z ++ []) a b c =>
      exists x, y, z
  end.
  rewrite app_nil_r. repeat split; try assumption.
  now apply nonempty_length.
Qed.

Ltac header_shape D :=
  cbn [Re.denotes Re.seq fold_right] in D; break_match_facts;
  match goal with
  | H : Re.denotes (date_re _ _ _) _ _ |- _ =>
      apply date_re_shape in H; destruct H as (-> & ? & ? & ? & H)
  end;
  cbn [app Re.group Nat.sub nth];
  match goal with
  | H : parsed_date _ _ ?a ?b ?c |- _ => exists a, b, c; tauto
  end.

Lemma header_date_shape (line : str) (caps : list str) :
  header_groups line = Some caps -> date_shape (Re.group 1 caps).
Proof.
  unfold header_groups, date_shape.
  destruct (Re.py_match pattern_12hr line) as [[c1 r1]|] eqn:E1.
  { intros [= <-]. apply py_match_sound in E1. destruct E1 as (w & _ & D).
    unfold pattern_12hr in D. header_shape D. }
  destruct (Re.py_match pattern_24hr line) as [[c2 r2]|] eqn:E2.
  { intros [= <-]. apply py_match_sound in E2. destruct E2 as (w & _ & D).
    unfold pattern_24hr in D. header_shape D. }
  destruct (Re.py_match pattern_bracket_format line) as [[c3 r3]|] eqn:E3;
    [|discriminate].
  intros [= <-]. apply py_match_sound in E3. destruct E3 as (w & _ & D).
  unfold pattern_bracket_format in D. header_shape D.
Qed.

Lemma process_line_dates (st : Lists) (line : str) :
  Forall date_shape (dates st) -> Forall date_shape (dates (process_line st line)).
Proof.
  intros H. destruct (header_groups line) as [caps|] eqn:Hh.
  - rewrite (process_line_header _ _ _ Hh). cbn [append_match dates].
    apply Forall_app. split; [exact H|].
    constructor; [|constructor]. now apply (header_date_shape line).
  - rewrite (process_line_other _ _ Hh).
    now destruct (Nat.ltb 0 (length (messages st))).
Qed.

Lemma parse_chat_dates (data : str) (col : list str) :
  date (parse_chat data) = StrCol col -> Forall date_shape col.
Proof.
  unfold parse_chat, frame_of_lists. cbn [date]. intros [= <-].
  rewrite parse_lines_fold.
  assert (H : Forall date_shape (dates (mkLists [] [] [] []))) by constructor.
  revert H. generalize (mkLists [] [] [] []).
  induction (split_on nl data) as [|l lines IH]; intros st H; cbn [fold_left].
  - exact H.
  - apply IH. now apply process_line_dates.
Qed.

Lemma contains_single (c : char) (s : str) :
  contains [c] s = existsb (N.eqb c) s.
Proof.
  induction s as [|y s IH]; cbn [contains prefix_of existsb].
  - reflexivity.
  - now rewrite IH, andb_true_r.
Qed.

Lemma decimal_run_without (sep : char) (w : str) :
  forallb (fun c => negb (N.eqb sep c)) all_decimals = true ->
  forallb is_decimal w = true ->
  existsb (N.eqb sep) w = false.
Proof.
  intros Hsep Hw. induction w as [|x w IH]; cbn [existsb forallb] in *.
  - reflexivity.
  - apply andb_true_iff in Hw. destruct Hw as [Hx Hw].
    pose proof (decimal_forall _ x Hsep Hx) as K. cbv beta in K.
    apply negb_true_iff in K. now rewrite K, IH.
Qed.

Lemma split_on_without (sep : char) (w : str) :
  existsb (N.eqb sep) w = false -> split_on sep w = [w].
Proof.
  induction w as [|x w IH]; cbn [existsb split_on].
  - reflexivity.
  - intros H. apply orb_false_iff in H. destruct H as [Hx Hw].
    rewrite N.eqb_sym, Hx, (IH Hw). reflexivity.
Qed.

Lemma split_on_app (sep : char) (w rest : str) :
  existsb (N.eqb sep) w = false ->
  split_on sep (w ++ sep :: rest) = w :: split_on sep rest.
Proof.
  induction w as [|x w IH]; cbn [existsb split_on app].
  - intros _. now rewrite N.eqb_refl.
  - intros H. apply orb_false_iff in H. destruct H as [Hx Hw].
    rewrite N.eqb_sym, Hx, (IH Hw). reflexivity.
Qed.

Lemma existsb_app_false {A : Type} (p : A -> bool) (l1 l2 : list A) :
  existsb p (l1 ++ l2) = false <-> existsb p l1 = false /\ existsb p l2 = false.
Proof. now rewrite existsb_app, orb_false_iff. Qed.

(** A date of the slash form splits in its three runs of digits and has
    no period; a date of the period form has no slash. *)
Lemma slash_date_parts (d a b c : str) :
  parsed_date (ch "/") d a b c ->
  split_on (ch "/") d = [a; b; c]
  /\ py_int a = Some (Z.of_N (digits_value a))
  /\ contains (lit ".") d = false.
Proof.
  intros (-> & Ha & Da & Db & Dc).
  assert (S : forall w, forallb is_decimal w = true ->
                        existsb (N.eqb (ch "/")) w = false)
    by (intros w; apply decimal_run_without; vm_compute; reflexivity).
  assert (P : forall w, forallb is_decimal w = true ->
                        existsb (N.eqb (ch ".")) w = false)
    by (intros w; apply decimal_run_without; vm_compute; reflexivity).
  repeat split.
  - cbn [app]. rewrite !split_on_app, split_on_without by auto. reflexivity.
  - now apply py_int_decimal.
  - change (lit ".") with [ch "."]. rewrite contains_single.
    cbn [app]. repeat (rewrite existsb_app; cbn [existsb]).
    rewrite !P by assumption. reflexivity.
Qed.

Lemma period_date_no_slash (d a b c : str) :
  parsed_date (ch ".") d a b c -> contains (lit "/") d = false.
Proof.
  intros (-> & Ha & Da & Db & Dc).
  assert (S : forall w, forallb is_decimal w = true ->
                        existsb (N.eqb (ch "/")) w = false)
    by (intros w; apply decimal_run_without; vm_compute; reflexivity).
  change (lit "/") with [ch "/"]. rewrite contains_single.
  cbn [app]. repeat (rewrite existsb_app; cbn [existsb]).
  rewrite !S by assumption. reflexivity.
Qed.

Lemma filter_head_exists {A : Type} (p : A -> bool) (l : list A) (x : A)
      (rest : list A) :
  filter p l = x :: rest -> existsb p l = true.
Proof.
  intros H. apply existsb_exists. exists x.
  apply filter_In. rewrite H. now left.
Qed.

(** The three outcomes of the inference. *)
Lemma infer_period (sample : list str) :
  existsb (contains (lit ".")) sample = true ->
  infer_date_format sample = Ok (Some Pandas.Fmt_d_m_Y_dot).
Proof. intros H. unfold infer_date_format. now rewrite H. Qed.

Lemma infer_none (sample : list str) :
  existsb (contains (lit ".")) sample = false ->
  existsb (contains (lit "/")) sample = false ->
  infer_date_format sample = Ok None.
Proof. intros H1 H2. unfold infer_date_format. now rewrite H1, H2. Qed.

Lemma infer_slash (sample : list str) (d : str) (others : list str)
      (a b c : str) :
  existsb (contains (lit ".")) sample = false ->
  filter (contains (lit "/")) sample = d :: others ->
  parsed_date (ch "/") d a b c ->
  exists f,
    infer_date_format sample = Ok (Some f)
    /\ f <> Pandas.Fmt_d_m_Y_dot
    /\ Pandas.day_first f = (12 <? Z.of_N (digits_value a))%Z
    /\ Pandas.short_year f = negb (Nat.eqb (length c) 4).
Proof.
  intros H1 Hf Hd.
  destruct (slash_date_parts _ _ _ _ Hd) as (Hs & Hi & _).
  unfold infer_date_format.
  rewrite H1, (filter_head_exists _ _ _ _ Hf), Hf, Hs.
  cbn [length Nat.eqb nth]. rewrite Hi.
  destruct (12 <? Z.of_N (digits_value a))%Z;
    destruct (Nat.eqb (length c) 4);
    eexists; (split; [reflexivity|]); now repeat split.
Qed.

Section Inference.
Context {L : Libs}.

Lemma convert_dates_under (df : DataFrame) (col : list str)
      (fmt : option Pandas.date_format) :
  date df = StrCol col ->
  infer_date_format (firstn (sample_size df) col) = Ok fmt ->
  convert_dates df = dates_under fmt col.
Proof.
  intros Hd Hi. unfold convert_dates, dates_under. rewrite Hd, Hi. reflexivity.
Qed.

(** C3. The format is chosen from the first rows of the table, at most
    100 of them. A sampled date with a period gives day.month.year.
    Otherwise the first sampled date with a slash decides: when the
    number before its first slash exceeds 12 the format is
    day/month/year, otherwise month/day/year. With neither separator
    in the sample the dates go to the parser without format that puts
    the day before the month. In the table of the parser every date with
    a slash has the three runs of digits this presupposes. *)
Theorem date_format_inference (df : DataFrame) (col : list str) :
  date df = StrCol col ->
  let sample := firstn (sample_size df) col in
  (length sample <= 100 /\ exists rest, col = sample ++ rest)
  /\ (existsb (contains (lit ".")) sample = true ->
      convert_dates df = dates_under (Some Pandas.Fmt_d_m_Y_dot) col)
  /\ (existsb (contains (lit ".")) sample = false ->
      forall d others a b c,
        filter (contains (lit "/")) sample = d :: others ->
        parsed_date (ch "/") d a b c ->
        exists f,
          convert_dates df = dates_under (Some f) col
          /\ f <> Pandas.Fmt_d_m_Y_dot
          /\ Pandas.day_first f = (12 <? Z.of_N (digits_value a))%Z)
  /\ (existsb (contains (lit ".")) sample = false ->
      existsb (contains (lit "/")) sample = false ->
      convert_dates df = dates_under None col)
  /\ (forall data,
         df = parse_chat data ->
         forall d, In d col -> contains (lit "/") d = true ->
                   exists a b c, parsed_date (ch "/") d a b c).
Proof.
  intros Hd sample. repeat split.
  - unfold sample, sample_size. rewrite length_firstn. lia.
  - exists (skipn (sample_size df) col). unfold sample.
    now rewrite firstn_skipn.
  - intros H. apply (convert_dates_under df col _ Hd). now apply infer_period.
  - intros H d others a b c Hf Hp.
    destruct (infer_slash sample d others a b c H Hf Hp) as (f & Hi & Hn & Hdf & _).
    exists f. repeat split; try assumption.
    now apply (convert_dates_under df col _ Hd).
  - intros H1 H2. apply (convert_dates_under df col _ Hd). now apply infer_none.
  - intros data -> d Hin Hc.
    pose proof (parse_chat_dates data col Hd) as Hall.
    rewrite Forall_forall in Hall.
    destruct (Hall d Hin) as (a & b & c & [Hs|Hp]).
    + now exists a, b, c.
    + rewrite (period_date_no_slash _ _ _ _ Hp) in Hc. discriminate.
Qed.
End Inference.

Lemma date_format_inference_witness :
  let df1 := parse_chat (lit "[01.02.2023, 14:05:30] Bob: Bonjour") in
  let df2 := parse_chat (lit "13/1/23, 10:00 - Alice: Line one") in
  let df3 := mkDF (StrCol [lit "2023-01-13"]) [lit "10:00"] [lit "Eve"]
                  [lit "hello"] None in
  (existsb (contains (lit ".")) (firstn (sample_size df1) [lit "01.02.2023"]) = true
   /\ convert_dates (L := sample_libs) df1
      = dates_under (L := sample_libs) (Some Pandas.Fmt_d_m_Y_dot) [lit "01.02.2023"])
  /\ (parsed_date (ch "/") (lit "13/1/23") (lit "13") (lit "1") (lit "23")
      /\ exists f,
          convert_dates (L := sample_libs) df2
          = dates_under (L := sample_libs) (Some f) [lit "13/1/23"]
          /\ f <> Pandas.Fmt_d_m_Y_dot
          /\ Pandas.day_first f = (12 <? Z.of_N (digits_value (lit "13")))%Z)
  /\ (existsb (contains (lit "/")) (firstn (sample_size df3) [lit "2023-01-13"]) = false
      /\ convert_dates (L := sample_libs) df3
         = dates_under (L := sample_libs) None [lit "2023-01-13"]).
Proof.
  intros df1 df2 df3.
  split; [|split].
  - split; [reflexivity|].
    apply (proj1 (proj2 (date_format_inference (L := sample_libs) df1
                           [lit "01.02.2023"] eq_refl))).
    reflexivity.
  - assert (P : parsed_date (ch "/") (lit "13/1/23") (lit "13") (lit "1") (lit "23")).
    { repeat split; try reflexivity. discriminate. }
    split; [exact P|].
    apply (proj1 (proj2 (proj2 (date_format_inference (L := sample_libs) df2
                                  [lit "13/1/23"] eq_refl)))
             eq_refl (lit "13/1/23") [] (lit "13") (lit "1") (lit "23") eq_refl P).
  - split; [reflexivity|].
    apply (proj1 (proj2 (proj2 (proj2 (date_format_inference (L := sample_libs) df3
                                         [lit "2023-01-13"] eq_refl))))).
    + reflexivity.
    + reflexivity.
Defined.

(* ===================================================================== *)
(** ** A date that does not parse *)
(* ===================================================================== *)

Lemma map_exc_length {A B : Type} (f : A -> Exc B) (l : list A) (r : list B) :
  map_exc f l = Ok r -> length r = length l.
Proof.
  revert r; induction l as [|a l IH]; intros r; cbn [map_exc].
  - now intros [= <-].
  - destruct (f a) as [b|e]; cbn [bind]; [|discriminate].
    destruct (map_exc f l) as [bs|e]; cbn [bind]; [|discriminate].
    intros [= <-]. cbn. now rewrite (IH bs).
Qed.

(** One element that raises makes the whole conversion raise. *)
Lemma map_exc_raises {A B : Type} (f : A -> Exc B) (l : list A) (x : A)
      (e : exn) :
  In x l -> f x = Raise e -> exists e', map_exc f l = Raise e'.
Proof.
  intros Hin Hx. induction l as [|a l IH]; [contradiction|].
  cbn [map_exc]. destruct (f a) as [b|e1] eqn:Ea; cbn [bind].
  - destruct Hin as [->|Hin]; [congruence|].
    destruct (IH Hin) as [e' ->]. now exists e'.
  - now exists e1.
Qed.

Lemma loc_apply_length {A : Type} (f : A -> A) (col : list A) :
  forall i j, length (loc_apply f i j col) = length col.
Proof.
  induction col as [|x col IH]; intros i j; [reflexivity|].
  destruct i, j; cbn [loc_apply length]; now rewrite ?IH.
Qed.

Lemma zip_with_nth {A B C : Type} (f : A -> B -> C) (a : list A) (b : list B) :
  forall i x y,
    nth_error a i = Some x -> nth_error b i = Some y ->
    nth_error (zip_with f a b) i = Some (f x y).
Proof.
  revert b; induction a as [|x0 a IH]; intros b i x y Ha Hb.
  - destruct i; discriminate.
  - destruct b as [|y0 b]; [destruct i; discriminate|].
    destruct i as [|i]; cbn in *.
    + congruence.
    + now apply IH.
Qed.

Lemma not_iso_minutes (t : str) :
  Pandas.parse_iso_minutes (lit "NaT " ++ t) = None.
Proof.
  cbn [lit list_ascii_of_string map app].
  do 12 (destruct t as [|? t]; [reflexivity|]).
  destruct t; reflexivity.
Qed.

Lemma map_exc_forall2 {A B : Type} (f : A -> Exc B) (l : list A) (r : list B) :
  map_exc f l = Ok r -> Forall2 (fun x y => f x = Ok y) l r.
Proof.
  revert r; induction l as [|a l IH]; intros r; cbn [map_exc].
  - intros [= <-]. constructor.
  - destruct (f a) as [b|e] eqn:Ea; cbn [bind]; [|discriminate].
    destruct (map_exc f l) as [bs|e]; cbn [bind]; [|discriminate].
    intros [= <-]. constructor; [exact Ea | now apply IH].
Qed.

Lemma zip_with_length {A B C : Type} (f : A -> B -> C) (a : list A) (b : list B) :
  length (zip_with f a b) = Nat.min (length a) (length b).
Proof.
  revert b; induction a as [|x a IH]; intros [|y b]; cbn; try reflexivity.
  now rewrite IH.
Qed.

Lemma forall2_nth_error {A B : Type} (R : A -> B -> Prop) (l : list A)
      (r : list B) :
  Forall2 R l r ->
  forall i a, nth_error l i = Some a ->
              exists b, nth_error r i = Some b /\ R a b.
Proof.
  induction 1 as [|x y l r Hxy _ IH]; intros [|i] a Ha; try discriminate.
  - injection Ha as <-. now exists y.
  - now apply IH.
Qed.

Lemma null_string_no_space (s : str) :
  In 32%N s -> Pandas.is_null_string s = false.
Proof.
  intros Hin. destruct (Pandas.is_null_string s) eqn:E; [|reflexivity].
  exfalso. unfold Pandas.is_null_string in E.
  destruct s as [|c s]; [contradiction|].
  apply existsb_exists in E. destruct E as (n & Hn & Heq).
  apply str_eqb_eq in Heq. rewrite Heq in Hin.
  unfold Pandas.nat_strings in Hn. cbn in Hn.
  repeat (destruct Hn as [<-|Hn];
          [cbn in Hin; repeat (destruct Hin as [Hin|Hin]; [discriminate|]);
           contradiction|]).
  contradiction.
Qed.

Section MissingDate.
Context {L : Libs}.

Lemma convert_dates_length (df : DataFrame) :
  length (convert_dates df) = date_len (date df).
Proof.
  unfold convert_dates.
  destruct (date df) as [col|col]; cbn [try_except date_len]; [|reflexivity].
  destruct (infer_date_format _) as [[f|]|e]; cbn [bind try_except].
  - destruct (Pandas.to_datetime_format f col) as [r|e] eqn:E; cbn.
    + unfold Pandas.to_datetime_format in E. now apply map_exc_length in E.
    + unfold Pandas.to_datetime_coerce. apply length_map.
  - destruct (Pandas.to_datetime true col) as [r|e] eqn:E; cbn.
    + unfold Pandas.to_datetime in E. now apply map_exc_length in E.
    + unfold Pandas.to_datetime_coerce. apply length_map.
  - unfold Pandas.to_datetime_coerce. apply length_map.
Qed.

Lemma convert_times_length (df : DataFrame) :
  length (convert_times df) = length (time df).
Proof.
  unfold convert_times. generalize (time df).
  induction (py_range 0 (len df) chunk_size) as [|i idx IH]; intros col.
  - reflexivity.
  - cbn [fold_left]. rewrite IH. apply loc_apply_length.
Qed.

Lemma astype_str_length (col : list Pandas.cell) :
  length (Pandas.astype_str col) = length col.
Proof. unfold Pandas.astype_str. cbv zeta. apply length_map. Qed.

Lemma astype_str_missing (col : list Pandas.cell) (i : nat) :
  nth_error col i = Some None ->
  nth_error (Pandas.astype_str col) i
  = Some (if nat_as_text then Some (lit "NaT") else None).
Proof.
  intros H. unfold Pandas.astype_str, Pandas.cell in *. cbv zeta.
  rewrite nth_error_map, H. reflexivity.
Qed.

Lemma parse_missing_date (t : str) :
  parse_datetime_string false (lit "NaT " ++ t) = None ->
  Pandas.parse_string false (lit "NaT" ++ lit " " ++ t) = Raise ValueError.
Proof.
  intros H. unfold Pandas.parse_string.
  change (lit "NaT" ++ lit " " ++ t) with (lit "NaT " ++ t).
  rewrite not_iso_minutes, H. reflexivity.
Qed.

(** A text with a space in it is converted to a value or not at all. *)
Lemma parse_spaced (s : str) (c : Pandas.cell) :
  In 32%N s -> Pandas.parse_string false s = Ok c -> c <> None.
Proof.
  intros Hin Hs. unfold Pandas.parse_string in Hs.
  rewrite (null_string_no_space s Hin) in Hs.
  destruct (Pandas.parse_iso_minutes s); [now injection Hs as <-|].
  destruct (parse_datetime_string false s); [now injection Hs as <-|].
  discriminate.
Qed.

(** The conversion of the joined date and time, cell by cell: the
    result is missing exactly for a missing date that was kept
    missing. *)
Lemma joined_cells (b : bool) (col : list Pandas.cell) :
  forall times dt,
    length col = length times ->
    Pandas.to_datetime_na false
      (zip_with (fun d t => option_map (fun d => d ++ lit " " ++ t) d)
                (map (Pandas.cell_text b) col) times) = Ok dt ->
    Forall2 (fun c r => r = None <-> (c = None /\ nat_as_text = false)) col dt.
Proof.
  intros times dt Hl H. unfold Pandas.to_datetime_na in H.
  apply map_exc_forall2 in H. revert times dt Hl H.
  induction col as [|c col IH]; intros [|t times] dt Hl H; try discriminate;
    cbn [map zip_with] in H.
  - inversion H. constructor.
  - inversion H as [|x y l r Hx Hr]; subst.
    constructor; [|apply (IH times); [cbn in Hl; lia | exact Hr]].
    assert (Sp : forall w : str, In 32%N (w ++ lit " " ++ t))
      by (intros w; apply in_or_app; right; now left).
    destruct c as [ts|]; cbn [Pandas.cell_text option_map] in Hx.
    + split; [|intros (K & _); discriminate].
      intros ->. now elim (parse_spaced _ _ (Sp _) Hx).
    + destruct nat_as_text; cbn [option_map] in Hx.
      * split; [|intros (_ & K); discriminate].
        intros ->. now elim (parse_spaced _ _ (Sp _) Hx).
      * injection Hx as <-. split; [now split | reflexivity].
Qed.

Lemma all_missing_returns (b : bool) (col : list Pandas.cell) :
  nat_as_text = false ->
  (forall c, In c col -> c = None) ->
  forall times,
  exists dt,
    Pandas.to_datetime_na false
      (zip_with (fun d t => option_map (fun d => d ++ lit " " ++ t) d)
                (map (Pandas.cell_text b) col) times) = Ok dt.
Proof.
  intros En Hall. unfold Pandas.to_datetime_na.
  induction col as [|c col IH]; intros [|t times]; cbn [map zip_with map_exc];
    try (eexists; reflexivity).
  rewrite (Hall c (or_introl eq_refl)). cbn [Pandas.cell_text].
  rewrite En. cbn [option_map bind].
  destruct (IH (fun c' Hc => Hall c' (or_intror Hc)) times) as [dt ->].
  cbn [bind]. eexists. reflexivity.
Qed.

(** What the conversion of line 169 gives on a table with one entry per
    row in every column. *)
Lemma datetime_cells (df out : DataFrame) (d : Derived) :
  empty df = false ->
  well_formed df ->
  preprocess df = Ok out ->
  derived out = Some d ->
  Forall2 (fun c r => r = None <-> (c = None /\ nat_as_text = false))
          (convert_dates df) (datetime d).
Proof.
  intros He (Wd & Wt & _) Hp Hd.
  destruct (preprocess_nonempty df out He Hp)
    as (dt & Hdt & _ & _ & _ & _ & d' & Hd' & D1 & _).
  rewrite Hd in Hd'. injection Hd' as <-. rewrite D1.
  unfold Pandas.astype_str in Hdt. cbv zeta in Hdt.
  assert (Hl : length (convert_dates df) = length (convert_times df))
    by (rewrite convert_dates_length, convert_times_length; congruence).
  exact (joined_cells _ _ _ _ Hl Hdt).
Qed.

(** C1 fails on the code where the library writes a missing date as
    the text [NaT], as pandas does before version 3: a row whose date
    has become [NaT] then makes the conversion of the joined date and
    time raise, whenever the general parser refuses a text that starts
    with [NaT], and the whole call raises instead of keeping the record.
    Where the library keeps the missing date missing, as pandas does
    from version 3 on, the claim holds: such a row has a missing
    [datetime] and a missing hour in the table returned, and a table in
    which no date was converted is returned. *)
Theorem missing_date_raises (df : DataFrame) :
  empty df = false ->
  well_formed df ->
  In None (convert_dates df) ->
  (nat_as_text = true ->
   (forall t, parse_datetime_string false (lit "NaT " ++ t) = None) ->
   exists e, preprocess df = Raise e)
  /\ (nat_as_text = false ->
      (forall out d i,
         preprocess df = Ok out ->
         derived out = Some d ->
         nth_error (convert_dates df) i = Some None ->
         nth_error (datetime d) i = Some None
         /\ nth_error (hour d) i = Some None)
      /\ ((forall c, In c (convert_dates df) -> c = None) ->
          exists out, preprocess df = Ok out)).
Proof.
  intros He W Hin. pose proof W as (Wd & Wt & _). split.
  - intros En Hp.
    apply In_nth_error in Hin. destruct Hin as [i Hi].
    assert (Hlt : i < length (convert_times df)).
    { rewrite convert_times_length, Wt, <- Wd, <- convert_dates_length.
      apply nth_error_Some. unfold Pandas.cell in *. rewrite Hi. discriminate. }
    destruct (nth_error (convert_times df) i) as [t|] eqn:Ht;
      [|apply nth_error_None in Ht; lia].
    pose proof (zip_with_nth
                  (fun d t => option_map (fun d => d ++ lit " " ++ t) d)
                  _ _ i _ _ (astype_str_missing _ _ Hi) Ht) as Hz.
    rewrite En in Hz. cbn [option_map] in Hz.
    apply nth_error_In in Hz.
    destruct (map_exc_raises
                (fun s => match s with
                          | Some s => Pandas.parse_string false s
                          | None => Ok None
                          end) _ _ _ Hz (parse_missing_date t (Hp t)))
      as [e Hr].
    exists e. unfold preprocess. rewrite He.
    unfold Pandas.to_datetime_na. now rewrite Hr.
  - intros En. split.
    + intros out d i Hp Hd Hi.
      pose proof (datetime_cells df out d He W Hp Hd) as F.
      destruct (forall2_nth_error _ _ _ F i None Hi) as (r & Hr & K).
      assert (r = None) by (apply K; now split). subst r.
      split; [exact Hr|].
      destruct (preprocess_nonempty df out He Hp)
        as (dt & _ & _ & _ & _ & _ & d' & Hd' & D1 & D2 & _).
      rewrite Hd in Hd'. injection Hd' as <-.
      rewrite D2. unfold ts_field. rewrite nth_error_map, <- D1.
      unfold Pandas.cell in *. now rewrite Hr.
    + intros Hall.
      destruct (all_missing_returns
                  (forallb (fun c => match c with
                                     | Some t => Calendar.is_midnight t
                                     | None => true
                                     end) (convert_dates df))
                  (convert_dates df) En Hall (convert_times df)) as [dt Hdt].
      unfold preprocess. rewrite He.
      unfold Pandas.astype_str. cbv zeta. rewrite Hdt. cbn [bind].
      eexists. reflexivity.
Qed.
End MissingDate.

Lemma missing_date_raises_witness :
  let df := parse_chat (lit "99/99/99, 10:00 - Alice: Hello") in
  empty df = false
  /\ well_formed df
  /\ convert_dates (L := sample_libs) df = [None]
  /\ (exists e, analyze_chat (L := sample_libs)
                  (lit "99/99/99, 10:00 - Alice: Hello") = Raise e)
  /\ convert_dates (L := sample_libs_pandas3) df = [None]
  /\ (exists out, analyze_chat (L := sample_libs_pandas3)
                    (lit "99/99/99, 10:00 - Alice: Hello") = Ok out).
Proof.
  intros df.
  assert (W : well_formed df) by apply parse_chat_well_formed.
  split; [reflexivity|]. split; [exact W|].
  split; [vm_compute; reflexivity|]. split.
  { apply (proj1 (missing_date_raises (L := sample_libs) df eq_refl W
                    ltac:(left; vm_compute; reflexivity)));
      [reflexivity | intros t; reflexivity]. }
  split; [vm_compute; reflexivity|].
  apply (proj2 (proj2 (missing_date_raises (L := sample_libs_pandas3) df
                         eq_refl W ltac:(left; vm_compute; reflexivity))
                  eq_refl)).
  intros c Hc. vm_compute in Hc. destruct Hc as [<-|[]]. reflexivity.
Defined.

(* ===================================================================== *)
(** ** The records of the parser, block by block *)
(* ===================================================================== *)

Lemma blocks_lead_plain (lines : list str) :
  Forall (fun l => header_groups l = None) (fst (blocks lines)).
Proof.
  induction lines as [|l rest IH]; cbn [blocks].
  - constructor.
  - destruct (blocks rest) as [lead bs]. cbn [fst] in IH.
    destruct (header_groups l) eqn:E; cbn [fst]; constructor; assumption.
Qed.

Lemma append_blocks_cons (st : Lists) (caps : list str) (lead : list str)
      (bs : list (list str * list str)) :
  Forall (fun l => header_groups l = None) lead ->
  append_blocks (fold_left process_line lead (append_match st caps)) bs
  = append_blocks st ((caps, lead) :: bs).
Proof.
  intros Hl. unfold append_match.
  rewrite (continuation_lines_merged lead Hl). rewrite join_fold.
  unfold append_blocks, block_message.
  cbn [dates times users messages map fst snd].
  now rewrite <- !app_assoc.
Qed.

Lemma fold_process_blocks (lines : list str) :
  forall st,
    fold_left process_line lines st
    = append_blocks (fold_left process_line (fst (blocks lines)) st)
                    (snd (blocks lines)).
Proof.
  induction lines as [|l rest IH]; intros st; cbn [blocks fold_left].
  - unfold append_blocks. cbn. rewrite !app_nil_r. now destruct st.
  - pose proof (blocks_lead_plain rest) as Hl.
    destruct (blocks rest) as [lead bs] eqn:Eb. cbn [fst snd] in *.
    destruct (header_groups l) as [caps|] eqn:E; cbn [fst snd fold_left].
    + rewrite IH, (process_line_header st l caps E).
      now apply append_blocks_cons.
    + now rewrite IH.
Qed.

(** X1. The table of the parser has one row for every header line, in
    the order of the input: its date, time and user are the first three
    groups of the header line, and its message is the fourth group
    followed by the lines up to the next header line, joined by line
    feeds. The lines before the first header line appear nowhere. *)
Theorem parse_chat_by_blocks (data : str) :
  let bs := snd (blocks (split_on nl data)) in
  parse_chat data
  = {| date := StrCol (map (fun b => Re.group 1 (fst b)) bs);
       time := map (fun b => Re.group 2 (fst b)) bs;
       user := map (fun b => Re.group 3 (fst b)) bs;
       message := map block_message bs;
       derived := None |}.
Proof.
  intros bs. unfold parse_chat. rewrite parse_lines_fold, fold_process_blocks.
  rewrite <- (app_nil_r (fst (blocks (split_on nl data)))).
  rewrite (leading_lines_dropped _ [] (blocks_lead_plain _)).
  reflexivity.
Qed.

(* ===================================================================== *)
(** ** More on [convert_time] and on the columns of [preprocess] *)
(* ===================================================================== *)

(** X2. Normalising a time that has been normalised changes nothing. *)
Theorem convert_time_twice (s : str) :
  convert_time (convert_time s) = convert_time s.
Proof. apply convert_time_idempotent. Qed.

Section Columns.
Context {L : Libs}.

(** X3. On a table with one time per row, the loop over the [time]
    column, whose chunks share their boundary rows, gives every time
    converted once: the rows converted in two chunks are not changed by
    the second conversion. *)
Theorem time_loop_converts_each_row (df : DataFrame) :
  length (time df) = len df ->
  convert_times df = map convert_time (time df).
Proof. apply convert_times_map. Qed.

(** X4. The feature extractor keeps the rows: the messages and the
    users are those of its input, in the same order, and on a table with
    rows whose columns have one entry per row every column of the result,
    raw or derived, has one entry per row. *)
Theorem preprocess_keeps_rows (df out : DataFrame) :
  preprocess df = Ok out ->
  message out = message df /\ user out = user df /\ len out = len df
  /\ (empty df = false -> well_formed df ->
      well_formed out
      /\ exists d,
          derived out = Some d
          /\ length (datetime d) = len df /\ length (hour d) = len df
          /\ length (minute d) = len df /\ length (day d) = len df
          /\ length (day_of_week d) = len df /\ length (month d) = len df
          /\ length (month_name d) = len df /\ length (year d) = len df
          /\ length (message_length d) = len df
          /\ length (word_count d) = len df /\ length (has_media d) = len df
          /\ length (has_url d) = len df /\ length (url_count d) = len df
          /\ length (emojis d) = len df /\ length (emoji_count d) = len df).
Proof.
  intros Hp. destruct (empty df) eqn:He.
  - unfold preprocess in Hp. rewrite He in Hp. injection Hp as <-.
    repeat split; discriminate.
  - destruct (preprocess_nonempty df out He Hp)
      as (dt & Hdt & Ed & Et & Eu & Em & d & Hd & D1 & D2 & D3 & D4 & D5
          & D6 & D7 & D8 & D9 & D10 & D11 & D12 & D13 & D14 & D15).
    assert (Hl : len out = len df) by (unfold len; now rewrite Em).
    split; [exact Em|]. split; [exact Eu|]. split; [exact Hl|].
    intros _ (Wd & Wt & Wu).
    assert (Ldt : length dt = len df).
    { unfold Pandas.to_datetime_na in Hdt. apply map_exc_length in Hdt.
      rewrite Hdt, zip_with_length, astype_str_length, convert_dates_length,
        convert_times_length. lia. }
    split.
    + unfold well_formed. rewrite Ed, Et, Eu, Hl. cbn [date_len].
      rewrite convert_dates_length, convert_times_length. now repeat split.
    + exists d. split; [exact Hd|].
      rewrite D1, D2, D3, D4, D5, D6, D7, D8, D9, D10, D11, D12, D13, D14, D15.
      unfold ts_field, ts_name. rewrite !length_map. fold (len df).
      now repeat split.
Qed.

Lemma derived_cells {B : Type} (f : Calendar.Timestamp -> B)
      (dt : list Pandas.cell) :
  Forall2 (fun (c : Pandas.cell) (x : option B) => x = None <-> c = None)
          dt (map (option_map f) dt).
Proof.
  induction dt as [|c dt IH]; cbn [map]; constructor; [|exact IH].
  destruct c; cbn [option_map]; split; (discriminate || reflexivity).
Qed.

(** X5. When the feature extractor returns on a table with rows whose
    columns have one entry per row, the [datetime] of a row is missing
    exactly when the date of the row was not converted and the library
    keeps a missing value missing as it writes the dates as text; where
    the library writes it as the text [NaT], no [datetime] is missing.
    The hour, minute, day, month, year and the two names of a row are
    missing exactly when its [datetime] is. *)
Theorem datetime_missing_iff (df out : DataFrame) (d : Derived) :
  empty df = false ->
  well_formed df ->
  preprocess df = Ok out ->
  derived out = Some d ->
  Forall2 (fun c r => r = None <-> (c = None /\ nat_as_text = false))
          (convert_dates df) (datetime d)
  /\ (nat_as_text = true -> Forall (fun r => r <> None) (datetime d))
  /\ Forall2 (fun r x => x = None <-> r = None) (datetime d) (hour d)
  /\ Forall2 (fun r x => x = None <-> r = None) (datetime d) (minute d)
  /\ Forall2 (fun r x => x = None <-> r = None) (datetime d) (day d)
  /\ Forall2 (fun r x => x = None <-> r = None) (datetime d) (day_of_week d)
  /\ Forall2 (fun r x => x = None <-> r = None) (datetime d) (month d)
  /\ Forall2 (fun r x => x = None <-> r = None) (datetime d) (month_name d)
  /\ Forall2 (fun r x => x = None <-> r = None) (datetime d) (year d).
Proof.
  intros He W Hp Hd.
  pose proof (datetime_cells df out d He W Hp Hd) as F.
  destruct (preprocess_nonempty df out He Hp)
    as (dt & _ & _ & _ & _ & _ & d' & Hd' & D1 & D2 & D3 & D4 & D5
        & D6 & D7 & D8 & _).
  rewrite Hd in Hd'. injection Hd' as <-.
  split; [exact F|]. split.
  - intros En. clear - F En.
    induction F as [|c r l l' K _ IH]; constructor; [|exact IH].
    intros ->. destruct (proj1 K eq_refl) as (_ & K'). congruence.
  - rewrite D2, D3, D4, D5, D6, D7, D8, D1. unfold ts_field, ts_name.
    repeat split; apply derived_cells.
Qed.

Lemma split_ws_aux_length (s : str) :
  forall cur,
    length (split_ws_aux cur s)
    <= length s + match cur with [] => 0 | _ => 1 end.
Proof.
  induction s as [|c s IH]; intros cur; cbn [split_ws_aux length].
  - destruct cur; cbn; lia.
  - destruct (is_space c).
    + destruct cur; cbn [length]; specialize (IH []); cbn in IH; lia.
    + specialize (IH (c :: cur)). cbn in IH. destruct cur; lia.
Qed.

(** X6. In every row of the enriched table there is a link exactly when
    the number of links is positive, no more words and no more emojis
    than characters, and every emoji listed is one character of the
    message. *)
Theorem row_counts_bounded (df out : DataFrame) (d : Derived)
        (i : nat) (m : str) :
  preprocess df = Ok out ->
  derived out = Some d ->
  nth_error (message out) i = Some m ->
  exists u n w e es len_m,
    nth_error (has_url d) i = Some u
    /\ nth_error (url_count d) i = Some n
    /\ nth_error (word_count d) i = Some w
    /\ nth_error (emoji_count d) i = Some e
    /\ nth_error (emojis d) i = Some es
    /\ nth_error (message_length d) i = Some len_m
    /\ (u = true <-> (0 < n)%Z)
    /\ (w <= len_m)%Z /\ (e <= len_m)%Z
    /\ (forall x, In x es -> exists c, x = [c] /\ In c m).
Proof.
  intros Hp Hd Hm.
  destruct (preprocess_row df out d i m Hp Hd Hm)
    as (Hl & Hw & _ & Hu & Hn & He & Hc).
  exists (negb (Nat.eqb (length (find_urls m)) 0)),
         (Z.of_nat (length (find_urls m))),
         (Z.of_nat (length (split_ws m))),
         (Z.of_nat (length (extract_emojis m))),
         (extract_emojis m), (Z.of_nat (length m)).
  repeat (split; [assumption|]).
  split; [|split; [|split]].
  - destruct (length (find_urls m)); cbn; split; intros; (lia || easy).
  - pose proof (split_ws_aux_length m []) as K. unfold split_ws. cbn in K. lia.
  - unfold extract_emojis. rewrite length_map.
    pose proof (filter_length_le (fun c => EMOJI_DATA [c]) m). lia.
  - intros x Hx. unfold extract_emojis in Hx.
    apply in_map_iff in Hx. destruct Hx as (c & <- & Hin).
    apply filter_In in Hin. exists c. tauto.
Qed.

(** X7. The second media marker adds nothing to the first: a row counts
    as media exactly when its message in lower case contains [omitted]. *)
Theorem media_is_omitted (df out : DataFrame) (d : Derived)
        (i : nat) (m : str) :
  preprocess df = Ok out ->
  derived out = Some d ->
  nth_error (message out) i = Some m ->
  exists h,
    nth_error (has_media d) i = Some h
    /\ (h = 1%Z <-> substring (lit "omitted") (str_lower m))
    /\ (h = 0%Z <-> ~ substring (lit "omitted") (str_lower m)).
Proof.
  intros Hp Hd Hm.
  destruct (preprocess_row df out d i m Hp Hd Hm) as (_ & _ & Hh & _).
  exists (contains_media (str_lower m)). split; [exact Hh|].
  unfold contains_media, media_terms. cbn [existsb].
  rewrite orb_false_r.
  destruct (contains (lit "omitted") (str_lower m)) eqn:E1.
  - cbn [orb]. apply contains_spec in E1. split.
    + split; [intros _; exact E1 | reflexivity].
    + split; [discriminate | intros K; now elim K].
  - assert (E2 : contains (lit "<media omitted>") (str_lower m) = false).
    { destruct (contains (lit "<media omitted>") (str_lower m)) eqn:E2;
        [|reflexivity].
      apply contains_spec in E2. destruct E2 as (pre & post & E).
      assert (K : contains (lit "omitted") (str_lower m) = true).
      { apply contains_spec. exists (pre ++ lit "<media "), (lit ">" ++ post).
        rewrite E. rewrite <- !app_assoc. reflexivity. }
      congruence. }
    rewrite E2. cbn [orb].
    assert (N : ~ substring (lit "omitted") (str_lower m)).
    { intros K. apply contains_spec in K. congruence. }
    split.
    + split; [discriminate | intros K; now elim N].
    + split; [intros _; exact N | reflexivity].
Qed.
End Columns.

Lemma preprocess_keeps_rows_witness :
  let df := parse_chat (lit "[01.02.2023, 14:05:30] Bob: Bonjour" ++ [nl]
                        ++ lit "[03.02.2023, 9:00:00] Eve: hi") in
  exists out,
    preprocess (L := sample_libs) df = Ok out
    /\ empty df = false /\ well_formed df
    /\ message out = message df /\ len out = 2 /\ well_formed out.
Proof.
  intros df. eexists. split; [vm_compute; reflexivity|].
  split; [reflexivity|]. split; [apply parse_chat_well_formed|].
  edestruct (preprocess_keeps_rows (L := sample_libs) df _
               ltac:(vm_compute; reflexivity)) as (Hm & _ & Hl & Hw).
  destruct (Hw eq_refl (parse_chat_well_formed _)) as (W & _).
  split; [exact Hm|]. split; [exact Hl|]. exact W.
Defined.

Lemma time_loop_converts_each_row_witness :
  let df := parse_chat (lit "[01.02.2023, 14:05:30] Bob: Bonjour" ++ [nl]
                        ++ lit "1/1/23, 10:00 PM - Eve: hi") in
  length (time df) = len df
  /\ convert_times df = [lit "14:05"; lit "22:00"].
Proof.
  intros df. split; [reflexivity|].
  rewrite (time_loop_converts_each_row df eq_refl). reflexivity.
Defined.

Lemma datetime_missing_iff_witness :
  let df := parse_chat (lit "99/99/99, 10:00 - Alice: Hello" ++ [nl]
                        ++ lit "98/98/98, 11:00 - Bob: Hi") in
  let good := parse_chat (lit "1/1/23, 10:00 PM - Eve: hi") in
  (exists out d,
     empty df = false /\ well_formed df
     /\ preprocess (L := sample_libs_pandas3) df = Ok out
     /\ derived out = Some d
     /\ convert_dates (L := sample_libs_pandas3) df = [None; None]
     /\ datetime d = [None; None]
     /\ Forall2 (fun r x => x = None <-> r = None) (datetime d) (hour d))
  /\ (exists out d,
        empty good = false /\ well_formed good
        /\ preprocess (L := sample_libs) good = Ok out
        /\ derived out = Some d
        /\ Forall (fun r => r <> None) (datetime d)).
Proof.
  intros df good. split.
  - eexists. eexists. split; [reflexivity|].
    split; [apply parse_chat_well_formed|].
    split; [vm_compute; reflexivity|]. split; [reflexivity|].
    split; [vm_compute; reflexivity|]. split; [reflexivity|].
    edestruct (datetime_missing_iff (L := sample_libs_pandas3) df _ _ eq_refl
                 (parse_chat_well_formed _)
                 ltac:(vm_compute; reflexivity) eq_refl) as (_ & _ & H & _).
    exact H.
  - eexists. eexists. split; [reflexivity|].
    split; [apply parse_chat_well_formed|].
    split; [vm_compute; reflexivity|]. split; [reflexivity|].
    edestruct (datetime_missing_iff (L := sample_libs) good _ _ eq_refl
                 (parse_chat_well_formed _)
                 ltac:(vm_compute; reflexivity) eq_refl) as (_ & H & _).
    exact (H eq_refl).
Defined.

Lemma row_counts_bounded_witness :
  let df := parse_chat (lit "1/1/23, 10:00 - Eve: see https://example.com now") in
  exists out d,
    preprocess (L := sample_libs) df = Ok out
    /\ derived out = Some d
    /\ nth_error (message out) 0 = Some (lit "see https://example.com now")
    /\ exists u n w e es len_m,
        nth_error (has_url d) 0 = Some u
        /\ nth_error (url_count d) 0 = Some n
        /\ nth_error (word_count d) 0 = Some w
        /\ nth_error (emoji_count d) 0 = Some e
        /\ nth_error (emojis d) 0 = Some es
        /\ nth_error (message_length d) 0 = Some len_m
        /\ (u = true <-> (0 < n)%Z)
        /\ (w <= len_m)%Z /\ (e <= len_m)%Z
        /\ (forall x, In x es ->
                      exists c, x = [c]
                                /\ In c (lit "see https://example.com now")).
Proof.
  intros df. eexists. eexists. split; [vm_compute; reflexivity|].
  split; [reflexivity|]. split; [reflexivity|].
  eapply (row_counts_bounded (L := sample_libs) df _ _ 0 _).
  - vm_compute. reflexivity.
  - reflexivity.
  - reflexivity.
Defined.

Lemma media_is_omitted_witness :
  let df := parse_chat (lit "1/1/23, 10:00 - Bob: image OMITTED") in
  exists out d,
    preprocess (L := sample_libs) df = Ok out
    /\ derived out = Some d
    /\ nth_error (message out) 0 = Some (lit "image OMITTED")
    /\ exists h,
        nth_error (has_media d) 0 = Some h
        /\ (h = 1%Z <->
            substring (lit "omitted")
                      (str_lower (Libs := sample_libs) (lit "image OMITTED")))
        /\ (h = 0%Z <->
            ~ substring (lit "omitted")
                        (str_lower (Libs := sample_libs) (lit "image OMITTED"))).
Proof.
  intros df. eexists. eexists. split; [vm_compute; reflexivity|].
  split; [reflexivity|]. split; [reflexivity|].
  eapply (media_is_omitted (L := sample_libs) df _ _ 0 _).
  - vm_compute. reflexivity.
  - reflexivity.
  - reflexivity.
Defined.

(* ===================================================================== *)
(** ** The format of a table of the parser *)
(* ===================================================================== *)

Lemma parsed_date_has_sep (sep : char) (d a b c : str) :
  parsed_date sep d a b c -> contains [sep] d = true.
Proof.
  intros (-> & _). rewrite contains_single. apply existsb_exists.
  exists sep. split; [|apply N.eqb_refl].
  apply in_or_app. right. now left.
Qed.

Lemma existsb_false_in {A : Type} (p : A -> bool) (l : list A) (x : A) :
  existsb p l = false -> In x l -> p x = false.
Proof.
  intros H Hin. destruct (p x) eqn:E; [|reflexivity].
  assert (K : existsb p l = true) by (apply existsb_exists; now exists x).
  congruence.
Qed.

Lemma firstn_in {A : Type} (n : nat) (l : list A) (x : A) :
  In x (firstn n l) -> In x l.
Proof.
  intros H. rewrite <- (firstn_skipn n l). apply in_or_app. now left.
Qed.

Section ParserFormat.
Context {L : Libs}.

(** X8. On a table of the parser that has rows the choice of the format
    never raises and never falls back to the parser without format: the
    dates are converted under one of the five formats, and leniently
    when that raises. *)
Theorem parser_table_has_format (data : str) (col : list str) :
  empty (parse_chat data) = false ->
  date (parse_chat data) = StrCol col ->
  exists f,
    infer_date_format (firstn (sample_size (parse_chat data)) col) = Ok (Some f)
    /\ convert_dates (parse_chat data) = dates_under (Some f) col.
Proof.
  intros He Hd.
  pose proof (parse_chat_dates data col Hd) as Hall.
  rewrite Forall_forall in Hall.
  destruct (parse_chat_well_formed data) as (Wd & _).
  rewrite Hd in Wd. cbn [date_len] in Wd.
  unfold empty in He. apply Nat.eqb_neq in He.
  set (sample := firstn (sample_size (parse_chat data)) col).
  assert (Hs : forall d, In d sample -> date_shape d)
    by (intros d Hin; apply Hall; now apply (firstn_in _ _ _ Hin)).
  assert (Hne : exists d0, In d0 sample).
  { unfold sample, sample_size. destruct col as [|d0 col']; [rewrite <- Wd in He; now elim He|].
    exists d0. destruct (len (parse_chat data)); [lia|]. now left. }
  assert (Hf : exists f, infer_date_format sample = Ok (Some f)).
  { destruct (existsb (contains (lit ".")) sample) eqn:Ep.
    - exists Pandas.Fmt_d_m_Y_dot. now apply infer_period.
    - assert (Hslash : forall d, In d sample ->
                exists a b c, parsed_date (ch "/") d a b c).
      { intros d Hin. destruct (Hs d Hin) as (a & b & c & [K|K]).
        - now exists a, b, c.
        - apply parsed_date_has_sep in K. change [ch "."] with (lit ".") in K.
          rewrite (existsb_false_in _ _ d Ep Hin) in K. discriminate. }
      destruct Hne as [d0 Hd0].
      destruct (filter (contains (lit "/")) sample) as [|d others] eqn:Ef.
      + destruct (Hslash d0 Hd0) as (a & b & c & K).
        apply parsed_date_has_sep in K.
        assert (Hin : In d0 (filter (contains (lit "/")) sample))
          by (apply filter_In; split; assumption).
        rewrite Ef in Hin. contradiction.
      + assert (Hin : In d sample).
        { assert (K : In d (filter (contains (lit "/")) sample))
            by (rewrite Ef; now left).
          apply filter_In in K. tauto. }
        destruct (Hslash d Hin) as (a & b & c & K).
        destruct (infer_slash sample d others a b c Ep Ef K) as (f & Hi & _).
        now exists f. }
  destruct Hf as [f Hf]. exists f. split; [exact Hf|].
  now apply (convert_dates_under (parse_chat data) col (Some f) Hd).
Qed.
End ParserFormat.

Lemma parser_table_has_format_witness :
  empty (parse_chat (lit "13/1/23, 10:00 - Alice: Line one")) = false
  /\ exists f,
      infer_date_format
        (firstn (sample_size (parse_chat (lit "13/1/23, 10:00 - Alice: Line one")))
                [lit "13/1/23"]) = Ok (Some f)
      /\ convert_dates (L := sample_libs)
           (parse_chat (lit "13/1/23, 10:00 - Alice: Line one"))
         = dates_under (L := sample_libs) (Some f) [lit "13/1/23"].
Proof.
  split; [reflexivity|].
  apply (parser_table_has_format (L := sample_libs)
           (lit "13/1/23, 10:00 - Alice: Line one") [lit "13/1/23"]
           eq_refl eq_refl).
Defined.

(* ===================================================================== *)
(** ** [clean_message_content] *)
(* ===================================================================== *)

Lemma replace_char_app (c : char) (r a b : str) :
  replace_char c r (a ++ b) = replace_char c r a ++ replace_char c r b.
Proof. unfold replace_char. apply flat_map_app. Qed.

(** The five replacements together escape each character on its own:
    no later replacement touches what an earlier one has written. *)
Lemma html_escape_entities (s : str) : html_escape s = flat_map entity s.
Proof.
  unfold html_escape. induction s as [|c s IH]; [reflexivity|].
  cbn [flat_map]. rewrite <- IH. clear IH.
  change (c :: s) with ([c] ++ s).
  rewrite !replace_char_app. f_equal.
  unfold entity, replace_char at 5. cbn [flat_map]. rewrite app_nil_r.
  destruct (N.eqb_spec c (ch "&")) as [->|N1]; [reflexivity|].
  unfold replace_char at 4. cbn [flat_map]. rewrite app_nil_r.
  destruct (N.eqb_spec c (ch "<")) as [->|N2]; [reflexivity|].
  unfold replace_char at 3. cbn [flat_map]. rewrite app_nil_r.
  destruct (N.eqb_spec c (ch ">")) as [->|N3]; [reflexivity|].
  unfold replace_char at 2. cbn [flat_map]. rewrite app_nil_r.
  destruct (N.eqb_spec c dquote) as [->|N4]; [reflexivity|].
  unfold replace_char. cbn [flat_map]. rewrite app_nil_r.
  destruct (N.eqb_spec c squote) as [->|N5]; reflexivity.
Qed.

Lemma entity_markup_free (c : char) : forallb markup_free (entity c) = true.
Proof.
  unfold entity.
  destruct (N.eqb_spec c (ch "&")); [reflexivity|].
  destruct (N.eqb_spec c (ch "<")) as [|N2]; [reflexivity|].
  destruct (N.eqb_spec c (ch ">")) as [|N3]; [reflexivity|].
  destruct (N.eqb_spec c dquote) as [|N4]; [reflexivity|].
  destruct (N.eqb_spec c squote) as [|N5]; [reflexivity|].
  cbn [forallb]. unfold markup_free.
  apply N.eqb_neq in N2, N3, N4, N5. now rewrite N2, N3, N4, N5.
Qed.

Lemma html_escape_markup_free (s : str) :
  forallb markup_free (html_escape s) = true.
Proof.
  rewrite html_escape_entities. induction s as [|c s IH]; [reflexivity|].
  cbn [flat_map]. rewrite forallb_app, entity_markup_free, IH. reflexivity.
Qed.

Lemma drop_while_keeps (p : char -> bool) (s : str) (c : char) :
  In c s -> p c = true \/ In c (drop_while p s).
Proof.
  induction s as [|x s IH]; [contradiction|].
  cbn [drop_while]. destruct (p x) eqn:E.
  - intros [<-|Hin]; [now left | now apply IH].
  - now right.
Qed.

(** A character of [s] is white space or survives [strip]. *)
Lemma strip_keeps (s : str) (c : char) :
  In c s -> is_space c = true \/ In c (strip s).
Proof.
  intros Hin. unfold strip.
  destruct (drop_while_keeps is_space s c Hin) as [H|H]; [now left|].
  apply in_rev in H.
  destruct (drop_while_keeps is_space _ c H) as [H'|H']; [now left|].
  right. now apply in_rev in H'.
Qed.

Lemma emoji_or_space_markup_free (c : char) :
  (is_space c || emoji_class c)%bool = true -> markup_free c = true.
Proof.
  unfold is_space, emoji_class, markup_free, in_range, dquote, squote.
  rewrite negb_true_iff, !orb_true_iff, !orb_false_iff, !andb_true_iff,
    !N.leb_le, !N.eqb_eq, !N.eqb_neq.
  cbn. lia.
Qed.

Section DisplayFacts.
Context {L : Libs}.

(** X9. Whatever the message, [clean_message_content] returns a text
    with no angle bracket and no quote in it: the placeholder, a
    message made of white space and characters of the emoji class, or
    the escaped message. *)
Theorem clean_message_content_markup_free (message : str) :
  forallb markup_free (clean_message_content message) = true.
Proof.
  unfold clean_message_content. destruct message as [|c0 m0]; [reflexivity|].
  destruct (is_html_code (c0 :: m0)); [reflexivity|].
  destruct (str_eqb _ []) eqn:E; [|apply html_escape_markup_free].
  apply str_eqb_eq in E. apply forallb_forall. intros c Hin.
  apply emoji_or_space_markup_free.
  destruct (strip_keeps _ c Hin) as [H|H]; [now rewrite H|].
  destruct (emoji_class c) eqn:Ec; [apply orb_true_r|].
  assert (K : In c (remove_emoji (strip (c0 :: m0)))).
  { unfold remove_emoji. apply filter_In. now rewrite Ec. }
  rewrite E in K. contradiction.
Qed.

(** X10. A message that is not taken for code and is more than white
    space and emoji is escaped character by character, the ampersand
    included; when it has none of the five special characters it is
    returned as it is. *)
Theorem clean_message_content_escapes (message : str) :
  is_html_code message = false ->
  remove_emoji (strip message) <> [] ->
  clean_message_content message = flat_map entity message
  /\ (forallb (fun c => (markup_free c && negb (N.eqb c (ch "&")))%bool) message
      = true ->
      clean_message_content message = message).
Proof.
  intros Hc He.
  assert (E : clean_message_content message = flat_map entity message).
  { unfold clean_message_content. destruct message as [|c0 m0]; [reflexivity|].
    rewrite Hc. destruct (str_eqb _ []) eqn:E.
    - apply str_eqb_eq in E. contradiction.
    - apply html_escape_entities. }
  split; [exact E|]. intros Hs. rewrite E. clear E Hc He.
  induction message as [|c m IH]; [reflexivity|].
  cbn [forallb] in Hs. apply andb_true_iff in Hs. destruct Hs as [Hc Hm].
  cbn [flat_map]. rewrite (IH Hm).
  unfold markup_free in Hc.
  rewrite andb_true_iff, !negb_true_iff, !orb_false_iff in Hc.
  destruct Hc as ((((H1 & H2) & H3) & H4) & H5).
  unfold entity. now rewrite H5, H1, H2, H3, H4.
Qed.
End DisplayFacts.

Lemma clean_message_content_escapes_witness :
  is_html_code (L := sample_libs) (lit "Tom & Jerry, it's 5pm") = false
  /\ remove_emoji (strip (lit "Tom & Jerry, it's 5pm")) <> []
  /\ clean_message_content (L := sample_libs) (lit "Tom & Jerry, it's 5pm")
     = lit "Tom &amp; Jerry, it&#x27;s 5pm"
  /\ clean_message_content (L := sample_libs) (lit "see you at 5")
     = lit "see you at 5".
Proof.
  split; [reflexivity|]. split; [discriminate|]. split.
  - rewrite (proj1 (clean_message_content_escapes (L := sample_libs)
                      (lit "Tom & Jerry, it's 5pm") eq_refl
                      ltac:(discriminate))).
    reflexivity.
  - apply (proj2 (clean_message_content_escapes (L := sample_libs)
                    (lit "see you at 5") eq_refl ltac:(discriminate))).
    reflexivity.
Defined.

(** A greedy repetition that can take a whole run, and whose
    continuation accepts what follows the run, matches. *)
Lemma rep_greedy_run {R : Type} (p : char -> bool) (w rest : str)
      (caps : list str) (k : Re.cont R) (x : R) :
  forallb p w = true ->
  match rest with [] => True | c :: _ => p c = false end ->
  k rest caps = Some x ->
  forall lo, lo <= length w ->
             Re.rep true p lo None (w ++ rest) caps k = Some x.
Proof.
  intros Hw Hr Hk. induction w as [|a w IH]; intros lo Hlo.
  - cbn [length] in Hlo. assert (lo = 0) by lia. subst lo. cbn [app].
    destruct rest as [|c rest]; cbn [Re.rep]; [exact Hk|].
    rewrite Hr. cbn [andb]. exact Hk.
  - cbn [forallb] in Hw. apply andb_true_iff in Hw. destruct Hw as [Ha Hw].
    cbn [app Re.rep]. rewrite Ha. cbn [Re.hi_zero negb andb Re.hi_pred].
    rewrite (IH Hw (pred lo)); [reflexivity|]. cbn [length] in Hlo. lia.
Qed.

Lemma search_found (r : Re.regex) (pre s : str) (y : list str * str) :
  Re.py_match r s = Some y -> search r (pre ++ s) = true.
Proof.
  intros H. induction pre as [|c pre IH]; cbn [app].
  - destruct s; cbn [search]; now rewrite H.
  - cbn [search]. now destruct (Re.py_match r (c :: pre ++ s)).
Qed.

Lemma angle_bracket_found (pre body post : str) :
  body <> [] ->
  forallb (fun c => negb (N.eqb c (ch ">"))) body = true ->
  search angle_bracket_pattern (pre ++ lit "<" ++ body ++ lit ">" ++ post)
  = true.
Proof.
  intros Hne Hb. apply (search_found _ _ _ ([], post)).
  unfold Re.py_match, angle_bracket_pattern.
  change (lit "<" ++ body ++ lit ">" ++ post)
    with (ch "<" :: body ++ (ch ">" :: post)).
  cbn [Re.seq fold_right Re.run]. rewrite N.eqb_refl.
  apply (rep_greedy_run _ body (ch ">" :: post)).
  - exact Hb.
  - reflexivity.
  - cbn. reflexivity.
  - destruct body; [congruence | cbn; lia].
Qed.

Section Hidden.
Context {L : Libs}.

(** X11. A message with an opening angle bracket, at least one
    character other than a closing bracket, and a closing bracket is
    never shown: the placeholder is returned in its place. *)
Theorem clean_message_content_hides_tags (pre body post : str) :
  body <> [] ->
  forallb (fun c => negb (N.eqb c (ch ">"))) body = true ->
  clean_message_content (pre ++ lit "<" ++ body ++ lit ">" ++ post)
  = placeholder.
Proof.
  intros Hne Hb.
  pose proof (angle_bracket_found pre body post Hne Hb) as Ha.
  unfold clean_message_content.
  destruct (pre ++ lit "<" ++ body ++ lit ">" ++ post) as [|c0 m0] eqn:Em.
  - destruct pre; discriminate.
  - unfold is_html_code. rewrite Ha.
    now destruct (search html_tag_pattern (c0 :: m0)
                  || search css_property_pattern (c0 :: m0))%bool.
Qed.
End Hidden.

Lemma clean_message_content_hides_tags_witness :
  lit "script" <> []
  /\ forallb (fun c => negb (N.eqb c (ch ">"))) (lit "script") = true
  /\ clean_message_content (L := sample_libs)
       (lit "hi " ++ lit "<" ++ lit "script" ++ lit ">" ++ lit "alert(1)")
     = placeholder.
Proof.
  split; [discriminate|]. split; [reflexivity|].
  apply (clean_message_content_hides_tags (L := sample_libs)
           (lit "hi ") (lit "script") (lit "alert(1)")).
  - discriminate.
  - reflexivity.
Defined.

(* ===================================================================== *)
(** ** Where the name of the sender ends *)
(* ===================================================================== *)

Section LazyAndGreedy.
Variable R : Type.

(** A lazy repetition stops at the first place where the rest of the
    pattern matches. *)
Lemma rep_lazy_first (p : char -> bool) (s : str) :
  forall caps (k : Re.cont R) x,
    Re.rep false p 0 None s caps k = Some x ->
    exists w rest,
      s = w ++ rest /\ forallb p w = true /\ k rest caps = Some x
      /\ forall w1 w2, w = w1 ++ w2 -> w2 <> [] ->
                       k (w2 ++ rest) caps = None.
Proof.
  assert (Stop : forall s caps (k : Re.cont R) x,
             k s caps = Some x ->
             exists w rest,
               s = w ++ rest /\ forallb p w = true /\ k rest caps = Some x
               /\ forall w1 w2, w = w1 ++ w2 -> w2 <> [] ->
                                k (w2 ++ rest) caps = None).
  { intros s0 caps k x Hk. exists [], s0. repeat split; try assumption.
    intros w1 w2 E Hne. destruct w1, w2; try discriminate. congruence. }
  induction s as [|c s IH]; intros caps k x H; cbn [Re.rep] in H.
  - now apply Stop.
  - cbn [Re.hi_zero negb Re.hi_pred pred] in H. rewrite andb_true_r in H.
    destruct (p c) eqn:Hp; [|now apply Stop].
    destruct (k (c :: s) caps) as [y|] eqn:Hk.
    + injection H as ->. now apply Stop.
    + destruct (IH _ _ _ H) as (w & rest & -> & Hw & Hr & Hmin).
      exists (c :: w), rest. cbn [forallb app]. rewrite Hp, Hw.
      repeat split; try assumption.
      intros w1 w2 E Hne. destruct w1 as [|c' w1].
      * cbn [app] in E. subst w2. exact Hk.
      * injection E as <- E. now apply (Hmin w1 w2).
Qed.

(** A greedy repetition in front of a continuation that accepts
    everything takes all the characters it can. *)
Lemma rep_greedy_longest (p : char -> bool) (s : str) :
  forall caps (k : Re.cont R),
    (forall s' caps', k s' caps' <> None) ->
    exists w rest,
      s = w ++ rest /\ forallb p w = true
      /\ match rest with [] => True | c :: _ => p c = false end
      /\ Re.rep true p 0 None s caps k = k rest caps.
Proof.
  induction s as [|c s IH]; intros caps k Hk; cbn [Re.rep].
  - exists [], []. now repeat split.
  - cbn [Re.hi_zero negb Re.hi_pred pred]. rewrite andb_true_r.
    destruct (p c) eqn:Hp.
    + destruct (IH caps k Hk) as (w & rest & -> & Hw & Hr & E).
      exists (c :: w), rest. cbn [forallb app]. rewrite Hp, Hw, E.
      repeat split; try assumption.
      destruct (k rest caps) eqn:K; [reflexivity|]. now elim (Hk rest caps).
    + exists [], (c :: s). now repeat split.
Qed.

Lemma rep_greedy_total (p : char -> bool) (s : str) (caps : list str)
      (k : Re.cont R) :
  (forall s' caps', k s' caps' <> None) ->
  Re.rep true p 0 None s caps k <> None.
Proof.
  intros Hk. destruct (rep_greedy_longest p s caps k Hk)
    as (w & rest & _ & _ & _ & ->).
  apply Hk.
Qed.

Lemma run_seq_app (hd tl : list Re.regex) :
  forall s caps (k : Re.cont R) x,
    Re.run (Re.seq (hd ++ tl)) s caps k = Some x ->
    exists w rest g,
      s = w ++ rest /\ Re.denotes (Re.seq hd) w g
      /\ Re.run (Re.seq tl) rest (caps ++ g) k = Some x.
Proof.
  induction hd as [|a hd IH]; intros s caps k x H.
  - exists [], s, []. cbn. rewrite app_nil_r. now repeat split.
  - cbn [app Re.seq fold_right Re.run] in H.
    destruct (run_sound _ a _ _ _ _ H) as (w1 & r1 & g1 & -> & D1 & H1).
    cbv beta in H1. fold (Re.seq (hd ++ tl)) in H1.
    destruct (IH _ _ _ _ H1) as (w2 & rest & g2 & -> & D2 & H2).
    exists (w1 ++ w2), rest, (g1 ++ g2). rewrite <- !app_assoc in *.
    repeat split; try assumption.
    cbn [Re.seq fold_right Re.denotes]. now exists w1, w2, g1, g2.
Qed.
End LazyAndGreedy.

Lemma firstn_prefix {A : Type} (u rest : list A) :
  firstn (length (u ++ rest) - length rest) (u ++ rest) = u.
Proof.
  rewrite length_app, Nat.add_sub, firstn_app, Nat.sub_diag, firstn_all.
  cbn [firstn]. apply app_nil_r.
Qed.

(** The end of the three header patterns: the lazy group of the sender,
    a colon, white space, and the greedy group of the message. *)
Lemma sender_tail (s : str) (caps caps' : list str) (rest' : str) :
  Re.run (Re.seq [Re.Grp (Re.Rep false 0 None Re.dot); Re.Chr (ch ":");
                  Re.space; Re.Grp (Re.Rep true 0 None Re.dot)])
         s caps (fun rest c => Some (c, rest)) = Some (caps', rest') ->
  exists u w m,
    s = u ++ ch ":" :: w :: m ++ rest'
    /\ is_space w = true
    /\ caps' = caps ++ [u; m]
    /\ forallb Re.dot u = true /\ forallb Re.dot m = true
    /\ match rest' with [] => True | c :: _ => c = nl end
    /\ forall a c b, u = a ++ ch ":" :: c :: b -> is_space c = false.
Proof.
  intros H. unfold Re.space in H. cbn [Re.seq fold_right Re.run] in H.
  apply rep_lazy_first in H. destruct H as (u & rest & -> & Hu & Hk & Hmin).
  cbv beta in Hk. rewrite firstn_prefix in Hk.
  assert (Total : forall (t : str) (c0 : list str),
             forall s' caps'0,
               (fun (s'0 : str) (caps'1 : list str) =>
                  Some (caps'1 ++ [firstn (length t - length s'0) t], s'0))
                 s' caps'0 <> None) by (intros; discriminate).
  destruct rest as [|x [|w t]]; try discriminate.
  { destruct (N.eqb x (ch ":")); discriminate. }
  destruct (N.eqb x (ch ":")) eqn:Ex; [|discriminate].
  apply N.eqb_eq in Ex. subst x.
  destruct (is_space w) eqn:Ew; [|discriminate].
  destruct (rep_greedy_longest _ Re.dot t (caps ++ [u]) _ (Total t caps))
    as (m & r2 & -> & Hm & Hr & E).
  rewrite E in Hk. rewrite firstn_prefix in Hk. injection Hk as <- <-.
  exists u, w, m. rewrite <- app_assoc. repeat split; try assumption.
  - destruct r2 as [|c r2]; [exact I|]. unfold Re.dot in Hr.
    apply negb_false_iff, N.eqb_eq in Hr. exact Hr.
  - intros a c b Eu. destruct (is_space c) eqn:Ec; [|reflexivity]. exfalso.
    specialize (Hmin a (ch ":" :: c :: b) Eu ltac:(discriminate)).
    cbv beta in Hmin. cbn [app] in Hmin. rewrite N.eqb_refl, Ec in Hmin.
    refine (rep_greedy_total _ _ _ _ _ _ Hmin). intros. discriminate.
Qed.

Ltac header_groups_shape D :=
  cbn [Re.denotes Re.seq fold_right] in D; break_match_facts;
  match goal with
  | H : Re.denotes (date_re _ _ _) _ _ |- _ =>
      apply date_re_shape in H; destruct H as (-> & _)
  end;
  cbn [app Re.group Nat.sub nth].

Lemma pattern_sender (hd : list Re.regex) (line : str) (caps : list str)
      (rest : str) :
  Re.py_match
    (Re.seq (hd ++ [Re.Grp (Re.Rep false 0 None Re.dot); Re.Chr (ch ":");
                    Re.space; Re.Grp (Re.Rep true 0 None Re.dot)])) line
  = Some (caps, rest) ->
  exists head g u w m,
    Re.denotes (Re.seq hd) head g
    /\ caps = g ++ [u; m]
    /\ line = head ++ u ++ ch ":" :: w :: m ++ rest
    /\ is_space w = true
    /\ (forall a c b, u = a ++ ch ":" :: c :: b -> is_space c = false)
    /\ forallb Re.dot u = true /\ forallb Re.dot m = true
    /\ match rest with [] => True | c :: _ => c = nl end.
Proof.
  unfold Re.py_match. intros H.
  apply run_seq_app in H. destruct H as (head & r0 & g & -> & D & H).
  apply sender_tail in H.
  destruct H as (u & w & m & -> & Hw & -> & Hu & Hm & Hr & Hmin).
  exists head, g, u, w, m. cbn [app]. now repeat split.
Qed.

(** X17. In a header line the name of the sender ends at the first
    colon that is followed by white space: the line is some head, the
    sender, a colon, one white space character and the message, which
    runs to the end of the line, and the sender contains no colon
    followed by white space. *)
Theorem sender_ends_at_first_colon (line : str) (caps : list str) :
  header_groups line = Some caps ->
  exists head w rest,
    line = head ++ Re.group 3 caps ++ ch ":" :: w :: Re.group 4 caps ++ rest
    /\ is_space w = true
    /\ (forall a c b,
          Re.group 3 caps = a ++ ch ":" :: c :: b -> is_space c = false)
    /\ forallb Re.dot (Re.group 3 caps) = true
    /\ forallb Re.dot (Re.group 4 caps) = true
    /\ match rest with [] => True | c :: _ => c = nl end.
Proof.
  unfold header_groups.
  destruct (Re.py_match pattern_12hr line) as [[c1 r1]|] eqn:E1.
  { intros [= <-].
    apply (pattern_sender
             [ Re.Grp (date_re "/" 2 4); Re.Chr (ch ","); Re.space;
               Re.Grp (Re.seq [Re.digits 1 2; Re.Chr (ch ":"); Re.digits 2 2;
                               Re.space; Re.one_of "APap"; Re.one_of "Mm"]);
               Re.space; Re.Chr (ch "-"); Re.space ]) in E1.
    destruct E1 as (head & g & u & w & m & D & -> & -> & K1 & K2 & K3 & K4 & K5).
    exists head, w, r1.
    unfold Re.space, Re.one_of, Re.digits in D. header_groups_shape D.
    split; [reflexivity|].
    repeat (split; [assumption|]); assumption. }
  destruct (Re.py_match pattern_24hr line) as [[c2 r2]|] eqn:E2.
  { intros [= <-].
    apply (pattern_sender
             [ Re.Grp (date_re "/" 2 4); Re.Chr (ch ","); Re.space;
               Re.Grp (Re.seq [Re.digits 1 2; Re.Chr (ch ":"); Re.digits 2 2]);
               Re.space; Re.Chr (ch "-"); Re.space ]) in E2.
    destruct E2 as (head & g & u & w & m & D & -> & -> & K1 & K2 & K3 & K4 & K5).
    exists head, w, r2.
    unfold Re.space, Re.one_of, Re.digits in D. header_groups_shape D.
    split; [reflexivity|].
    repeat (split; [assumption|]); assumption. }
  destruct (Re.py_match pattern_bracket_format line) as [[c3 r3]|] eqn:E3;
    [|discriminate].
  intros [= <-].
  apply (pattern_sender
           [ Re.Chr (ch "["); Re.Grp (date_re "." 4 4); Re.Chr (ch ",");
             Re.space;
             Re.Grp (Re.seq [Re.digits 1 2; Re.Chr (ch ":"); Re.digits 2 2;
                             Re.Chr (ch ":"); Re.digits 2 2]);
             Re.Chr (ch "]"); Re.space ]) in E3.
  destruct E3 as (head & g & u & w & m & D & -> & -> & K1 & K2 & K3 & K4 & K5).
  exists head, w, r3.
    unfold Re.space, Re.one_of, Re.digits in D. header_groups_shape D.
    split; [reflexivity|].
    repeat (split; [assumption|]); assumption.
Qed.

Lemma sender_ends_at_first_colon_witness :
  let line := lit "1/1/23, 10:00 - Eve: note: bring: cake" in
  exists caps head w rest,
    header_groups line = Some caps
    /\ Re.group 3 caps = lit "Eve"
    /\ Re.group 4 caps = lit "note: bring: cake"
    /\ line = head ++ Re.group 3 caps ++ ch ":" :: w :: Re.group 4 caps ++ rest
    /\ is_space w = true.
Proof.
  intros line.
  let v := eval vm_compute in (header_groups line) in
  match v with
  | Some ?caps =>
      destruct (sender_ends_at_first_colon line caps
                  ltac:(vm_compute; reflexivity))
        as (head & w & rest & E & Hw & _);
      exists caps, head, w, rest;
      split; [vm_compute; reflexivity|];
      split; [reflexivity|];
      split; [reflexivity|];
      split; [exact E | exact Hw]
  end.
Defined.

(* ===================================================================== *)
(** ** A year of three digits *)
(* ===================================================================== *)

(** Under each of the five formats a date ends with a separator and a
    year of two or of four digits. *)
Lemma format_year (f : Pandas.date_format) (d : str) (caps : list str) :
  Re.denotes (Pandas.format_regex f) d caps ->
  exists pre sep z,
    d = pre ++ sep :: z
    /\ (sep = ch "/" \/ sep = ch ".")
    /\ forallb is_decimal z = true
    /\ (length z = 2 \/ length z = 4).
Proof.
  destruct f; unfold Pandas.format_regex, Strptime.re_Y, Strptime.re_y,
                Re.digit, Re.seq;
    cbn [Re.denotes fold_right]; intros D; break_match_facts;
    match goal with
    | |- exists pre sep z, ?x ++ [?s] ++ ?y ++ [?s] ++ ?zz ++ [] = _ /\ _ =>
        exists (x ++ [s] ++ y), s; eexists;
        split; [rewrite app_nil_r, <- !app_assoc; cbn [app]; reflexivity|]
    end;
    cbn [forallb length];
    repeat match goal with H : is_decimal _ = true |- _ => rewrite H; clear H end;
    (split; [tauto|]); (split; [reflexivity|]); tauto.
Qed.

Lemma strptime_three_digit_year (f : Pandas.date_format) (d a b c : str) :
  parsed_date (ch "/") d a b c ->
  length c = 3 ->
  Pandas.strptime_date f d = Raise ValueError.
Proof.
  intros (-> & _ & _ & _ & Dc) Hc. unfold Pandas.strptime_date.
  destruct (Strptime.full_match _ _) as [caps|] eqn:E; [exfalso|reflexivity].
  apply full_match_sound, format_year in E.
  destruct E as (pre & sep & z & E & Hsep & Hz & Hl).
  destruct c as [|c1 [|c2 [|c3 [|]]]]; try discriminate.
  cbn [forallb] in Dc. apply andb_true_iff in Dc. destruct Dc as [D1 _].
  apply (f_equal (@rev _)) in E.
  rewrite !rev_app_distr in E. cbn [rev app] in E.
  rewrite <- ?app_assoc in E. cbn [app] in E.
  destruct Hl as [Hl|Hl].
  - destruct z as [|z1 [|z2 [|]]]; try discriminate.
    cbn [rev app] in E. rewrite <- ?app_assoc in E. cbn [app] in E.
    injection E as _ _ E1 _. subst c1.
    destruct Hsep as [-> | ->]; vm_compute in D1; discriminate.
  - destruct z as [|z1 [|z2 [|z3 [|z4 [|]]]]]; try discriminate.
    cbn [rev app] in E. rewrite <- ?app_assoc in E. cbn [app] in E.
    injection E as _ _ _ E1 _. subst z1.
    cbn [forallb] in Hz. apply andb_true_iff in Hz. destruct Hz as [Hz _].
    vm_compute in Hz. discriminate.
Qed.

Lemma slash_date_not_null (d a b c : str) :
  parsed_date (ch "/") d a b c -> Pandas.is_null_string d = false.
Proof.
  intros (-> & Ha & _).
  destruct (Pandas.is_null_string _) eqn:E; [exfalso|reflexivity].
  unfold Pandas.is_null_string in E.
  destruct (a ++ [ch "/"] ++ b ++ [ch "/"] ++ c) as [|x s] eqn:Ed.
  - destruct a; [congruence | discriminate].
  - apply existsb_exists in E. destruct E as (n & Hn & En).
    apply str_eqb_eq in En. rewrite <- En in Hn.
    assert (Hin : In (ch "/") (x :: s)).
    { rewrite <- Ed. apply in_or_app. right. now left. }
    unfold Pandas.nat_strings in Hn. cbn [map In] in Hn.
    repeat (destruct Hn as [Hn|Hn];
            [rewrite <- Hn in Hin; vm_compute in Hin; intuition discriminate|]).
    destruct Hn.
Qed.

Section ThreeDigits.
Context {L : Libs}.

(** X18. A year of three digits, which the header patterns accept, fits
    none of the five formats: one such date in the column makes the
    conversion under the chosen format raise, whatever that format is,
    and every date of the column is then converted by the lenient
    fallback. *)
Theorem three_digit_year_lenient (f : Pandas.date_format) (col : list str)
        (d a b c : str) :
  In d col ->
  parsed_date (ch "/") d a b c ->
  length c = 3 ->
  (exists e, Pandas.to_datetime_format f col = Raise e)
  /\ dates_under (Some f) col = Pandas.to_datetime_coerce true col.
Proof.
  intros Hin Hd Hc.
  assert (Hr : exists e, Pandas.to_datetime_format f col = Raise e).
  { unfold Pandas.to_datetime_format.
    apply (map_exc_raises _ col d ValueError Hin).
    rewrite (slash_date_not_null d a b c Hd).
    now rewrite (strptime_three_digit_year f d a b c Hd Hc). }
  split; [exact Hr|]. destruct Hr as [e Hr].
  unfold dates_under. now rewrite Hr.
Qed.
End ThreeDigits.

Lemma three_digit_year_lenient_witness :
  let d := lit "1/2/202" in
  option_map (Re.group 1) (header_groups (lit "1/2/202, 10:00 - A: hi"))
  = Some d
  /\ parsed_date (ch "/") d (lit "1") (lit "2") (lit "202")
  /\ dates_under (L := sample_libs) (Some Pandas.Fmt_m_d_y) [d]
     = Pandas.to_datetime_coerce (L := sample_libs) true [d].
Proof.
  intros d. split; [vm_compute; reflexivity|].
  assert (P : parsed_date (ch "/") d (lit "1") (lit "2") (lit "202")).
  { unfold parsed_date. repeat split. discriminate. }
  split; [exact P|].
  apply (three_digit_year_lenient (L := sample_libs) Pandas.Fmt_m_d_y [d] d
           (lit "1") (lit "2") (lit "202")).
  - now left.
  - exact P.
  - reflexivity.
Defined.

(* ===================================================================== *)
(** ** Counting: [Counter] and [most_common] *)
(* ===================================================================== *)

Import Analytics.

Lemma str_eqb_refl (a : str) : str_eqb a a = true.
Proof. now apply str_eqb_eq. Qed.

Lemma str_eqb_neq (a b : str) : str_eqb a b = false <-> a <> b.
Proof.
  split.
  - intros H E. apply str_eqb_eq in E. congruence.
  - intros H. destruct (str_eqb a b) eqn:E; [|reflexivity].
    apply str_eqb_eq in E. contradiction.
Qed.

Lemma occurrences_snoc (y x : str) (l : list str) :
  occurrences y (l ++ [x])
  = occurrences y l + (if str_eqb y x then 1 else 0).
Proof.
  unfold occurrences. rewrite filter_app, length_app. cbn [filter].
  now destruct (str_eqb y x).
Qed.

Lemma occurrences_in (y : str) (l : list str) :
  1 <= occurrences y l <-> In y l.
Proof.
  unfold occurrences. induction l as [|x l IH]; cbn [filter In].
  - cbn. split; [lia | contradiction].
  - destruct (str_eqb y x) eqn:E.
    + apply str_eqb_eq in E. subst. cbn. split; [now left | lia].
    + apply str_eqb_neq in E. rewrite IH. split; [now right|].
      intros [K|K]; [congruence | exact K].
Qed.

(** The keys of a counter and what adding an element does to them. *)
Lemma counter_add_keys (x : str) (c : list (str * nat)) :
  map fst (counter_add x c)
  = if existsb (str_eqb x) (map fst c) then map fst c else map fst c ++ [x].
Proof.
  induction c as [|[y n] c IH]; cbn [counter_add map fst existsb].
  - reflexivity.
  - destruct (str_eqb x y) eqn:E; cbn [map fst orb].
    + reflexivity.
    + rewrite IH. now destruct (existsb (str_eqb x) (map fst c)).
Qed.

Lemma counter_add_in (x : str) (c : list (str * nat)) (y : str) (n : nat) :
  NoDup (map fst c) ->
  In (y, n) (counter_add x c) ->
  (y <> x /\ In (y, n) c)
  \/ (y = x /\ ((exists m, In (x, m) c /\ n = S m)
                \/ (~ In x (map fst c) /\ n = 1))).
Proof.
  induction c as [|[z k] c IH]; cbn [counter_add map fst]; intros Hnd Hin.
  - destruct Hin as [[= <- <-]|[]]. right. split; [reflexivity|]. right.
    split; [intros []|reflexivity].
  - inversion Hnd as [|? ? Hz Hnd']; subst.
    destruct (str_eqb x z) eqn:E.
    + apply str_eqb_eq in E. subst z.
      destruct Hin as [[= <- <-]|Hin].
      * right. split; [reflexivity|]. left. exists k. split; [now left|reflexivity].
      * left. split; [|now right]. intros ->. apply Hz.
        apply in_map_iff. now exists (x, n).
    + apply str_eqb_neq in E.
      destruct Hin as [[= <- <-]|Hin].
      * left. split; [congruence | now left].
      * destruct (IH Hnd' Hin) as [(Hne & H)|(-> & [(m & H & ->)|(H & ->)])].
        -- left. split; [exact Hne | now right].
        -- right. split; [reflexivity|]. left. exists m. split; [now right|reflexivity].
        -- right. split; [reflexivity|]. right. split; [|reflexivity].
           cbn [In]. intros [K|K]; [congruence | contradiction].
Qed.

Lemma counter_add_total (x : str) (c : list (str * nat)) :
  total_count (counter_add x c) = S (total_count c).
Proof.
  induction c as [|[y n] c IH]; cbn [counter_add total_count fold_right snd].
  - reflexivity.
  - destruct (str_eqb x y); cbn [total_count fold_right snd].
    + reflexivity.
    + fold (total_count (counter_add x c)). fold (total_count c).
      rewrite IH. lia.
Qed.

Lemma existsb_str_in (x : str) (l : list str) :
  existsb (str_eqb x) l = true <-> In x l.
Proof.
  rewrite existsb_exists. split.
  - intros (y & Hy & E). apply str_eqb_eq in E. now subst.
  - intros H. exists x. split; [exact H | apply str_eqb_refl].
Qed.

(** Counting one more element keeps the counter right. *)
Lemma counts_add (x : str) (c : list (str * nat)) (l : list str) :
  counts c l -> counts (counter_add x c) (l ++ [x]).
Proof.
  intros (Hnd & Hin & Hall & Htot). unfold counts.
  assert (Hkeys := counter_add_keys x c).
  split; [|split; [|split]].
  - rewrite Hkeys. destruct (existsb (str_eqb x) (map fst c)) eqn:E.
    + exact Hnd.
    + apply NoDup_app; [exact Hnd | constructor; [intros []|constructor] |].
      intros y Hy [<-|[]].
      apply existsb_str_in in Hy. congruence.
  - intros y n Hy. rewrite occurrences_snoc.
    destruct (counter_add_in x c y n Hnd Hy)
      as [(Hne & H)|(-> & [(m & H & ->)|(H & ->)])].
    + destruct (Hin y n H) as (-> & Hge).
      apply str_eqb_neq in Hne. rewrite Hne. lia.
    + destruct (Hin x m H) as (-> & Hge). rewrite str_eqb_refl. lia.
    + rewrite str_eqb_refl.
      assert (occurrences x l = 0).
      { destruct (occurrences x l) eqn:E; [reflexivity|].
        exfalso. apply H, Hall, occurrences_in. lia. }
      lia.
  - intros y Hy. rewrite Hkeys. apply in_app_or in Hy.
    destruct (existsb (str_eqb x) (map fst c)) eqn:E.
    + destruct Hy as [Hy|[<-|[]]]; [now apply Hall|].
      now apply existsb_str_in.
    + apply in_or_app. destruct Hy as [Hy|[<-|[]]].
      * left. now apply Hall.
      * right. now left.
  - rewrite counter_add_total, Htot, length_app. cbn. lia.
Qed.

Lemma Counter_counts_from (l2 : list str) :
  forall (c : list (str * nat)) (l1 : list str),
    counts c l1 ->
    counts (fold_left (fun c x => counter_add x c) l2 c) (l1 ++ l2).
Proof.
  induction l2 as [|x l2 IH]; intros c l1 H; cbn [fold_left].
  - now rewrite app_nil_r.
  - replace (l1 ++ x :: l2) with ((l1 ++ [x]) ++ l2)
      by (rewrite <- app_assoc; reflexivity).
    apply IH. now apply counts_add.
Qed.

Lemma Counter_counts (l : list str) : counts (Counter l) l.
Proof.
  unfold Counter. change l with ([] ++ l) at 2.
  apply Counter_counts_from. unfold counts. cbn.
  split; [constructor|]. split; [intros ? ? []|]. split; [intros ? []|reflexivity].
Qed.

(** Sorting by count permutes the rows and puts the larger counts
    first. *)
Lemma insert_by_count_perm (x : str * nat) (l : list (str * nat)) :
  Permutation (x :: l) (insert_by_count x l).
Proof.
  induction l as [|y l IH]; cbn [insert_by_count].
  - apply Permutation_refl.
  - destruct (Nat.leb (snd y) (snd x)).
    + apply Permutation_refl.
    + eapply Permutation_trans; [apply perm_swap|].
      now apply perm_skip.
Qed.

Lemma sorted_by_count_perm (l : list (str * nat)) :
  Permutation l (sorted_by_count l).
Proof.
  induction l as [|x l IH]; cbn [sorted_by_count fold_right].
  - apply Permutation_refl.
  - fold (sorted_by_count l).
    eapply Permutation_trans; [|apply insert_by_count_perm].
    now apply perm_skip.
Qed.

Lemma insert_by_count_descending (x : str * nat) (l : list (str * nat)) :
  descending l -> descending (insert_by_count x l).
Proof.
  induction l as [|y l IH]; cbn [insert_by_count]; intros H.
  - cbn. auto.
  - destruct (Nat.leb (snd y) (snd x)) eqn:E.
    + apply Nat.leb_le in E. cbn [descending]. split; [exact E|exact H].
    + apply Nat.leb_gt in E. destruct H as (H1 & H2).
      specialize (IH H2). cbn [descending]. split; [|exact IH].
      destruct l as [|z l]; cbn [insert_by_count].
      * lia.
      * destruct (Nat.leb (snd z) (snd x)); [lia | exact H1].
Qed.

Lemma sorted_by_count_descending (l : list (str * nat)) :
  descending (sorted_by_count l).
Proof.
  induction l as [|x l IH]; cbn [sorted_by_count fold_right].
  - exact I.
  - apply insert_by_count_descending. exact IH.
Qed.

Lemma descending_firstn (n : nat) :
  forall l : list (str * nat), descending l -> descending (firstn n l).
Proof.
  induction n as [|n IH]; intros l H; [exact I|].
  destruct l as [|x l]; [exact I|].
  destruct H as (H1 & H2). cbn [firstn descending]. split; [|now apply IH].
  destruct l as [|y l]; [destruct n; exact I|].
  destruct n; [exact I | exact H1].
Qed.

Lemma total_count_perm (l l' : list (str * nat)) :
  Permutation l l' -> total_count l = total_count l'.
Proof.
  unfold total_count. induction 1; cbn [fold_right] in *; lia.
Qed.

Lemma NoDup_firstn {A : Type} (n : nat) :
  forall l : list A, NoDup l -> NoDup (firstn n l).
Proof.
  induction n as [|n IH]; intros l H; [constructor|].
  destruct l as [|x l]; [constructor|].
  inversion H as [|? ? Hx Hl]; subst. cbn [firstn]. constructor.
  - intros K. apply Hx. eapply firstn_in. exact K.
  - now apply IH.
Qed.

(** Leaving out the rows without emojis does not change the list of all
    emojis. *)
Lemma all_emojis_concat (col : list (list str)) :
  all_emojis col = concat col.
Proof.
  unfold all_emojis. induction col as [|e col IH]; [reflexivity|].
  cbn [filter concat]. destruct e as [|x e]; cbn [length Nat.eqb negb].
  - exact IH.
  - cbn [concat]. now rewrite IH.
Qed.

Lemma most_common_all (n : nat) (c : list (str * nat)) :
  length c <= n -> most_common n c = sorted_by_count c.
Proof.
  intros H. unfold most_common. apply firstn_all2.
  now rewrite <- (Permutation_length (sorted_by_count_perm c)).
Qed.

(** What [most_common] returns of the counter of a list. *)
Lemma most_common_rows (top_n : nat) (l : list str) :
  let rows := most_common top_n (Counter l) in
  length rows <= top_n
  /\ NoDup (map fst rows)
  /\ descending rows
  /\ (forall emoji n, In (emoji, n) rows ->
        n = occurrences emoji l /\ 1 <= n)
  /\ (length (Counter l) <= top_n ->
      total_count rows = length l
      /\ forall emoji, In emoji l -> In emoji (map fst rows)).
Proof.
  destruct (Counter_counts l) as (Hnd & Hin & Hall & Htot).
  assert (Hp := sorted_by_count_perm (Counter l)).
  cbv zeta. split; [|split; [|split; [|split]]].
  - unfold most_common. apply firstn_le_length.
  - unfold most_common. rewrite <- firstn_map. apply NoDup_firstn.
    eapply Permutation_NoDup; [|exact Hnd]. now apply Permutation_map.
  - apply descending_firstn, sorted_by_count_descending.
  - intros emoji n H. apply Hin.
    eapply Permutation_in; [apply Permutation_sym; exact Hp|].
    unfold most_common in H. eapply firstn_in. exact H.
  - intros Hle. rewrite (most_common_all _ _ Hle). split.
    + now rewrite <- (total_count_perm _ _ Hp).
    + intros emoji He.
      eapply Permutation_in; [apply Permutation_map; exact Hp|].
      now apply Hall.
Qed.

(** X12. The table of [get_emoji_analysis]: at most [top_n] rows, no
    emoji twice, the frequencies in descending order, and each frequency
    the number of occurrences of the emoji in the [emojis] column of the
    table (never zero); when the chat has no more than [top_n] different
    emojis, every emoji of the chat has its row and the frequencies add
    up to the number of emojis of the chat. *)
Theorem emoji_analysis_rows (top_n : nat) (df : DataFrame) (d : Derived)
        (rows : list (str * nat)) :
  derived df = Some d ->
  get_emoji_analysis top_n df = Done (Some rows) ->
  length rows <= top_n
  /\ NoDup (map fst rows)
  /\ descending rows
  /\ (forall emoji n, In (emoji, n) rows ->
        n = occurrences emoji (concat (emojis d)) /\ 1 <= n)
  /\ (length (Counter (concat (emojis d))) <= top_n ->
      total_count rows = length (concat (emojis d))
      /\ forall emoji, In emoji (concat (emojis d)) -> In emoji (map fst rows)).
Proof.
  intros Hd H. unfold get_emoji_analysis in H. rewrite Hd in H.
  destruct (empty df); [discriminate|].
  destruct (Z.eqb (col_sum (emoji_count d)) 0); [discriminate|].
  destruct (all_emojis (emojis d)) as [|emoji others] eqn:E; [discriminate|].
  injection H as <-. rewrite <- E, all_emojis_concat.
  apply most_common_rows.
Qed.

Lemma emoji_analysis_rows_witness :
  let data := lit "1/1/23, 10:00 - Eve: hi " ++ [128513; 128512; 128513]%N in
  exists df d,
    analyze_chat (L := sample_libs) data = Ok df
    /\ derived df = Some d
    /\ get_emoji_analysis 20 df
       = Done (Some [([128513%N], 2); ([128512%N], 1)])
    /\ forall emoji n,
        In (emoji, n) [([128513%N], 2); ([128512%N], 1)] ->
        n = occurrences emoji (concat (emojis d)) /\ 1 <= n.
Proof.
  intros data.
  let v := eval vm_compute in (analyze_chat (L := sample_libs) data) in
  match v with
  | Ok ?df =>
      let dv := eval vm_compute in (derived df) in
      match dv with
      | Some ?d =>
          exists df, d;
          split; [vm_compute; reflexivity|];
          split; [reflexivity|];
          split; [vm_compute; reflexivity|];
          exact (proj1 (proj2 (proj2 (proj2
                   (emoji_analysis_rows 20 df d _ eq_refl
                      ltac:(vm_compute; reflexivity))))))
      end
  end.
Defined.

Lemma col_sum_from (col : list Z) :
  forall a : Z, fold_left Z.add col a = (a + col_sum col)%Z.
Proof.
  unfold col_sum. induction col as [|x col IH]; intros a; cbn [fold_left].
  - lia.
  - rewrite (IH (a + x)%Z), (IH (0 + x)%Z). lia.
Qed.

Lemma col_sum_cons (x : Z) (col : list Z) :
  col_sum (x :: col) = (x + col_sum col)%Z.
Proof. unfold col_sum at 1. cbn [fold_left]. now rewrite col_sum_from. Qed.

Lemma col_sum_lengths {A : Type} (col : list (list A)) :
  col_sum (map (fun e => Z.of_nat (length e)) col)
  = Z.of_nat (length (concat col)).
Proof.
  induction col as [|e col IH]; [reflexivity|].
  cbn [map concat]. rewrite col_sum_cons, IH, length_app. lia.
Qed.

Lemma most_common_nonempty (n : nat) (x : str) (l : list str) :
  most_common (S n) (Counter (x :: l)) <> [].
Proof.
  destruct (Counter_counts (x :: l)) as (_ & _ & Hall & _).
  specialize (Hall x (or_introl eq_refl)).
  pose proof (sorted_by_count_perm (Counter (x :: l))) as Hp.
  unfold most_common.
  destruct (sorted_by_count (Counter (x :: l))) as [|r rs]; [|discriminate].
  apply Permutation_sym, Permutation_nil in Hp. rewrite Hp in Hall.
  destruct Hall.
Qed.

Section EmojiTable.
Context {L : Libs}.

Lemma no_emoji_iff (msgs : list str) :
  concat (map extract_emojis msgs) = []
  <-> forall m c, In m msgs -> In c m -> EMOJI_DATA [c] = false.
Proof.
  induction msgs as [|m msgs IH]; cbn [map concat].
  - split; [intros _ ? ? []|reflexivity].
  - split.
    + intros H. apply app_eq_nil in H. destruct H as (H1 & H2).
      intros m' c [<-|Hin] Hc.
      * unfold extract_emojis in H1. apply map_eq_nil in H1.
        destruct (EMOJI_DATA [c]) eqn:E; [|reflexivity].
        assert (K : In c (filter (fun c => EMOJI_DATA [c]) m))
          by (apply filter_In; now split).
        rewrite H1 in K. destruct K.
      * now apply (proj1 IH H2 m' c).
    + intros H.
      assert (H1 : extract_emojis m = []).
      { unfold extract_emojis.
        destruct (filter (fun c => EMOJI_DATA [c]) m) as [|c r] eqn:E;
          [reflexivity|].
        assert (K : In c (filter (fun c => EMOJI_DATA [c]) m))
          by (rewrite E; now left).
        apply filter_In in K. destruct K as (K1 & K2).
        rewrite (H m c (or_introl eq_refl) K1) in K2. discriminate. }
      rewrite H1. cbn [app]. apply IH.
      intros m' c Hin Hc. apply (H m' c); [now right | exact Hc].
Qed.

(** X13. On a table of the feature extractor [get_emoji_analysis] never
    raises, and it returns the frame without columns exactly when no
    character of any message is an emoji; otherwise the frame has rows
    as soon as [top_n] is not zero. *)
Theorem emoji_analysis_of_preprocess (top_n : nat) (df out : DataFrame) :
  preprocess df = Ok out ->
  exists r,
    get_emoji_analysis top_n out = Done r
    /\ (r = None <->
        forall m c, In m (message df) -> In c m -> EMOJI_DATA [c] = false)
    /\ (forall rows, r = Some rows -> 0 < top_n -> rows <> []).
Proof.
  intros Hp. unfold get_emoji_analysis. destruct (empty df) eqn:He.
  - unfold preprocess in Hp. rewrite He in Hp. injection Hp as <-.
    rewrite He. exists None. split; [reflexivity|]. split; [|discriminate].
    split; [|reflexivity]. intros _ m c Hm.
    unfold empty, len in He. apply Nat.eqb_eq, length_zero_iff_nil in He.
    rewrite He in Hm. destruct Hm.
  - destruct (preprocess_nonempty df out He Hp)
      as (dt & _ & _ & _ & _ & Em & d & Hd & _ & _ & _ & _ & _ & _ & _ & _
          & _ & _ & _ & _ & _ & E6 & E7).
    assert (Ho : empty out = false) by (unfold empty, len; now rewrite Em).
    rewrite Ho, Hd, E7, E6, col_sum_lengths, all_emojis_concat.
    destruct (concat (map extract_emojis (message df))) as [|x l] eqn:E.
    + cbn [length Z.of_nat Z.eqb]. exists None. split; [reflexivity|].
      split; [|discriminate]. split; [|reflexivity].
      intros _. now apply no_emoji_iff.
    + replace (Z.eqb (Z.of_nat (length (x :: l))) 0) with false
        by (symmetry; apply Z.eqb_neq; cbn [length]; lia).
      eexists. split; [reflexivity|]. split.
      * split; [discriminate|]. intros H. apply no_emoji_iff in H.
        unfold str in *. congruence.
      * intros rows [= <-] Hn. destruct top_n as [|n]; [lia|].
        apply most_common_nonempty.
Qed.
End EmojiTable.

Lemma emoji_analysis_of_preprocess_witness :
  let df := parse_chat (lit "1/1/23, 10:00 - Eve: hi " ++ [128513]%N) in
  exists out r,
    preprocess (L := sample_libs) df = Ok out
    /\ get_emoji_analysis 20 out = Done r
    /\ (r = None <->
        forall m c, In m (message df) -> In c m -> emoticon [c] = false).
Proof.
  intros df. eexists.
  edestruct (emoji_analysis_of_preprocess (L := sample_libs) 20 df _
               ltac:(vm_compute; reflexivity)) as (r & H1 & H2 & _).
  exists r. split; [reflexivity|]. split; [exact H1 | exact H2].
Defined.

(* ===================================================================== *)
(** ** The basic statistics *)
(* ===================================================================== *)

Lemma reduce_none (f : Calendar.Timestamp -> Calendar.Timestamp
                       -> Calendar.Timestamp) (col : list Pandas.cell) :
  forall acc,
    fold_left (fun acc c =>
                 match acc, c with
                 | Some a, Some t => Some (f a t)
                 | None, _ => c
                 | _, None => acc
                 end) col acc = None
    <-> acc = None /\ forall c, In c col -> c = None.
Proof.
  induction col as [|c col IH]; intros acc; cbn [fold_left In].
  - split; [intros ->; split; [reflexivity | intros ? []] | now intros (-> & _)].
  - rewrite IH. destruct acc as [a|], c as [t|]; split.
    + intros (K & _). discriminate.
    + intros (K & _). discriminate.
    + intros (K & _). discriminate.
    + intros (K & _). discriminate.
    + intros (K & _). discriminate.
    + intros (_ & K). now specialize (K (Some t) (or_introl eq_refl)).
    + intros (_ & K). split; [reflexivity|].
      intros c [<-|Hc]; [reflexivity | now apply K].
    + intros (_ & K). split; [reflexivity|]. intros c Hc. apply K. now right.
Qed.

Lemma col_max_from (col : list Pandas.cell) :
  forall acc hi,
    fold_left (fun acc c =>
                 match acc, c with
                 | Some a, Some t => Some (later a t)
                 | None, _ => c
                 | _, None => acc
                 end) col acc = Some hi ->
    (acc = Some hi \/ In (Some hi) col)
    /\ forall t, acc = Some t \/ In (Some t) col ->
                 (Calendar.epoch_seconds t <= Calendar.epoch_seconds hi)%Z.
Proof.
  induction col as [|c col IH]; intros acc hi; cbn [fold_left In].
  - intros ->. split; [now left|]. intros t [[= ->]|[]]. lia.
  - intros H. apply IH in H. destruct H as (H1 & H2).
    destruct acc as [a|], c as [t|].
    + split.
      * destruct H1 as [[= <-]|H1]; [|now right; right].
        unfold later. destruct (Z.ltb _ _); [right|]; now left.
      * assert (Ha : (Calendar.epoch_seconds a
                      <= Calendar.epoch_seconds (later a t))%Z)
          by (unfold later;
              destruct (Z.ltb_spec (Calendar.epoch_seconds a)
                                   (Calendar.epoch_seconds t)); lia).
        assert (Ht : (Calendar.epoch_seconds t
                      <= Calendar.epoch_seconds (later a t))%Z)
          by (unfold later;
              destruct (Z.ltb_spec (Calendar.epoch_seconds a)
                                   (Calendar.epoch_seconds t)); lia).
        pose proof (H2 (later a t) (or_introl eq_refl)) as K.
        intros t' [[= <-]|[[= <-]|Hin]]; [lia | lia |].
        apply H2. now right.
    + split.
      * destruct H1 as [H1|H1]; [now left | now right; right].
      * intros t' [K|[K|K]]; [apply H2; now left | discriminate |
                              apply H2; now right].
    + split.
      * destruct H1 as [H1|H1]; [right; now left | now right; right].
      * intros t' [K|[K|K]]; [discriminate | apply H2; now left |
                              apply H2; now right].
    + split.
      * destruct H1 as [H1|H1]; [discriminate | now right; right].
      * intros t' [K|[K|K]]; [discriminate | discriminate |
                              apply H2; now right].
Qed.

Lemma col_min_from (col : list Pandas.cell) :
  forall acc lo,
    fold_left (fun acc c =>
                 match acc, c with
                 | Some a, Some t => Some (earlier a t)
                 | None, _ => c
                 | _, None => acc
                 end) col acc = Some lo ->
    (acc = Some lo \/ In (Some lo) col)
    /\ forall t, acc = Some t \/ In (Some t) col ->
                 (Calendar.epoch_seconds lo <= Calendar.epoch_seconds t)%Z.
Proof.
  induction col as [|c col IH]; intros acc lo; cbn [fold_left In].
  - intros ->. split; [now left|]. intros t [[= ->]|[]]. lia.
  - intros H. apply IH in H. destruct H as (H1 & H2).
    destruct acc as [a|], c as [t|].
    + split.
      * destruct H1 as [[= <-]|H1]; [|now right; right].
        unfold earlier. destruct (Z.ltb _ _); [right|]; now left.
      * assert (Ha : (Calendar.epoch_seconds (earlier a t)
                      <= Calendar.epoch_seconds a)%Z)
          by (unfold earlier;
              destruct (Z.ltb_spec (Calendar.epoch_seconds t)
                                   (Calendar.epoch_seconds a)); lia).
        assert (Ht : (Calendar.epoch_seconds (earlier a t)
                      <= Calendar.epoch_seconds t)%Z)
          by (unfold earlier;
              destruct (Z.ltb_spec (Calendar.epoch_seconds t)
                                   (Calendar.epoch_seconds a)); lia).
        pose proof (H2 (earlier a t) (or_introl eq_refl)) as K.
        intros t' [[= <-]|[[= <-]|Hin]]; [lia | lia |].
        apply H2. now right.
    + split.
      * destruct H1 as [H1|H1]; [now left | now right; right].
      * intros t' [K|[K|K]]; [apply H2; now left | discriminate |
                              apply H2; now right].
    + split.
      * destruct H1 as [H1|H1]; [right; now left | now right; right].
      * intros t' [K|[K|K]]; [discriminate | apply H2; now left |
                              apply H2; now right].
    + split.
      * destruct H1 as [H1|H1]; [discriminate | now right; right].
      * intros t' [K|[K|K]]; [discriminate | discriminate |
                              apply H2; now right].
Qed.

Lemma col_max_spec (col : list Pandas.cell) (hi : Calendar.Timestamp) :
  col_max col = Some hi ->
  In (Some hi) col
  /\ forall t, In (Some t) col ->
               (Calendar.epoch_seconds t <= Calendar.epoch_seconds hi)%Z.
Proof.
  intros H. apply col_max_from in H. destruct H as ([H1|H1] & H2).
  - discriminate.
  - split; [exact H1|]. intros t Ht. apply H2. now right.
Qed.

Lemma col_min_spec (col : list Pandas.cell) (lo : Calendar.Timestamp) :
  col_min col = Some lo ->
  In (Some lo) col
  /\ forall t, In (Some t) col ->
               (Calendar.epoch_seconds lo <= Calendar.epoch_seconds t)%Z.
Proof.
  intros H. apply col_min_from in H. destruct H as ([H1|H1] & H2).
  - discriminate.
  - split; [exact H1|]. intros t Ht. apply H2. now right.
Qed.

Lemma col_extremes (col : list Pandas.cell) :
  (col_max col = None <-> forall c, In c col -> c = None)
  /\ (col_min col = None <-> forall c, In c col -> c = None).
Proof.
  unfold col_max, col_min, reduce. rewrite !reduce_none.
  split; (split; [now intros (_ & K) | now split]).
Qed.

(** The number of days the statistics divide by is never zero. *)
Lemma duration_positive (col : list Pandas.cell) (lo hi : Calendar.Timestamp) :
  col_max col = Some hi -> col_min col = Some lo ->
  (1 <= (Calendar.epoch_seconds hi - Calendar.epoch_seconds lo) / 86400 + 1)%Z.
Proof.
  intros Hhi Hlo.
  destruct (col_max_spec col hi Hhi) as (_ & H2).
  destruct (col_min_spec col lo Hlo) as (H1 & _).
  specialize (H2 lo H1).
  assert (0 <= (Calendar.epoch_seconds hi - Calendar.epoch_seconds lo) / 86400)%Z
    by (apply Z.div_pos; lia).
  lia.
Qed.

(** X14. [get_basic_stats] never divides by zero. When it returns the
    statistics of a table with rows, the first and the last date it
    reports are the earliest and the latest date of the [date] column,
    whatever the order of the rows, the duration is the number of whole
    days between them plus one, at least one day, and the average is the
    number of rows divided by that duration. *)
Theorem basic_stats_period (df : DataFrame) :
  get_basic_stats df <> Failed ZeroDivisionError
  /\ forall s,
      get_basic_stats df = Done s ->
      empty df = false ->
      exists col lo hi p,
        date df = DtCol col
        /\ period s = Some p
        /\ In (Some lo) col /\ In (Some hi) col
        /\ (forall t, In (Some t) col ->
              (Calendar.epoch_seconds lo <= Calendar.epoch_seconds t
               <= Calendar.epoch_seconds hi)%Z)
        /\ first_message_date p = Calendar.format_date lo
        /\ last_message_date p = Calendar.format_date hi
        /\ chat_duration_days p
           = ((Calendar.epoch_seconds hi - Calendar.epoch_seconds lo)
              / 86400 + 1)%Z
        /\ (1 <= chat_duration_days p)%Z
        /\ avg_messages_per_day p = (total_messages s, chat_duration_days p)
        /\ total_messages s = Z.of_nat (len df).
Proof.
  unfold get_basic_stats. destruct (empty df) eqn:He.
  - split; [discriminate|]. intros s _ K. discriminate.
  - destruct (derived df) as [d|]; [|split; [discriminate | intros; discriminate]].
    destruct (date df) as [col|col];
      [split; [discriminate | intros; discriminate]|].
    destruct (col_max col) as [hi|] eqn:Hhi;
      [|split; [discriminate | intros; discriminate]].
    destruct (col_min col) as [lo|] eqn:Hlo;
      [|split; [discriminate | intros; discriminate]].
    pose proof (duration_positive col lo hi Hhi Hlo) as Hd.
    cbv zeta.
    destruct (Z.eqb_spec
                ((Calendar.epoch_seconds hi - Calendar.epoch_seconds lo)
                 / 86400 + 1) 0) as [E|E]; [lia|].
    split; [discriminate|]. intros s [= <-] _.
    destruct (col_max_spec col hi Hhi) as (M1 & M2).
    destruct (col_min_spec col lo Hlo) as (N1 & N2).
    exists col, lo, hi. eexists. split; [reflexivity|].
    split; [reflexivity|]. split; [exact N1|]. split; [exact M1|].
    split; [intros t Ht; split; [now apply N2 | now apply M2]|].
    cbn. repeat split. exact Hd.
Qed.

Lemma col_sum_bounds (col : list Z) (lo hi : Z) :
  Forall (fun x => lo <= x <= hi)%Z col ->
  (lo * Z.of_nat (length col) <= col_sum col <= hi * Z.of_nat (length col))%Z.
Proof.
  induction 1 as [|x col Hx _ IH].
  - unfold col_sum. cbn. lia.
  - rewrite col_sum_cons. cbn [length]. lia.
Qed.

Lemma col_sum_nonneg (col : list Z) :
  Forall (fun x => 0 <= x)%Z col -> (0 <= col_sum col)%Z.
Proof.
  induction 1 as [|x col Hx _ IH].
  - unfold col_sum. cbn. lia.
  - rewrite col_sum_cons. lia.
Qed.

Section StatsOfTable.
Context {L : Libs}.

(** X15. On a table with rows that the feature extractor returns,
    [get_basic_stats] raises exactly when no date of the table could be
    converted. Otherwise it returns: the number of messages is the
    number of rows of the input, the media count lies between zero
    and the number of messages, the emoji count is the number of emoji
    characters of all messages, and it is zero exactly when
    [get_emoji_analysis] returns the frame without columns. *)
Theorem basic_stats_of_preprocess (df out : DataFrame) :
  empty df = false ->
  preprocess df = Ok out ->
  ((forall c, In c (convert_dates df) -> c = None) ->
   exists e, get_basic_stats out = Failed e)
  /\ ((exists t, In (Some t) (convert_dates df)) ->
      exists s,
        get_basic_stats out = Done s
        /\ total_messages s = Z.of_nat (len df)
        /\ (0 <= media_shared s <= total_messages s)%Z
        /\ (0 <= total_words s)%Z /\ (0 <= links_shared s)%Z
        /\ total_emojis s
           = Z.of_nat (length (concat (map extract_emojis (message df))))
        /\ forall top_n,
            total_emojis s = 0%Z
            <-> get_emoji_analysis top_n out = Done None).
Proof.
  intros He Hp.
  destruct (preprocess_nonempty df out He Hp)
    as (dt & _ & Ed & _ & _ & Em & d & Hd & _ & _ & _ & _ & _ & _ & _ & _
        & _ & E2 & E3 & _ & E5 & E6 & E7).
  assert (Ho : empty out = false) by (unfold empty, len; now rewrite Em).
  assert (Hl : len out = len df) by (unfold len; now rewrite Em).
  destruct (col_extremes (convert_dates df)) as (Xmax & Xmin).
  unfold get_basic_stats. rewrite Ho, Hd, Ed. split.
  - intros Hall. apply Xmax in Hall. unfold Pandas.cell in *.
    rewrite Hall. now eexists.
  - intros (t & Ht).
    destruct (col_max (convert_dates df)) as [hi|] eqn:Hhi.
    2:{ specialize (proj1 Xmax eq_refl (Some t) Ht). discriminate. }
    destruct (col_min (convert_dates df)) as [lo|] eqn:Hlo.
    2:{ specialize (proj1 Xmin eq_refl (Some t) Ht). discriminate. }
    pose proof (duration_positive _ lo hi Hhi Hlo) as Hpos.
    cbv zeta.
    destruct (Z.eqb_spec
                ((Calendar.epoch_seconds hi - Calendar.epoch_seconds lo)
                 / 86400 + 1) 0) as [E|E]; [lia|].
    eexists. split; [reflexivity|].
    cbn [total_messages media_shared total_words links_shared total_emojis].
    rewrite Hl. split; [reflexivity|].
    assert (Hmedia : (0 <= col_sum (has_media d) <= Z.of_nat (len df))%Z).
    { rewrite E3.
      pose proof (col_sum_bounds
                    (map (fun x => contains_media (str_lower x)) (message df))
                    0 1) as K.
      rewrite length_map in K. fold (len df) in K.
      assert (F : Forall (fun x => (0 <= x <= 1)%Z)
                         (map (fun x => contains_media (str_lower x))
                              (message df))).
      { apply Forall_forall. intros x Hx. apply in_map_iff in Hx.
        destruct Hx as (m & <- & _). unfold contains_media.
        destruct (existsb _ _); lia. }
      specialize (K F). lia. }
    split; [exact Hmedia|].
    split.
    { rewrite E2. apply col_sum_nonneg, Forall_forall. intros x Hx.
      apply in_map_iff in Hx. destruct Hx as (m & <- & _). lia. }
    split.
    { rewrite E5. apply col_sum_nonneg, Forall_forall. intros x Hx.
      apply in_map_iff in Hx. destruct Hx as (m & <- & _). lia. }
    assert (Hem : col_sum (emoji_count d)
                  = Z.of_nat (length (concat (map extract_emojis (message df)))))
      by (rewrite E7; apply col_sum_lengths).
    split; [exact Hem|].
    intros top_n. unfold get_emoji_analysis. rewrite Ho, Hd.
    destruct (Z.eqb_spec (col_sum (emoji_count d)) 0) as [Z0|Z0].
    + split; [reflexivity | intros _; exact Z0].
    + split; [intros K; contradiction|].
      rewrite all_emojis_concat, E6.
      destruct (concat (map extract_emojis (message df))) eqn:C.
      * cbn in Hem. contradiction.
      * discriminate.
Qed.
End StatsOfTable.

Lemma basic_stats_period_witness :
  let data := lit "3/1/23, 10:00 - Eve: hi" ++ [nl]
              ++ lit "1/1/23, 09:00 - Bob: yo" in
  exists df s p,
    analyze_chat (L := sample_libs) data = Ok df
    /\ get_basic_stats df = Done s
    /\ empty df = false
    /\ period s = Some p
    /\ first_message_date p = lit "2023-01-01"
    /\ last_message_date p = lit "2023-03-01"
    /\ chat_duration_days p = 60%Z
    /\ avg_messages_per_day p = (2%Z, 60%Z).
Proof.
  intros data.
  let v := eval vm_compute in (analyze_chat (L := sample_libs) data) in
  match v with
  | Ok ?df =>
      let sv := eval vm_compute in (get_basic_stats df) in
      match sv with
      | Done ?s =>
          destruct (proj2 (basic_stats_period df) s
                      ltac:(vm_compute; reflexivity) eq_refl)
            as (col & lo & hi & p & _ & Hp & _);
          exists df, s, p;
          split; [vm_compute; reflexivity|];
          split; [vm_compute; reflexivity|];
          split; [reflexivity|];
          split; [exact Hp|];
          cbn in Hp; injection Hp as <-; vm_compute; repeat split
      end
  end.
Defined.

Lemma basic_stats_of_preprocess_witness :
  let df := parse_chat (lit "3/1/23, 10:00 - Eve: image omitted" ++ [nl]
                        ++ lit "1/1/23, 09:00 - Bob: yo") in
  let undated := parse_chat (lit "99/99/99, 10:00 - Alice: Hello") in
  (exists out s,
     empty df = false
     /\ preprocess (L := sample_libs) df = Ok out
     /\ (exists t, In (Some t) (convert_dates (L := sample_libs) df))
     /\ get_basic_stats out = Done s
     /\ total_messages s = 2%Z
     /\ (0 <= media_shared s <= total_messages s)%Z)
  /\ (exists out e,
        empty undated = false
        /\ preprocess (L := sample_libs_pandas3) undated = Ok out
        /\ convert_dates (L := sample_libs_pandas3) undated = [None]
        /\ get_basic_stats out = Failed e).
Proof.
  intros df undated. split.
  - let v := eval vm_compute in (preprocess (L := sample_libs) df) in
    match v with
    | Ok ?out =>
        exists out;
        assert (Hd : exists t, In (Some t) (convert_dates (L := sample_libs) df))
          by (vm_compute; eexists; left; reflexivity);
        destruct (proj2 (basic_stats_of_preprocess (L := sample_libs) df out
                           eq_refl ltac:(vm_compute; reflexivity)) Hd)
          as (s & H1 & H2 & H3 & _);
        exists s;
        split; [reflexivity|];
        split; [vm_compute; reflexivity|];
        split; [exact Hd|];
        split; [exact H1|];
        split; [rewrite H2; vm_compute; reflexivity | exact H3]
    end.
  - let v := eval vm_compute in (preprocess (L := sample_libs_pandas3) undated) in
    match v with
    | Ok ?out =>
        exists out;
        destruct (proj1 (basic_stats_of_preprocess (L := sample_libs_pandas3)
                           undated out
                           eq_refl ltac:(vm_compute; reflexivity))
                        ltac:(intros c Hc; vm_compute in Hc;
                              destruct Hc as [<-|[]]; reflexivity))
          as (e & H1);
        exists e;
        split; [reflexivity|];
        split; [vm_compute; reflexivity|];
        split; [vm_compute; reflexivity | exact H1]
    end.
Defined.

(* ===================================================================== *)
(** ** The conversation of a date *)
(* ===================================================================== *)

Lemma select_nil_r {A : Type} (mask : list bool) : select mask (@nil A) = [].
Proof. unfold select. now destruct mask. Qed.

Lemma select_cons {A : Type} (b : bool) (mask : list bool) (x : A)
      (col : list A) :
  select (b :: mask) (x :: col)
  = if b then x :: select mask col else select mask col.
Proof. unfold select. cbn [combine filter fst]. now destruct b. Qed.

Lemma select_map {A : Type} (f : A -> bool) (col : list A) :
  select (map f col) col = filter f col.
Proof.
  induction col as [|x col IH]; [reflexivity|].
  cbn [map filter]. rewrite select_cons, IH. reflexivity.
Qed.

Lemma select_length_le {A : Type} (mask : list bool) :
  forall col : list A,
    length (select mask col) <= length (filter (fun b => b) mask).
Proof.
  induction mask as [|b mask IH]; intros [|x col].
  - cbn. lia.
  - cbn. lia.
  - rewrite select_nil_r. cbn. lia.
  - rewrite select_cons. cbn [filter]. specialize (IH col).
    destruct b; cbn [length]; lia.
Qed.

Lemma select_length {A : Type} (mask : list bool) :
  forall col : list A,
    length col = length mask ->
    length (select mask col) = length (filter (fun b => b) mask).
Proof.
  induction mask as [|b mask IH]; intros [|x col] H; try discriminate.
  - reflexivity.
  - rewrite select_cons. cbn [filter]. injection H as H.
    specialize (IH col H). destruct b; cbn [length]; lia.
Qed.

Lemma select_all {A : Type} (mask : list bool) :
  forall col : list A,
    Forall (fun b => b = true) mask ->
    length col <= length mask ->
    select mask col = col.
Proof.
  induction mask as [|b mask IH]; intros [|x col] Ht Hl.
  - reflexivity.
  - cbn in Hl. lia.
  - apply select_nil_r.
  - inversion Ht as [|? ? Hb Hm]; subst. rewrite select_cons.
    rewrite (IH col Hm); [reflexivity | cbn in Hl; lia].
Qed.

Lemma select_in {A : Type} (mask : list bool) :
  forall (col : list A) (x : A),
    In x (select mask col)
    <-> exists i, nth_error mask i = Some true /\ nth_error col i = Some x.
Proof.
  induction mask as [|b mask IH]; intros [|y col] x.
  - cbn. split; [intros [] | intros ([|i] & K & _); discriminate].
  - cbn. split; [intros [] | intros ([|i] & K & _); discriminate].
  - rewrite select_nil_r. cbn.
    split; [intros [] | intros ([|i] & _ & K); discriminate].
  - rewrite select_cons. destruct b.
    + cbn [In]. rewrite IH. split.
      * intros [<-|(i & H1 & H2)]; [exists 0; now split|].
        exists (S i). now split.
      * intros ([|i] & H1 & H2).
        -- left. cbn in H2. congruence.
        -- right. exists i. now split.
    + rewrite IH. split.
      * intros (i & H1 & H2). exists (S i). now split.
      * intros ([|i] & H1 & H2); [discriminate|]. exists i. now split.
Qed.

Lemma filter_mask_length {A : Type} (f : A -> bool) (col : list A) :
  length (filter (fun b => b) (map f col)) = length (filter f col).
Proof.
  induction col as [|x col IH]; [reflexivity|].
  cbn [map filter]. destruct (f x); cbn [length]; now rewrite IH.
Qed.

(** Selecting again with the mask of the selected rows changes
    nothing. *)
Lemma select_again {A B : Type} (f : B -> bool) (col : list B) (c : list A) :
  select (map f (select (map f col) col)) (select (map f col) c)
  = select (map f col) c.
Proof.
  apply select_all.
  - rewrite select_map. apply Forall_forall. intros b Hb.
    apply in_map_iff in Hb. destruct Hb as (x & <- & Hx).
    now apply filter_In in Hx.
  - rewrite length_map, select_map, <- filter_mask_length.
    apply select_length_le.
Qed.

Lemma select_map_comm {A B : Type} (f : A -> B) (mask : list bool) :
  forall col : list A, select mask (map f col) = map f (select mask col).
Proof.
  induction mask as [|b mask IH]; intros [|x col]; cbn [map].
  - reflexivity.
  - reflexivity.
  - now rewrite !select_nil_r.
  - rewrite !select_cons, IH. now destruct b.
Qed.

Lemma select_forall2 {A B : Type} (R : A -> B -> Prop) (mask : list bool) :
  forall a b, Forall2 R a b -> Forall2 R (select mask a) (select mask b).
Proof.
  induction mask as [|m mask IH]; intros a b H.
  - unfold select. cbn. constructor.
  - destruct H as [|x y a b Hxy H].
    + rewrite !select_nil_r. constructor.
    + rewrite !select_cons.
      destruct m; [constructor; [exact Hxy|]|]; now apply IH.
Qed.

Lemma select_same_length {A B : Type} (mask : list bool) :
  forall (a : list A) (b : list B),
    length a = length b -> length (select mask a) = length (select mask b).
Proof.
  induction mask as [|m mask IH]; intros [|x a] [|y b] H;
    try discriminate; try reflexivity.
  rewrite !select_cons. injection H as H.
  destruct m; cbn [length]; now rewrite (IH a b H).
Qed.

Lemma select_incl {A : Type} (mask : list bool) (col : list A) (x : A) :
  In x (select mask col) -> In x col.
Proof.
  intros H. apply select_in in H. destruct H as (i & _ & H).
  now apply nth_error_In in H.
Qed.

Lemma select_none {A B : Type} (f : B -> bool) (col : list B) (c : list A) :
  length c = length col ->
  (length (select (map f col) c) = 0 <-> forall x, In x col -> f x = false).
Proof.
  intros Hl. rewrite select_length by (now rewrite length_map).
  rewrite filter_mask_length. clear. induction col as [|x col IH].
  - cbn. intuition.
  - cbn [filter In]. destruct (f x) eqn:E.
    + cbn [length]. split; [discriminate|].
      intros H. specialize (H x (or_introl eq_refl)). congruence.
    + rewrite IH. split.
      * intros H y [<-|Hy]; [exact E | now apply H].
      * intros H y Hy. apply H. now right.
Qed.

(** X16. The conversation of a date, for a table whose columns have one
    entry per row: every row of the result is on that date, the result
    has one entry per row in every raw column, and in every derived
    column when the table has, its messages are those of the rows of
    the table that are on that date, and it has no row exactly when no
    row of the table is on that date. Asking the result for the same
    date gives the result again when it has a row, and the frame without
    columns when it has none. *)
Theorem conversation_of_a_date (on : Z * Z * Z) (df out : DataFrame) :
  well_formed df ->
  get_conversation_by_date on df = Done (Some out) ->
  exists col sel,
    date df = DtCol col
    /\ date out = DtCol sel
    /\ Forall (fun c => same_date on c = true) sel
    /\ well_formed out
    /\ (every_column df -> every_column out)
    /\ len out <= len df
    /\ (forall m,
          In m (message out)
          <-> exists i c,
                nth_error col i = Some c
                /\ nth_error (message df) i = Some m
                /\ same_date on c = true)
    /\ (empty out = true <-> forall c, In c col -> same_date on c = false)
    /\ (empty out = false -> get_conversation_by_date on out = Done (Some out))
    /\ (empty out = true -> get_conversation_by_date on out = Done None).
Proof.
  intros (Wd & Wt & Wu) H. unfold get_conversation_by_date in H.
  destruct (empty df); [discriminate|].
  destruct (date df) as [col|col] eqn:Ed; [discriminate|].
  injection H as <-. cbn [date_len] in Wd.
  set (mask := map (same_date on) col).
  assert (Lm : length mask = len df) by (unfold mask; now rewrite length_map).
  exists col, (select mask col).
  split; [reflexivity|].
  split; [unfold select_rows; now rewrite Ed|].
  split.
  { unfold mask. rewrite select_map. apply Forall_forall.
    intros c Hc. now apply filter_In in Hc. }
  assert (Wo : well_formed (select_rows mask df)).
  { unfold len in Wd, Wt, Wu, Lm.
    unfold well_formed, len, select_rows. rewrite Ed.
    cbn [date time user message date_len].
    rewrite (select_length mask col) by lia.
    rewrite (select_length mask (time df)) by lia.
    rewrite (select_length mask (user df)) by lia.
    rewrite (select_length mask (message df)) by lia.
    repeat split. }
  split; [exact Wo|].
  split.
  { intros (_ & Hd). split; [exact Wo|].
    unfold select_rows at 1. cbn [derived].
    destruct (derived df) as [d|]; cbn [option_map]; [|exact I].
    unfold derived_formed, len, select_rows in *.
    cbn [select_derived message datetime hour minute day day_of_week month
         month_name year message_length word_count has_media has_url
         url_count emojis emoji_count].
    destruct Hd as (H1 & H2 & H3 & H4 & H5 & H6 & H7 & H8 & H9 & H10
                    & H11 & H12 & H13 & H14 & H15).
    repeat split; now apply select_same_length. }
  split.
  { unfold len at 1, select_rows. cbn [message].
    rewrite (select_length_le mask (message df)).
    rewrite <- Lm. apply filter_length_le. }
  split.
  { intros m. unfold select_rows. cbn [message]. rewrite select_in.
    unfold mask. split.
    - intros (i & H1 & H2). rewrite nth_error_map in H1.
      destruct (nth_error col i) as [c|] eqn:Ec; [|discriminate].
      exists i, c. cbn in H1. injection H1 as H1. now repeat split.
    - intros (i & c & H1 & H2 & H3). exists i. rewrite nth_error_map, H1.
      cbn. now rewrite H3. }
  split.
  { unfold empty, len, select_rows. cbn [message]. rewrite Nat.eqb_eq.
    apply select_none. unfold len in Wd. congruence. }
  split.
  - intros Eo. unfold get_conversation_by_date. rewrite Eo.
    unfold select_rows at 1. rewrite Ed. cbn [date]. do 2 f_equal.
    unfold select_rows. rewrite Ed. cbn [date time user message derived].
    unfold mask. rewrite !select_again.
    f_equal. destruct (derived df) as [d|]; [|reflexivity].
    cbn [option_map]. f_equal. unfold select_derived.
    cbn [datetime hour minute day day_of_week day_categories month
         month_name year message_length word_count has_media has_url
         url_count emojis emoji_count].
    now rewrite !select_again.
  - intros Eo. unfold get_conversation_by_date. now rewrite Eo.
Qed.

Lemma conversation_of_a_date_witness :
  let data := lit "3/1/23, 10:00 - Eve: hi" ++ [nl]
              ++ lit "1/1/23, 09:00 - Bob: yo" ++ [nl]
              ++ lit "3/1/23, 11:00 - Bob: there" in
  exists df out none,
    analyze_chat (L := sample_libs) data = Ok df
    /\ every_column df
    /\ get_conversation_by_date (2023, 3, 1)%Z df = Done (Some out)
    /\ message out = [lit "hi"; lit "there"]
    /\ every_column out
    /\ get_conversation_by_date (2023, 3, 1)%Z out = Done (Some out)
    /\ get_conversation_by_date (2023, 2, 1)%Z df = Done (Some none)
    /\ message none = []
    /\ get_conversation_by_date (2023, 2, 1)%Z none = Done None.
Proof.
  intros data.
  let v := eval vm_compute in (analyze_chat (L := sample_libs) data) in
  match v with
  | Ok ?df =>
      let ov := eval vm_compute in (get_conversation_by_date (2023, 3, 1)%Z df) in
      let nv := eval vm_compute in (get_conversation_by_date (2023, 2, 1)%Z df) in
      match ov with
      | Done (Some ?out) =>
          match nv with
          | Done (Some ?none) =>
              exists df, out, none;
              assert (W : every_column df) by (vm_compute; repeat split);
              destruct (conversation_of_a_date (2023, 3, 1)%Z df out (proj1 W)
                          ltac:(vm_compute; reflexivity))
                as (col & sel & _ & _ & _ & _ & Wo & _ & _ & _ & Hi & _);
              destruct (conversation_of_a_date (2023, 2, 1)%Z df none (proj1 W)
                          ltac:(vm_compute; reflexivity))
                as (col' & sel' & _ & _ & _ & _ & _ & _ & _ & _ & _ & Hn);
              split; [vm_compute; reflexivity|];
              split; [exact W|];
              split; [vm_compute; reflexivity|];
              split; [reflexivity|];
              split; [exact (Wo W)|];
              split; [exact (Hi eq_refl)|];
              split; [vm_compute; reflexivity|];
              split; [reflexivity | exact (Hn eq_refl)]
          end
      end
  end.
Defined.

(* ===================================================================== *)
(** ** The activity by time *)
(* ===================================================================== *)

Import Activity.

Section GroupFacts.
Context {K : Type}.
Variable ltb : K -> K -> bool.

Lemma message_counts_group_add (k : K) (g : list (K * nat)) :
  message_counts (group_add ltb k g) = S (message_counts g).
Proof.
  unfold message_counts.
  induction g as [|[k' n] g IH]; cbn [group_add fold_right snd].
  - reflexivity.
  - destruct (ltb k k'); [reflexivity|].
    destruct (ltb k' k); cbn [fold_right snd]; [rewrite IH|]; lia.
Qed.

Lemma groupby_size_counts_from (keys : list (option K)) :
  forall g,
    message_counts
      (fold_left (fun g k => match k with
                             | Some k => group_add ltb k g
                             | None => g
                             end) keys g)
    = message_counts g + present keys.
Proof.
  unfold present.
  induction keys as [|[k|] keys IH]; intros g; cbn [fold_left filter length].
  - lia.
  - rewrite IH, message_counts_group_add. lia.
  - apply IH.
Qed.

(** Every row whose key is not missing is counted in one group. *)
Lemma groupby_size_counts (keys : list (option K)) :
  message_counts (groupby_size ltb keys) = present keys.
Proof. unfold groupby_size. now rewrite groupby_size_counts_from. Qed.

Lemma group_add_keys (k : K) (g : list (K * nat)) (x : K * nat) :
  In x (group_add ltb k g) ->
  fst x = k \/ exists y, In y g /\ fst y = fst x.
Proof.
  induction g as [|[k' n] g IH]; cbn [group_add].
  - intros [<-|[]]. now left.
  - destruct (ltb k k').
    + intros [<-|H]; [now left|]. right. now exists x.
    + destruct (ltb k' k).
      * intros [<-|H].
        -- right. exists (k', n). split; [now left | reflexivity].
        -- destruct (IH H) as [E|(y & Hy & E)]; [now left|].
           right. exists y. split; [now right | exact E].
      * intros [<-|H].
        -- right. exists (k', n). split; [now left | reflexivity].
        -- right. exists x. split; [now right | reflexivity].
Qed.

Hypothesis ltb_trans :
  forall a b c, ltb a b = true -> ltb b c = true -> ltb a c = true.

Lemma group_add_sorted (k : K) (g : list (K * nat)) :
  StronglySorted (fun a b => ltb (fst a) (fst b) = true) g ->
  StronglySorted (fun a b => ltb (fst a) (fst b) = true) (group_add ltb k g).
Proof.
  induction 1 as [|[k' n] g Hs IH Hf]; cbn [group_add].
  - repeat constructor.
  - destruct (ltb k k') eqn:E1.
    + constructor; [now constructor|].
      constructor; [exact E1|].
      rewrite Forall_forall in *. intros z Hz.
      apply (ltb_trans _ k'); [exact E1 | now apply Hf].
    + destruct (ltb k' k) eqn:E2.
      * constructor; [exact IH|].
        rewrite Forall_forall in *. intros z Hz.
        destruct (group_add_keys _ _ _ Hz) as [E|(y & Hy & E)].
        -- cbn [fst]. now rewrite E.
        -- rewrite <- E. now apply Hf.
      * constructor; [exact Hs | exact Hf].
Qed.

(** The groups come in ascending order of their keys. *)
Lemma groupby_size_sorted (keys : list (option K)) :
  StronglySorted (fun a b => ltb (fst a) (fst b) = true)
                 (groupby_size ltb keys).
Proof.
  unfold groupby_size.
  assert (H : StronglySorted (fun a b : K * nat => ltb (fst a) (fst b) = true) [])
    by constructor.
  revert H. generalize (@nil (K * nat)).
  induction keys as [|[k|] keys IH]; intros g H; cbn [fold_left].
  - exact H.
  - apply IH. now apply group_add_sorted.
  - now apply IH.
Qed.
End GroupFacts.

Lemma message_counts_perm {K : Type} (l l' : list (K * nat)) :
  Permutation l l' -> message_counts l = message_counts l'.
Proof.
  unfold message_counts. induction 1; cbn [fold_right] in *; lia.
Qed.

Lemma message_counts_map {K K' : Type} (f : K -> K') (l : list (K * nat)) :
  message_counts (map (fun r => (f (fst r), snd r)) l) = message_counts l.
Proof.
  unfold message_counts. induction l as [|r l IH]; cbn [map fold_right snd].
  - reflexivity.
  - now rewrite IH.
Qed.

Lemma present_all {A : Type} (col : list (option A)) :
  Forall (fun c => c <> None) col -> present col = length col.
Proof.
  unfold present. induction 1 as [|c col Hc _ IH]; cbn [filter length].
  - reflexivity.
  - destruct c; [cbn [length]; now rewrite IH | contradiction].
Qed.

Lemma present_option_map {A B : Type} (f : A -> B) (col : list (option A)) :
  present (map (option_map f) col) = present col.
Proof.
  unfold present. induction col as [|[a|] col IH]; cbn [map option_map filter length].
  - reflexivity.
  - now rewrite IH.
  - exact IH.
Qed.

Lemma str_ltb_trans (a : str) :
  forall b c, str_ltb a b = true -> str_ltb b c = true -> str_ltb a c = true.
Proof.
  induction a as [|x a IH]; intros [|y b] [|z c]; cbn [str_ltb];
    try discriminate; try reflexivity.
  destruct (N.ltb_spec x y), (N.ltb_spec y x), (N.ltb_spec y z),
    (N.ltb_spec z y), (N.ltb_spec x z), (N.ltb_spec z x);
    intros Hab Hbc; try discriminate; try reflexivity; try lia.
  now apply (IH b c).
Qed.

Lemma str_ltb_irrefl (a : str) : str_ltb a a = false.
Proof.
  induction a as [|x a IH]; cbn [str_ltb]; [reflexivity|].
  now rewrite N.ltb_irrefl.
Qed.

Lemma hours_ascending (g : list (Z * nat)) :
  StronglySorted (fun a b => Z.ltb (fst a) (fst b) = true) g ->
  StronglySorted (fun a b => (fst a < fst b)%Z) g.
Proof.
  induction 1 as [|x g Hs IH Hf]; constructor; [exact IH|].
  rewrite Forall_forall in *. intros y Hy. apply Z.ltb_lt. now apply Hf.
Qed.

(** The order of the week. *)
Lemma index_of_nth (x : str) (l : list str) :
  forall i, index_of x l = Some i -> nth_error l i = Some x.
Proof.
  induction l as [|y l IH]; intros i; cbn [index_of]; [discriminate|].
  destruct (str_eqb x y) eqn:E.
  - intros [= <-]. apply str_eqb_eq in E. now subst.
  - destruct (index_of x l) as [j|]; [|discriminate].
    intros [= <-]. now apply IH.
Qed.

Lemma day_code_injective (a b : str) :
  is_day a = true -> is_day b = true -> day_code a = day_code b -> a = b.
Proof.
  unfold is_day, day_code.
  destruct (index_of a day_order) as [i|] eqn:Ea; [|discriminate].
  destruct (index_of b day_order) as [j|] eqn:Eb; [|discriminate].
  intros _ _ <-. apply index_of_nth in Ea, Eb. congruence.
Qed.

Lemma is_day_in (a : str) : is_day a = true -> In a day_order.
Proof.
  unfold is_day. destruct (index_of a day_order) as [i|] eqn:E; [|discriminate].
  intros _. apply index_of_nth in E. now apply nth_error_In in E.
Qed.

Lemma day_name_is_day (t : Calendar.Timestamp) :
  is_day (Calendar.day_name t) = true.
Proof.
  unfold Calendar.day_name.
  assert (H : (0 <= Calendar.weekday t < 7)%Z)
    by (unfold Calendar.weekday; apply Z.mod_pos_bound; lia).
  assert (Hn : Z.to_nat (Calendar.weekday t) < 7) by lia.
  destruct (Z.to_nat (Calendar.weekday t)) as [|n]; [reflexivity|].
  do 6 (destruct n as [|n]; [reflexivity|]). lia.
Qed.

Lemma insert_by_day_perm (x : str * nat) (l : list (str * nat)) :
  Permutation (x :: l) (insert_by_day x l).
Proof.
  induction l as [|y l IH]; cbn [insert_by_day].
  - apply Permutation_refl.
  - destruct (Nat.leb _ _).
    + apply Permutation_refl.
    + eapply Permutation_trans; [apply perm_swap|]. now apply perm_skip.
Qed.

Lemma sort_by_day_perm (l : list (str * nat)) :
  Permutation l (fold_right insert_by_day [] l).
Proof.
  induction l as [|x l IH]; cbn [fold_right].
  - apply Permutation_refl.
  - eapply Permutation_trans; [|apply insert_by_day_perm]. now apply perm_skip.
Qed.

Lemma insert_by_day_sorted (x : str * nat) (l : list (str * nat)) :
  StronglySorted (fun a b => day_code (fst a) <= day_code (fst b)) l ->
  StronglySorted (fun a b => day_code (fst a) <= day_code (fst b))
                 (insert_by_day x l).
Proof.
  induction 1 as [|y l Hs IH Hf]; cbn [insert_by_day].
  - repeat constructor.
  - destruct (Nat.leb_spec (day_code (fst x)) (day_code (fst y))) as [E|E].
    + constructor; [now constructor|].
      constructor; [exact E|].
      rewrite Forall_forall in *. intros z Hz. specialize (Hf z Hz). lia.
    + constructor; [exact IH|].
      rewrite Forall_forall in *. intros z Hz.
      apply (Permutation_in _ (Permutation_sym (insert_by_day_perm x l))) in Hz.
      destruct Hz as [<-|Hz]; [lia | now apply Hf].
Qed.

Lemma sort_by_day_sorted (l : list (str * nat)) :
  StronglySorted (fun a b => day_code (fst a) <= day_code (fst b))
                 (fold_right insert_by_day [] l).
Proof.
  induction l as [|x l IH]; cbn [fold_right].
  - constructor.
  - now apply insert_by_day_sorted.
Qed.

(** Rows of different days, sorted by the code of the day, are in the
    strict order of the week. *)
Lemma days_strictly_sorted (l : list (str * nat)) :
  NoDup (map fst l) ->
  Forall (fun r => is_day (fst r) = true) l ->
  StronglySorted (fun a b => day_code (fst a) <= day_code (fst b)) l ->
  StronglySorted (fun a b => day_code a < day_code b) (map fst l).
Proof.
  intros Hnd Hd Hs. induction Hs as [|x l Hs IH Hf]; cbn [map].
  - constructor.
  - inversion Hnd as [|? ? Hx Hnd']; subst.
    inversion Hd as [|? ? Dx Dl]; subst.
    constructor; [now apply IH|].
    rewrite Forall_forall in *. intros d Hin.
    apply in_map_iff in Hin. destruct Hin as (y & <- & Hy).
    specialize (Hf y Hy).
    destruct (Nat.eq_dec (day_code (fst x)) (day_code (fst y))) as [E|E]; [|lia].
    exfalso. apply Hx.
    rewrite (day_code_injective _ _ Dx (Dl y Hy) E). now apply in_map.
Qed.

Lemma filter_all {A : Type} (p : A -> bool) (l : list A) :
  Forall (fun x => p x = true) l ->
  filter p l = l /\ filter (fun x => negb (p x)) l = [].
Proof.
  induction 1 as [|x l Hx _ (IH1 & IH2)]; cbn [filter]; [now split|].
  rewrite Hx. cbn [negb]. now rewrite IH1, IH2.
Qed.

Lemma present_forall2 {A B : Type} (a : list (option A)) (b : list (option B)) :
  Forall2 (fun x y => y = None <-> x = None) a b -> present b = present a.
Proof.
  unfold present. induction 1 as [|x y a b H _ IH]; [reflexivity|].
  cbn [filter]. destruct x, y; cbn [length]; try (now rewrite IH).
  - now specialize (proj1 H eq_refl).
  - now specialize (proj2 H eq_refl).
Qed.

Lemma present_le {A : Type} (col : list (option A)) :
  present col <= length col.
Proof. unfold present. apply filter_length_le. Qed.

(** The order of strings is total. *)
Lemma str_ltb_connex (a : str) :
  forall b, str_ltb a b = false -> str_ltb b a = false -> a = b.
Proof.
  induction a as [|x a IH]; intros [|y b]; cbn [str_ltb];
    try congruence.
  destruct (N.ltb_spec x y); [congruence|].
  destruct (N.ltb_spec y x); [congruence|].
  intros H1 H2. assert (x = y) by lia. subst. f_equal. now apply IH.
Qed.

(** The categories of a column. *)
Lemma add_category_in (x : str) (cats : list str) (y : str) :
  In y (Pandas.add_category x cats) <-> y = x \/ In y cats.
Proof.
  induction cats as [|c cats IH]; cbn [Pandas.add_category In].
  - intuition congruence.
  - destruct (str_ltb x c) eqn:E1; [cbn [In]; intuition congruence|].
    destruct (str_ltb c x) eqn:E2; cbn [In].
    + rewrite IH. intuition congruence.
    + pose proof (str_ltb_connex _ _ E1 E2). subst. intuition congruence.
Qed.

Lemma add_category_sorted (x : str) (cats : list str) :
  StronglySorted (fun a b => str_ltb a b = true) cats ->
  StronglySorted (fun a b => str_ltb a b = true) (Pandas.add_category x cats).
Proof.
  induction 1 as [|c cats Hs IH Hf]; cbn [Pandas.add_category].
  - repeat constructor.
  - destruct (str_ltb x c) eqn:E1.
    + constructor; [now constructor|]. constructor; [exact E1|].
      rewrite Forall_forall in *. intros z Hz.
      apply (str_ltb_trans _ c); [exact E1 | now apply Hf].
    + destruct (str_ltb c x) eqn:E2.
      * constructor; [exact IH|]. rewrite Forall_forall in *. intros z Hz.
        apply add_category_in in Hz.
        destruct Hz as [->|Hz]; [exact E2 | now apply Hf].
      * now constructor.
Qed.

Lemma categories_from (col : list (option str)) :
  forall cats,
    StronglySorted (fun a b => str_ltb a b = true) cats ->
    StronglySorted (fun a b => str_ltb a b = true)
      (fold_left (fun cats c => match c with
                                | Some x => Pandas.add_category x cats
                                | None => cats
                                end) col cats)
    /\ forall y,
        In y (fold_left (fun cats c => match c with
                                       | Some x => Pandas.add_category x cats
                                       | None => cats
                                       end) col cats)
        <-> In y cats \/ In (Some y) col.
Proof.
  induction col as [|[x|] col IH]; intros cats Hs; cbn [fold_left In].
  - split; [exact Hs | intuition].
  - destruct (IH _ (add_category_sorted x cats Hs)) as (S1 & S2).
    split; [exact S1|]. intros y. rewrite S2, add_category_in.
    intuition congruence.
  - destruct (IH _ Hs) as (S1 & S2).
    split; [exact S1|]. intros y. rewrite S2. intuition congruence.
Qed.

Lemma sorted_distinct (l : list str) :
  StronglySorted (fun a b => str_ltb a b = true) l -> NoDup l.
Proof.
  induction 1 as [|x l Hs IH Hf]; constructor; [|exact IH].
  intros Hin. rewrite Forall_forall in Hf. specialize (Hf x Hin).
  rewrite str_ltb_irrefl in Hf. discriminate.
Qed.

(** The categories of a column are its values, each once. *)
Lemma categories_spec (col : list (option str)) :
  NoDup (Pandas.categories col)
  /\ forall y, In y (Pandas.categories col) <-> In (Some y) col.
Proof.
  destruct (categories_from col [] ltac:(constructor)) as (S1 & S2).
  split; [now apply sorted_distinct|].
  intros y. unfold Pandas.categories. rewrite S2. cbn [In]. intuition.
Qed.

(** The counts of the labels. *)
Lemma count_label_some (x c : str) (col : list (option str)) :
  count_label c (Some x :: col)
  = (if str_eqb x c then 1 else 0) + count_label c col.
Proof. unfold count_label. cbn [filter]. now destruct (str_eqb x c). Qed.

Lemma count_label_zero (x : str) (col : list (option str)) :
  count_label x col = 0 <-> ~ In (Some x) col.
Proof.
  induction col as [|[y|] col IH].
  - cbn. intuition.
  - rewrite count_label_some. cbn [In].
    destruct (str_eqb y x) eqn:E.
    + apply str_eqb_eq in E. subst. split; [discriminate|].
      intros H. elim H. now left.
    + cbn [Nat.add]. rewrite IH. split.
      * intros H [K|K]; [|now apply H].
        injection K as ->. rewrite (proj2 (str_eqb_eq x x) eq_refl) in E.
        discriminate.
      * intros H K. apply H. now right.
  - change (count_label x (None :: col)) with (count_label x col).
    rewrite IH. cbn [In]. intuition congruence.
Qed.

Lemma count_label_in (x : str) (col : list (option str)) :
  count_label x col <> 0 -> In (Some x) col.
Proof.
  induction col as [|[y|] col IH]; [now intros H| |].
  - rewrite count_label_some. destruct (str_eqb y x) eqn:E.
    + intros _. apply str_eqb_eq in E. subst. now left.
    + intros H. right. now apply IH.
  - intros H. right. now apply IH.
Qed.

Lemma message_counts_add {K : Type} (f g : K -> nat) (l : list K) :
  message_counts (map (fun c => (c, f c + g c)) l)
  = message_counts (map (fun c => (c, f c)) l)
    + message_counts (map (fun c => (c, g c)) l).
Proof.
  unfold message_counts.
  induction l as [|c l IH]; cbn [map fold_right snd]; [reflexivity|].
  rewrite IH. lia.
Qed.

Lemma message_counts_ext {K : Type} (f g : K -> nat) (l : list K) :
  (forall c, f c = g c) ->
  message_counts (map (fun c => (c, f c)) l)
  = message_counts (map (fun c => (c, g c)) l).
Proof.
  intros H. unfold message_counts.
  induction l as [|c l IH]; cbn [map fold_right snd]; [reflexivity|].
  now rewrite IH, H.
Qed.

Lemma label_hits_none (x : str) (cats : list str) :
  ~ In x cats ->
  message_counts (map (fun c => (c, if str_eqb x c then 1 else 0)) cats) = 0.
Proof.
  unfold message_counts.
  induction cats as [|c cats IH]; cbn [map fold_right snd In]; [reflexivity|].
  intros H. destruct (str_eqb x c) eqn:E.
  - apply str_eqb_eq in E. elim H. now left.
  - rewrite IH; [reflexivity|]. intros K. apply H. now right.
Qed.

Lemma label_hits_once (x : str) (cats : list str) :
  NoDup cats -> In x cats ->
  message_counts (map (fun c => (c, if str_eqb x c then 1 else 0)) cats) = 1.
Proof.
  induction 1 as [|c cats Hc Hn IH]; [intros []|].
  intros Hin. unfold message_counts. cbn [map fold_right snd].
  fold (message_counts (map (fun c => (c, if str_eqb x c then 1 else 0)) cats)).
  destruct (str_eqb x c) eqn:E.
  - apply str_eqb_eq in E. subst. now rewrite label_hits_none.
  - destruct Hin as [->|Hin].
    + rewrite (proj2 (str_eqb_eq x x) eq_refl) in E. discriminate.
    + now rewrite IH.
Qed.

(** Every row whose label is a category is counted in one row. *)
Lemma count_label_sum (cats : list str) (col : list (option str)) :
  NoDup cats ->
  (forall x, In (Some x) col -> In x cats) ->
  message_counts (map (fun c => (c, count_label c col)) cats) = present col.
Proof.
  intros Hn. induction col as [|[x|] col IH]; intros Hin.
  - unfold present. cbn [filter length].
    clear. unfold message_counts.
    induction cats as [|c cats IHc]; [reflexivity|].
    cbn [map fold_right snd]. now rewrite IHc.
  - rewrite (message_counts_ext _
               (fun c => (if str_eqb x c then 1 else 0) + count_label c col))
      by (intros c; apply count_label_some).
    rewrite message_counts_add, label_hits_once, IH.
    + reflexivity.
    + intros y Hy. apply Hin. now right.
    + exact Hn.
    + apply Hin. now left.
  - change (present (None :: col)) with (present col).
    rewrite <- IH by (intros y Hy; apply Hin; now right).
    apply message_counts_ext. reflexivity.
Qed.

Lemma message_counts_observed {K : Type} (rows : list (K * nat)) :
  message_counts (filter (fun r => negb (Nat.eqb (snd r) 0)) rows)
  = message_counts rows.
Proof.
  unfold message_counts.
  induction rows as [|[k n] rows IH]; cbn [filter fold_right snd];
    [reflexivity|].
  destruct n as [|n]; cbn [Nat.eqb negb fold_right snd]; now rewrite IH.
Qed.

(** Leaving out the groups without rows keeps the keys distinct. *)
Lemma observed_keys_distinct {K : Type} (rows : list (K * nat)) :
  NoDup (map fst rows) ->
  NoDup (map fst (filter (fun r => negb (Nat.eqb (snd r) 0)) rows)).
Proof.
  induction rows as [|[k n] rows IH]; cbn [map filter fst snd]; [trivial|].
  intros H. inversion H as [|? ? Hk Hrows]; subst.
  destruct n as [|n]; cbn [Nat.eqb negb map fst]; [now apply IH|].
  constructor; [|now apply IH].
  intros Hin. apply Hk. apply in_map_iff in Hin.
  destruct Hin as (r & E & Hr). apply filter_In in Hr.
  apply in_map_iff. exists r. tauto.
Qed.

Section CategoryGroups.
Context {L : Libs}.

Lemma groupby_category_in (cats : list str) (col : list (option str))
      (x : str) (n : nat) :
  In (x, n) (groupby_category cats col)
  <-> In x cats /\ n = count_label x col
      /\ (groupby_observed = true -> n <> 0).
Proof.
  unfold groupby_category. cbv zeta.
  assert (M : In (x, n) (map (fun c => (c, count_label c col)) cats)
              <-> In x cats /\ n = count_label x col).
  { rewrite in_map_iff. split.
    - intros (c & E & Hc). injection E as -> <-. now split.
    - intros (Hc & ->). now exists x. }
  destruct groupby_observed.
  - rewrite filter_In, M. cbn [snd]. split.
    + intros ((H1 & H2) & H3). repeat split; try assumption.
      intros _ ->. discriminate.
    + intros (H1 & H2 & H3). repeat split; try assumption.
      destruct n; [now elim (H3 eq_refl) | reflexivity].
  - rewrite M. split.
    + intros (H1 & H2). repeat split; try assumption. discriminate.
    + intros (H1 & H2 & _). now split.
Qed.

Lemma groupby_category_keys (cats : list str) (col : list (option str)) :
  NoDup cats -> NoDup (map fst (groupby_category cats col)).
Proof.
  intros Hn. unfold groupby_category. cbv zeta.
  assert (M : NoDup (map fst (map (fun c => (c, count_label c col)) cats))).
  { rewrite map_map. cbn [fst]. now rewrite map_id. }
  destruct groupby_observed; [now apply observed_keys_distinct | exact M].
Qed.

Lemma groupby_category_counts (cats : list str) (col : list (option str)) :
  NoDup cats ->
  (forall x, In (Some x) col -> In x cats) ->
  message_counts (groupby_category cats col) = present col.
Proof.
  intros Hn Hin. unfold groupby_category. cbv zeta.
  destruct groupby_observed; [rewrite message_counts_observed|];
    now apply count_label_sum.
Qed.
End CategoryGroups.

(** What [sort_by_day] gives on rows of different days. *)
Lemma sort_by_day_days (rows : list (str * nat)) :
  NoDup (map fst rows) ->
  Forall (fun r => is_day (fst r) = true) rows ->
  exists days,
    map fst (sort_by_day rows) = map Some days
    /\ message_counts (sort_by_day rows) = message_counts rows
    /\ Forall (fun d => In d day_order) days
    /\ StronglySorted (fun a b => day_code a < day_code b) days
    /\ (forall x, In x days <-> In x (map fst rows))
    /\ (forall x n, In (Some x, n) (sort_by_day rows) <-> In (x, n) rows).
Proof.
  intros Hs Hd. unfold sort_by_day.
  destruct (filter_all (fun r => is_day (fst r)) rows Hd) as (-> & ->).
  cbn [map]. rewrite app_nil_r.
  pose proof (sort_by_day_perm rows) as Hp.
  exists (map fst (fold_right insert_by_day [] rows)).
  split; [rewrite !map_map; reflexivity|].
  split.
  { rewrite (message_counts_map Some). symmetry.
    now apply message_counts_perm. }
  assert (Hd' : Forall (fun r => is_day (fst r) = true)
                       (fold_right insert_by_day [] rows)).
  { rewrite Forall_forall in *. intros r Hr. apply Hd.
    now apply (Permutation_in _ (Permutation_sym Hp)). }
  split.
  { rewrite Forall_forall in *. intros d Hin. apply in_map_iff in Hin.
    destruct Hin as (r & <- & Hr). now apply is_day_in, Hd'. }
  split.
  { apply days_strictly_sorted.
    - exact (Permutation_NoDup (Permutation_map fst Hp) Hs).
    - exact Hd'.
    - apply sort_by_day_sorted. }
  split.
  { intros x. split; apply Permutation_in.
    - apply Permutation_sym, Permutation_map, Hp.
    - apply Permutation_map, Hp. }
  intros x n. rewrite in_map_iff. split.
  - intros ([y k] & E & Hr). cbn [fst snd] in E. injection E as -> ->.
    now apply (Permutation_in _ (Permutation_sym Hp)).
  - intros Hr. exists (x, n). split; [reflexivity|].
    now apply (Permutation_in _ Hp).
Qed.

Section ActivityOfTable.
Context {L : Libs}.

(** The columns of a table of [preprocess], or of a selection of its
    rows, that the activity is computed from. *)
Lemma activity_columns (df0 out table : DataFrame) (d : Derived) :
  empty df0 = false ->
  well_formed df0 ->
  preprocess df0 = Ok out ->
  derived out = Some d ->
  table = out \/ (exists mask, table = select_rows mask out) ->
  exists dates rows,
    date table = DtCol dates
    /\ derived table = Some rows
    /\ Forall2 (fun c r => r = None <-> (c = None /\ nat_as_text = false))
               dates (datetime rows)
    /\ hour rows = map (option_map Calendar.hour) (datetime rows)
    /\ day_of_week rows = map (option_map Calendar.day_name) (datetime rows)
    /\ day_categories rows = Pandas.categories (day_of_week d)
    /\ (forall x, In (Some x) (day_of_week rows) -> In (Some x) (day_of_week d))
    /\ length (datetime rows) = len table.
Proof.
  intros He W Hp Hd Ht.
  pose proof (datetime_cells df0 out d He W Hp Hd) as F.
  pose proof (preprocess_categories df0 out d He Hp Hd) as Hc.
  destruct (preprocess_nonempty df0 out He Hp)
    as (dt & _ & Ed & _ & _ & Em & d' & Hd' & D1 & D2 & _ & _ & D5 & _).
  rewrite Hd in Hd'. injection Hd' as <-.
  assert (Hl : len out = len df0) by (unfold len; now rewrite Em).
  assert (Ldt : length (datetime d) = len df0).
  { etransitivity; [symmetry; exact (Forall2_length F)|].
    rewrite convert_dates_length. exact (proj1 W). }
  destruct Ht as [->|(mask & ->)].
  - exists (convert_dates df0), d.
    split; [exact Ed|]. split; [exact Hd|]. split; [exact F|].
    split; [now rewrite D2, D1|]. split; [now rewrite D5, D1|].
    split; [exact Hc|]. split; [trivial|]. now rewrite Hl.
  - exists (select mask (convert_dates df0)), (select_derived mask d).
    split; [unfold select_rows; now rewrite Ed|].
    split; [unfold select_rows; cbn [derived]; now rewrite Hd|].
    cbn [select_derived datetime hour day_of_week day_categories].
    split; [now apply select_forall2|].
    split.
    { rewrite D2, D1. unfold ts_field. apply select_map_comm. }
    split.
    { rewrite D5, D1. unfold ts_name. apply select_map_comm. }
    split; [exact Hc|].
    split; [intros x; apply select_incl|].
    unfold len, select_rows. cbn [message].
    apply select_same_length. rewrite Ldt, <- Hl. reflexivity.
Qed.

(** X19. On a table with rows that is the table the feature extractor
    returns, or a selection of its rows as the application makes for
    one user, [get_activity_by_time] returns its four frames and adds
    the column [year_month_str], which [cleanup_temp_data] removes
    again. The counts by hour, by month and by day of the week each add
    up to the number of rows whose [datetime] is not missing, and the
    counts by date to the number of rows that have a date: these are
    all the messages where the library writes a missing date as text,
    and the rows with a date where it keeps it missing. The hours come
    in strictly ascending order, and the days of the week are names of
    days, each at most once, in the order of the week, each with the
    number of rows of that day: the days of the rows where the library
    leaves out the categories no row has, and otherwise the days of the
    whole table of the feature extractor, with no message for a day the
    selection has no row of. *)
Theorem activity_counts_every_message (df0 out table : DataFrame) :
  empty df0 = false ->
  well_formed df0 ->
  preprocess df0 = Ok out ->
  table = out \/ (exists mask, table = select_rows mask out) ->
  empty table = false ->
  exists act ym days dates rows d,
    get_activity_by_time (mkAnalyzer table None)
    = (Done (Some act), mkAnalyzer table (Some ym))
    /\ cleanup_temp_data (mkAnalyzer table (Some ym)) = mkAnalyzer table None
    /\ date table = DtCol dates
    /\ derived table = Some rows
    /\ derived out = Some d
    /\ message_counts (hourly_activity act) = present (datetime rows)
    /\ message_counts (monthly_activity act) = present (datetime rows)
    /\ message_counts (day_of_week_activity act) = present (datetime rows)
    /\ message_counts (daily_activity act) = present dates
    /\ (nat_as_text = true -> present (datetime rows) = len table)
    /\ (nat_as_text = false -> present (datetime rows) = present dates)
    /\ StronglySorted (fun a b => (fst a < fst b)%Z) (hourly_activity act)
    /\ map fst (day_of_week_activity act) = map Some days
    /\ Forall (fun x => In x day_order) days
    /\ StronglySorted (fun a b => day_code a < day_code b) days
    /\ (forall x n, In (Some x, n) (day_of_week_activity act) ->
                    n = count_label x (day_of_week rows))
    /\ (groupby_observed = true ->
        forall x, In x days <-> In (Some x) (day_of_week rows))
    /\ (groupby_observed = false ->
        forall x, In x days <-> In (Some x) (day_of_week d)).
Proof.
  intros He W Hp Ht Hne.
  destruct (preprocess_nonempty df0 out He Hp)
    as (dt & _ & _ & _ & _ & _ & d & Hd & D1 & _ & _ & _ & D5 & _).
  destruct (activity_columns df0 out table d He W Hp Hd Ht)
    as (dates & rows & Edate & Erows & F & Eh & Ew & Ec & Hsub & Ldt).
  destruct (categories_spec (day_of_week d)) as (Cn & Cin).
  set (cats := Pandas.categories (day_of_week d)) in *.
  assert (Hcats : forall x, In (Some x) (day_of_week rows) -> In x cats)
    by (intros x Hx; now apply Cin, Hsub).
  assert (Hdays : Forall (fun r => is_day (fst r) = true)
                         (groupby_category cats (day_of_week rows))).
  { apply Forall_forall. intros [x n] Hr.
    apply groupby_category_in in Hr. destruct Hr as (Hx & _).
    apply Cin in Hx. rewrite D5 in Hx. unfold ts_name in Hx.
    apply in_map_iff in Hx. destruct Hx as ([t|] & E & _); [|discriminate].
    cbn [option_map fst] in *. injection E as <-. apply day_name_is_day. }
  destruct (sort_by_day_days _ (groupby_category_keys cats (day_of_week rows) Cn)
              Hdays) as (days & S1 & S2 & S3 & S4 & S5 & S6).
  unfold get_activity_by_time. cbn [df]. rewrite Hne, Erows, Edate. cbv zeta.
  rewrite Ec. fold cats.
  eexists. eexists. exists days, dates, rows, d.
  split; [reflexivity|]. split; [reflexivity|].
  split; [reflexivity|]. split; [reflexivity|]. split; [exact Hd|].
  cbn [hourly_activity monthly_activity day_of_week_activity daily_activity].
  split.
  { rewrite groupby_size_counts, Eh. now rewrite present_option_map. }
  split.
  { rewrite groupby_size_counts. unfold year_month, Pandas.cell in *.
    now rewrite present_option_map. }
  split.
  { rewrite S2, (groupby_category_counts cats _ Cn Hcats), Ew.
    now rewrite present_option_map. }
  split.
  { rewrite groupby_size_counts. unfold date_of, Pandas.cell in *.
    now rewrite present_option_map. }
  split.
  { intros En. rewrite <- Ldt. apply present_all.
    clear - F En. induction F as [|c r l l' K _ IH]; constructor; [|exact IH].
    intros ->. destruct (proj1 K eq_refl) as (_ & K'). congruence. }
  split.
  { intros En. apply present_forall2.
    clear - F En. induction F as [|c r l l' K _ IH]; constructor; [|exact IH].
    rewrite K. intuition. }
  split.
  { apply hours_ascending, groupby_size_sorted.
    intros a b c H1 H2. apply Z.ltb_lt in H1, H2. apply Z.ltb_lt. lia. }
  split; [exact S1|]. split; [exact S3|]. split; [exact S4|].
  split.
  { intros x n Hx. apply S6, groupby_category_in in Hx. tauto. }
  split.
  - intros Eo x. rewrite S5, in_map_iff. split.
    + intros ([y n] & E & Hr). cbn [fst] in E. subst y.
      apply groupby_category_in in Hr. destruct Hr as (_ & -> & Hz).
      exact (count_label_in _ _ (Hz Eo)).
    + intros Hx. exists (x, count_label x (day_of_week rows)).
      split; [reflexivity|]. apply groupby_category_in.
      split; [now apply Hcats|]. split; [reflexivity|].
      intros _ K. apply count_label_zero in K. contradiction.
  - intros Eo x. rewrite S5, in_map_iff, <- Cin. split.
    + intros ([y n] & E & Hr). cbn [fst] in E. subst y.
      now apply groupby_category_in in Hr.
    + intros Hx. exists (x, count_label x (day_of_week rows)).
      split; [reflexivity|]. apply groupby_category_in.
      split; [exact Hx|]. split; [reflexivity|]. congruence.
Qed.
End ActivityOfTable.

Lemma activity_counts_every_message_witness :
  let df0 := parse_chat (lit "1/2/23, 10:00 - Eve: hi" ++ [nl]
                         ++ lit "1/1/23, 09:00 - Bob: yo" ++ [nl]
                         ++ lit "1/1/23, 10:30 - Bob: there") in
  empty df0 = false /\ well_formed df0
  /\ (exists out act,
        preprocess (L := sample_libs) df0 = Ok out
        /\ fst (get_activity_by_time (L := sample_libs)
                  (mkAnalyzer (df_filtered (lit "Bob") out) None))
           = Done (Some act)
        /\ hourly_activity act = [(9%Z, 1); (10%Z, 1)]
        /\ day_of_week_activity act
           = [(Some (lit "Monday"), 0); (Some (lit "Sunday"), 2)]
        /\ message_counts (hourly_activity act)
           = len (df_filtered (lit "Bob") out))
  /\ (exists out act,
        preprocess (L := sample_libs_pandas3) df0 = Ok out
        /\ fst (get_activity_by_time (L := sample_libs_pandas3)
                  (mkAnalyzer (df_filtered (lit "Bob") out) None))
           = Done (Some act)
        /\ day_of_week_activity act = [(Some (lit "Sunday"), 2)]
        /\ message_counts (day_of_week_activity act)
           = message_counts (daily_activity act)).
Proof.
  intros df0. split; [reflexivity|].
  split; [apply parse_chat_well_formed|]. split.
  - let v := eval vm_compute in (preprocess (L := sample_libs) df0) in
    match v with
    | Ok ?out =>
        destruct (activity_counts_every_message (L := sample_libs) df0 out
                    (df_filtered (lit "Bob") out)
                    eq_refl (parse_chat_well_formed _)
                    ltac:(vm_compute; reflexivity)
                    ltac:(right; eexists; reflexivity)
                    ltac:(vm_compute; reflexivity))
          as (act & ym & days & dates & rows & d & E & _ & _ & _ & _
              & H1 & _ & _ & _ & H2 & _);
        vm_compute in E; injection E as EA EY; subst act ym;
        exists out; eexists;
        split; [vm_compute; reflexivity|];
        split; [vm_compute; reflexivity|];
        split; [reflexivity|];
        split; [reflexivity|];
        rewrite H1; exact (H2 eq_refl)
    end.
  - let v := eval vm_compute in (preprocess (L := sample_libs_pandas3) df0) in
    match v with
    | Ok ?out =>
        destruct (activity_counts_every_message (L := sample_libs_pandas3)
                    df0 out (df_filtered (lit "Bob") out)
                    eq_refl (parse_chat_well_formed _)
                    ltac:(vm_compute; reflexivity)
                    ltac:(right; eexists; reflexivity)
                    ltac:(vm_compute; reflexivity))
          as (act & ym & days & dates & rows & d & E & _ & _ & _ & _
              & _ & _ & H1 & H2 & _ & H3 & _);
        vm_compute in E; injection E as EA EY; subst act ym;
        exists out; eexists;
        split; [vm_compute; reflexivity|];
        split; [vm_compute; reflexivity|];
        split; [reflexivity|];
        rewrite H1, H2; exact (H3 eq_refl)
    end.
Defined.

(* ===================================================================== *)
(** ** From the text of a chat to its table *)
(* ===================================================================== *)

Section EndToEnd.
Context {L : Libs}.

(** X20. When [analyze_chat] returns, its table has one row for every
    header line of the input, in the order of the input: the sender is
    the third group of the header line, the time its second group
    normalised by [convert_time], and the message its fourth group
    followed by the lines up to the next header line. *)
Theorem analyze_chat_rows (data : str) (out : DataFrame) :
  analyze_chat data = Ok out ->
  let bs := snd (blocks (split_on nl data)) in
  len out = length bs
  /\ user out = map (fun b => Re.group 3 (fst b)) bs
  /\ time out = map (fun b => convert_time (Re.group 2 (fst b))) bs
  /\ message out = map block_message bs.
Proof.
  intros H bs. unfold analyze_chat in H.
  assert (E : parse_chat data
              = {| date := StrCol (map (fun b => Re.group 1 (fst b)) bs);
                   time := map (fun b => Re.group 2 (fst b)) bs;
                   user := map (fun b => Re.group 3 (fst b)) bs;
                   message := map block_message bs;
                   derived := None |}).
  { unfold parse_chat. rewrite parse_lines_fold, fold_process_blocks.
    rewrite <- (app_nil_r (fst (blocks (split_on nl data)))).
    rewrite (leading_lines_dropped _ [] (blocks_lead_plain _)).
    reflexivity. }
  destruct (parse_chat_well_formed data) as (_ & Wt & _).
  pose proof (convert_times_map (parse_chat data) Wt) as Ht.
  destruct (empty (parse_chat data)) eqn:He.
  - unfold preprocess in H. rewrite He in H. injection H as <-.
    unfold empty, len in He. apply Nat.eqb_eq in He.
    rewrite E in He |- *. cbn [message user time len] in *.
    rewrite length_map in He. destruct bs; [|discriminate].
    unfold len. cbn. repeat split.
  - destruct (preprocess_nonempty _ _ He H)
      as (dt & _ & _ & Et & Eu & Em & _).
    unfold len. rewrite Em, Eu, Et, Ht, E. cbn [message user time].
    rewrite length_map, map_map. repeat split.
Qed.
End EndToEnd.

Lemma analyze_chat_rows_witness :
  let data := lit "1/1/23, 10:00 PM - Eve: hi" ++ [nl] ++ lit "there" in
  exists out,
    analyze_chat (L := sample_libs) data = Ok out
    /\ len out = 1
    /\ user out = [lit "Eve"]
    /\ time out = [lit "22:00"]
    /\ message out = [lit "hi" ++ [nl] ++ lit "there"].
Proof.
  intros data.
  let v := eval vm_compute in (analyze_chat (L := sample_libs) data) in
  match v with
  | Ok ?out =>
      exists out;
      destruct (analyze_chat_rows (L := sample_libs) data out
                  ltac:(vm_compute; reflexivity)) as (H1 & H2 & H3 & H4);
      split; [vm_compute; reflexivity|];
      split; [exact H1|];
      split; [exact H2|];
      split; [exact H3 | exact H4]
  end.
Defined.
